(** * Verification of the emotion-recognition training script

    A shallow embedding of [src/train.py]: the function [train] and the
    script body run in a state-and-exception monad whose state is the
    history of everything the script did: every call into an external
    collaborator (the ML framework, the dataset, model and utility
    modules, the operating system) with its outcome, and every exception
    the interpreter itself raised.

    The collaborators are not part of the script; they are represented by
    an arbitrary [oracle] that answers each call from the history so far,
    possibly by raising. Python floats are an arbitrary type [F] with the
    operations the script uses; the [config] dict is a finite map.

    The file has three parts: the script and what its runs are measured
    against ([Section Script]), a concrete world to run it in
    ([Module Demo]), and the properties ([Section Proofs], with their
    concrete instances in [Module Runs]). *)

From Stdlib Require Import ZArith QArith List String Bool Lia.
From stdpp Require Import base gmap strings list.

Close Scope Q_scope.
Local Open Scope string_scope.
Local Open Scope list_scope.

(** ** Python values the script manipulates *)

(** Floating-point numbers: literals and int conversion ([of_Q]), the
    arithmetic the script performs, and the comparison [a > b]. *)
Class PyFloat (F : Type) := {
  of_Q : Q -> F;
  fadd : F -> F -> F;
  fmul : F -> F -> F;
  fdiv : F -> F -> F;
  fgt : F -> F -> bool
}.

Definition of_Z {F} `{PyFloat F} (z : Z) : F := of_Q (inject_Z z).

(** The comparison orders the numbers (as [>] orders the floats other
    than NaN): a strict order in which being no greater is transitive. *)
Class PyFloatOrder (F : Type) `{PyFloat F} := {
  fgt_irrefl : forall x : F, fgt x x = false;
  fgt_trans : forall x y z : F, fgt x y = true -> fgt y z = true -> fgt x z = true;
  fgt_cotrans : forall x y z : F, fgt x z = true -> fgt x y = true \/ fgt y z = true
}.

(** Exceptions: the class name, [str(e)], and whether the class derives
    from [Exception] (as opposed to [BaseException] only). *)
Record exn := PyExc { exc_class : string; exc_msg : string; is_Exception : bool }.

(** [KeyError(k)] for a string key: its [str] is the [repr] of the key,
    the key in single quotes. *)
Definition KeyError (k : string) : exn := PyExc "KeyError" ("'" +:+ k +:+ "'") true.
Definition TypeError (m : string) : exn := PyExc "TypeError" m true.
Definition ZeroDivisionError : exn := PyExc "ZeroDivisionError" "float division by zero" true.

Inductive outcome (A : Type) : Type :=
| Ret (a : A)
| Raise (e : exn).
Arguments Ret {A} a.
Arguments Raise {A} e.

Inductive device := cuda | cpu.

Section Script.

Context {F : Type} `{PyFloat F}.
(** References to opaque Python objects (logger, model, tensors, ...). *)
Context {obj : Type}.

(** Values stored in the [config] dict. *)
Inductive pyval :=
| VStr (s : string)
| VInt (z : Z)
| VFloat (x : F).

(** A batch as a loader yields it: the input tensor (opaque) and the
    label tensor, a vector of class indices. *)
Record batch := { inputs : obj; labels : list nat }.

(** A data loader: the batches one iteration yields; [len(loader)] is
    their number. *)
Definition loader := list batch.

(** [dataloader_kwargs] *)
Record dl_kwargs := { batch_size : pyval; num_workers : Z; pin_memory : bool }.

(** The dynamic context of a call made inside [with] blocks:
    [torch.amp.autocast] and [torch.no_grad]. *)
Record ctx := { autocast : bool; no_grad : bool }.

(** The f-strings handed to [logger.log], by their interpolated values. *)
Inductive msg :=
| MsgUsingGPU (name : string)
| MsgGPUMemory (gb : F)
| MsgNoCuda
| MsgDatasetError (s : string)
| MsgNumClasses (n : Z)
| MsgTrainingSamples (n : Z)
| MsgValidationSamples (n : Z)
| MsgStarting
| MsgCurrentLR (lr : F)
| MsgEpoch (k : nat) (n : pyval)
| MsgTrain (loss acc : F)
| MsgVal (loss acc : F)
| MsgNewBest (acc : F).

(** ** Calls into the collaborators, indexed by the type of their result *)
Inductive call : Type -> Type :=
(* src.utils *)
| Logger (log_dir : pyval) : call obj
| Logger_log (logger : obj) (m : msg) : call unit
| save_checkpoint (model optimizer : obj) (epoch : nat)
    (val_loss val_acc : F) (checkpoint_dir : pyval) : call unit
(* os, torch, torch.cuda *)
| os_path_join (a : pyval) (b : string) : call string
| os_name : call string
| os_cpu_count : call (option Z)
| os_makedirs (path : pyval) (exist_ok : bool) : call unit
| manual_seed (seed : Z) : call unit
| cuda_manual_seed_all (seed : Z) : call unit
| cuda_is_available : call bool
| cuda_get_device_name (i : Z) : call string
| cuda_total_memory (i : Z) : call Z
(* src.dataset *)
| EmotionDataset (data_dir : string) (mode : string) : call obj
| get_dataloader (ds : obj) (shuffle : bool) (kw : dl_kwargs) : call loader
| get_num_classes (ds : obj) : call Z
| dataset_len (ds : obj) : call Z
(* src.model, torch.nn, torch.optim, torch.amp *)
| EmotionRecognitionModel (num_classes : Z) : call obj
| Module_to (model : obj) (d : device) : call obj
| Module_parameters (model : obj) : call obj
| Module_train (model : obj) : call unit
| Module_eval (model : obj) : call unit
| Module_call (model inputs : obj) (c : ctx) : call (list (list F))
| GradScaler (enabled : bool) : call obj
| CrossEntropyLoss : call obj
| Criterion_call (criterion : obj) (outputs : list (list F)) (labels : list nat)
    (c : ctx) : call obj
| Adam (params : obj) (lr weight_decay : pyval) : call obj
| ReduceLROnPlateau (optimizer : obj) (mode : string) (factor : F) (patience : Z) : call obj
| Scheduler_step (scheduler : obj) (metrics : F) : call unit
| Optimizer_zero_grad (optimizer : obj) : call unit
| Optimizer_step (optimizer : obj) : call unit
| Optimizer_lr (optimizer : obj) : call F
| Scaler_scale (scaler loss : obj) : call obj
| Scaler_step (scaler optimizer : obj) : call unit
| Scaler_update (scaler : obj) : call unit
| Tensor_to (t : obj) (d : device) : call obj
| Labels_to (l : list nat) (d : device) : call unit
| Tensor_backward (t : obj) : call unit
| Tensor_item (t : obj) : call F
(* tqdm *)
| tqdm (l : loader) (k : nat) (n : pyval) : call obj
| Tqdm_set_postfix (pbar : obj) (loss acc lr : F) : call unit.

(** What happened, in order: a call with its outcome, or an exception
    raised by the interpreter itself. *)
Inductive event :=
| Called {T : Type} (c : call T) (r : outcome T)
| Raised (e : exn).

(** ** The monad *)

(** The collaborators: the outcome of a call, given all that happened
    before it. *)
Variable oracle : forall T, call T -> list event -> outcome T.

(** A computation extends the history and returns or raises. *)
Definition M (A : Type) : Type := list event -> outcome A * list event.

Definition ret {A} (a : A) : M A := fun tr => (Ret a, tr).

Definition bind {A B} (m : M A) (f : A -> M B) : M B :=
  fun tr => match m tr with
            | (Ret a, tr') => f a tr'
            | (Raise e, tr') => (Raise e, tr')
            end.

(** An exception raised by the interpreter. *)
Definition raise {A} (e : exn) : M A :=
  fun tr => (Raise e, tr ++ [Raised e]).

(** A call into a collaborator. *)
Definition ext {T} (c : call T) : M T :=
  fun tr => let r := oracle T c tr in (r, tr ++ [Called c r]).

(** [try: m except Exception as e: h e] *)
Definition try_except {A} (m : M A) (h : exn -> M A) : M A :=
  fun tr => match m tr with
            | (Raise e, tr') => if is_Exception e then h e tr' else (Raise e, tr')
            | r => r
            end.

Notation "x <- m ;; k" := (bind m (fun x => k))
  (at level 90, m at level 80, right associativity).
Notation "m ;;; k" := (bind m (fun _ => k))
  (at level 90, right associativity).

(** [for x in l: acc = body acc x] *)
Fixpoint for_each {A B} (body : A -> B -> M A) (l : list B) (acc : A) : M A :=
  match l with
  | [] => ret acc
  | x :: l' => acc' <- body acc x ;; for_each body l' acc'
  end.

(** ** Python primitives *)

(** [config[k]] *)
Definition getitem (config : gmap string pyval) (k : string) : M pyval :=
  match config !! k with
  | Some v => ret v
  | None => raise (KeyError k)
  end.

(** [x / n] for a float [x] and an int [n] *)
Definition truediv (x : F) (n : Z) : M F :=
  if (n =? 0)%Z then raise ZeroDivisionError else ret (fdiv x (of_Z n)).

(** [range(v)] *)
Definition range (v : pyval) : M (list nat) :=
  match v with
  | VInt n => ret (seq 0 (Z.to_nat n))
  | _ => raise (TypeError "object cannot be interpreted as an integer")
  end.

(** [min(os.cpu_count(), 4)] *)
Definition min_cpu_count (c : option Z) : M Z :=
  match c with
  | Some n => ret (Z.min n 4)
  | None => raise (TypeError "'<' not supported between instances of 'int' and 'NoneType'")
  end.

(** Index of the first greatest entry of a row. *)
Fixpoint argmax_from (i besti : nat) (best : F) (row : list F) : nat :=
  match row with
  | [] => besti
  | x :: row' => if fgt x best then argmax_from (S i) i x row'
                 else argmax_from (S i) besti best row'
  end.

Definition argmax (row : list F) : nat :=
  match row with
  | [] => 0
  | x :: row' => argmax_from 1 0 x row'
  end.

(** [_, predicted = outputs.max(1)] *)
Definition max1 (outputs : list (list F)) : list nat := map argmax outputs.

(** [predicted.eq(labels).sum().item()], for a prediction per label: the
    criterion accepts a batch only with one row of logits per label, and
    [predicted] has an entry per row. (On lists of different lengths,
    where torch broadcasts or raises, this counts over the common
    prefix; nothing below relies on that.) *)
Fixpoint eq_sum (predicted labels : list nat) : nat :=
  match predicted, labels with
  | p :: ps, l :: ls => (if Nat.eqb p l then 1 else 0) + eq_sum ps ls
  | _, _ => 0
  end.

(** ** [train] *)

(** The local variables of [train] that the epoch loop reads. *)
Record locals := {
  config : gmap string pyval;
  logger : obj;
  cuda_available : bool;
  dev : device;
  train_loader : loader;
  val_loader : loader;
  model : obj;
  scaler : obj;
  criterion : obj;
  optimizer : obj;
  scheduler : obj
}.

(** The running sums of a phase: loss, correct predictions, samples. *)
Record sums := { loss_sum : F; correct : Z; total : Z }.

Definition sums0 : sums := {| loss_sum := of_Q 0; correct := 0; total := 0 |}.

Definition accumulate (a : sums) (l : F) (outputs : list (list F)) (lbls : list nat) : sums :=
  {| loss_sum := fadd (loss_sum a) l;
     correct := correct a + Z.of_nat (eq_sum (max1 outputs) lbls);
     total := total a + Z.of_nat (length lbls) |}.

(** [100.*correct/total] *)
Definition accuracy (a : sums) : M F :=
  truediv (fmul (of_Q 100) (of_Z (correct a))) (total a).

(** Body of the training loop (lines 96-126). *)
Definition train_batch (L : locals) (pbar : obj) (a : sums) (b : batch) : M sums :=
  x <- ext (Tensor_to (inputs b) (dev L)) ;;
  ext (Labels_to (labels b) (dev L)) ;;;
  ext (Optimizer_zero_grad (optimizer L)) ;;;
  ol <- (if cuda_available L then
           let c := {| autocast := true; no_grad := false |} in
           outputs <- ext (Module_call (model L) x c) ;;
           loss <- ext (Criterion_call (criterion L) outputs (labels b) c) ;;
           scaled <- ext (Scaler_scale (scaler L) loss) ;;
           ext (Tensor_backward scaled) ;;;
           ext (Scaler_step (scaler L) (optimizer L)) ;;;
           ext (Scaler_update (scaler L)) ;;;
           ret (outputs, loss)
         else
           let c := {| autocast := false; no_grad := false |} in
           outputs <- ext (Module_call (model L) x c) ;;
           loss <- ext (Criterion_call (criterion L) outputs (labels b) c) ;;
           ext (Tensor_backward loss) ;;;
           ext (Optimizer_step (optimizer L)) ;;;
           ret (outputs, loss)) ;;
  l <- ext (Tensor_item (snd ol)) ;;
  let a' := accumulate a l (fst ol) (labels b) in
  shown_loss <- truediv (loss_sum a') (total a') ;;
  shown_acc <- accuracy a' ;;
  lr <- ext (Optimizer_lr (optimizer L)) ;;
  ext (Tqdm_set_postfix pbar shown_loss shown_acc lr) ;;;
  ret a'.

(** Body of the validation loop (lines 135-149), inside [torch.no_grad()]. *)
Definition val_batch (L : locals) (a : sums) (b : batch) : M sums :=
  x <- ext (Tensor_to (inputs b) (dev L)) ;;
  ext (Labels_to (labels b) (dev L)) ;;;
  let c := {| autocast := cuda_available L; no_grad := true |} in
  outputs <- ext (Module_call (model L) x c) ;;
  loss <- ext (Criterion_call (criterion L) outputs (labels b) c) ;;
  l <- ext (Tensor_item loss) ;;
  ret (accumulate a l outputs (labels b)).

(** One iteration of the epoch loop (lines 89-173): the new
    [best_val_acc]. *)
Definition train_epoch (L : locals) (best_val_acc : F) (epoch : nat) : M F :=
  ext (Module_train (model L)) ;;;
  n <- getitem (config L) "num_epochs" ;;
  pbar <- ext (tqdm (train_loader L) (epoch + 1) n) ;;
  tr <- for_each (train_batch L pbar) (train_loader L) sums0 ;;
  ext (Module_eval (model L)) ;;;
  va <- for_each (val_batch L) (val_loader L) sums0 ;;
  val_acc <- accuracy va ;;
  ext (Scheduler_step (scheduler L) val_acc) ;;;
  current_lr <- ext (Optimizer_lr (optimizer L)) ;;
  ext (Logger_log (logger L) (MsgCurrentLR current_lr)) ;;;
  n <- getitem (config L) "num_epochs" ;;
  ext (Logger_log (logger L) (MsgEpoch (epoch + 1) n)) ;;;
  train_loss <- truediv (loss_sum tr) (Z.of_nat (length (train_loader L))) ;;
  train_acc <- accuracy tr ;;
  ext (Logger_log (logger L) (MsgTrain train_loss train_acc)) ;;;
  val_loss <- truediv (loss_sum va) (Z.of_nat (length (val_loader L))) ;;
  ext (Logger_log (logger L) (MsgVal val_loss val_acc)) ;;;
  if fgt val_acc best_val_acc then
    val_loss <- truediv (loss_sum va) (Z.of_nat (length (val_loader L))) ;;
    checkpoint_dir <- getitem (config L) "checkpoint_dir" ;;
    ext (save_checkpoint (model L) (optimizer L) epoch val_loss val_acc checkpoint_dir) ;;;
    ext (Logger_log (logger L) (MsgNewBest val_acc)) ;;;
    ret val_acc
  else ret best_val_acc.

(** Lines 30-41: both datasets, or [None] after the handler ran. *)
Definition create_datasets (config : gmap string pyval) (logger : obj)
  : M (option (obj * obj)) :=
  try_except
    (d <- getitem config "data_dir" ;;
     p <- ext (os_path_join d "train") ;;
     train_dataset <- ext (EmotionDataset p "train") ;;
     d <- getitem config "data_dir" ;;
     p <- ext (os_path_join d "val") ;;
     val_dataset <- ext (EmotionDataset p "val") ;;
     ret (Some (train_dataset, val_dataset)))
    (fun e =>
       ext (Logger_log logger (MsgDatasetError (exc_msg e))) ;;;
       ret None).

(** Lines 44-57: the two loaders. *)
Definition create_dataloaders (config : gmap string pyval) (cuda_available : bool)
    (train_dataset val_dataset : obj) : M (loader * loader) :=
  bs <- getitem config "batch_size" ;;
  os <- ext os_name ;;
  nw <- (if String.eqb os "nt" then ret 2%Z
         else c <- ext os_cpu_count ;; min_cpu_count c) ;;
  let dataloader_kwargs :=
    {| batch_size := bs; num_workers := nw; pin_memory := cuda_available |} in
  train_loader <- ext (get_dataloader train_dataset true dataloader_kwargs) ;;
  val_loader <- ext (get_dataloader val_dataset false dataloader_kwargs) ;;
  ret (train_loader, val_loader).

(** Lines 59-86: model, scaler, criterion, optimizer and scheduler. *)
Definition initialize (config : gmap string pyval) (logger : obj) (cuda_available : bool)
    (train_dataset val_dataset : obj) (train_loader val_loader : loader) : M locals :=
  let device := if cuda_available then cuda else cpu in
  k <- ext (get_num_classes train_dataset) ;;
  ext (Logger_log logger (MsgNumClasses k)) ;;;
  k <- ext (dataset_len train_dataset) ;;
  ext (Logger_log logger (MsgTrainingSamples k)) ;;;
  k <- ext (dataset_len val_dataset) ;;
  ext (Logger_log logger (MsgValidationSamples k)) ;;;
  num_classes <- ext (get_num_classes train_dataset) ;;
  model <- ext (EmotionRecognitionModel num_classes) ;;
  model <- ext (Module_to model device) ;;
  scaler <- ext (GradScaler cuda_available) ;;
  criterion <- ext CrossEntropyLoss ;;
  params <- ext (Module_parameters model) ;;
  lr <- getitem config "learning_rate" ;;
  wd <- getitem config "weight_decay" ;;
  optimizer <- ext (Adam params lr wd) ;;
  scheduler <- ext (ReduceLROnPlateau optimizer "max" (of_Q (1 # 10)) 5) ;;
  ext (Logger_log logger MsgStarting) ;;;
  ret {| config := config; logger := logger; cuda_available := cuda_available;
         dev := device; train_loader := train_loader; val_loader := val_loader;
         model := model; scaler := scaler; criterion := criterion;
         optimizer := optimizer; scheduler := scheduler |}.

(** The epoch loop over given epoch numbers, entered with
    [best_val_acc = 0.0] (line 85): the last [best_val_acc]. *)
Definition run_epochs (L : locals) (epochs : list nat) : M F :=
  let best_val_acc := of_Q 0 in
  for_each (train_epoch L) epochs best_val_acc.

(** Lines 85-173: [for epoch in range(config['num_epochs'])]. *)
Definition epoch_loop (L : locals) : M F :=
  n <- getitem (config L) "num_epochs" ;;
  epochs <- range n ;;
  run_epochs L epochs.

(** Lines 59-173: the objects of the training, then the epoch loop. *)
Definition fit (config : gmap string pyval) (logger : obj) (cuda_available : bool)
    (train_dataset val_dataset : obj) (train_loader val_loader : loader) : M unit :=
  L <- initialize config logger cuda_available train_dataset val_dataset
         train_loader val_loader ;;
  epoch_loop L ;;;
  ret tt.

(** Lines 44-173: everything after the datasets exist. *)
Definition train_rest (config : gmap string pyval) (logger : obj) (cuda_available : bool)
    (train_dataset val_dataset : obj) : M unit :=
  ls <- create_dataloaders config cuda_available train_dataset val_dataset ;;
  fit config logger cuda_available train_dataset val_dataset (fst ls) (snd ls).

(** Lines 17-27: the logger, and whether CUDA is available. *)
Definition preamble (config : gmap string pyval) : M (obj * bool) :=
  log_dir <- getitem config "log_dir" ;;
  logger <- ext (Logger log_dir) ;;
  cuda_available <- ext cuda_is_available ;;
  (if cuda_available then
     name <- ext (cuda_get_device_name 0) ;;
     ext (Logger_log logger (MsgUsingGPU name)) ;;;
     mem <- ext (cuda_total_memory 0) ;;
     ext (Logger_log logger (MsgGPUMemory (of_Q (Qmake mem (1024 ^ 3)%positive))))
   else
     ext (Logger_log logger MsgNoCuda)) ;;;
  ret (logger, cuda_available).

Definition train (config : gmap string pyval) : M unit :=
  lc <- preamble config ;;
  ds <- create_datasets config (fst lc) ;;
  match ds with
  | None => ret tt
  | Some (train_dataset, val_dataset) =>
      train_rest config (fst lc) (snd lc) train_dataset val_dataset
  end.

(** ** The script body ([if __name__ == '__main__']) *)

Definition main_config : gmap string pyval :=
  <["data_dir" := VStr "../data/split_images"]>
  (<["log_dir" := VStr "../logs"]>
  (<["checkpoint_dir" := VStr "../checkpoints"]>
  (<["batch_size" := VInt 64]>
  (<["learning_rate" := VFloat (of_Q (1 # 10000))]>
  (<["weight_decay" := VFloat (of_Q (1 # 100000))]>
  (<["num_epochs" := VInt 50]> ∅)))))).

Definition main : M unit :=
  let config := main_config in
  d <- getitem config "log_dir" ;;
  ext (os_makedirs d true) ;;;
  d <- getitem config "checkpoint_dir" ;;
  ext (os_makedirs d true) ;;;
  ext (manual_seed 42) ;;;
  c <- ext cuda_is_available ;;
  (if c then ext (cuda_manual_seed_all 42) else ret tt) ;;;
  train config.

(** ** What a completed run leaves in the history

    The events of each part of the script, as a function of what the
    collaborators answered. *)

(** The answers to the calls of one loop iteration over a batch. *)
Record batch_resp := {
  r_x : obj;
  r_outputs : list (list F);
  r_loss : obj;
  r_scaled : obj;
  r_item : F;
  r_lr : F
}.

Definition step_sums (a : sums) (b : batch) (r : batch_resp) : sums :=
  accumulate a (r_item r) (r_outputs r) (labels b).

Fixpoint phase_sums (a : sums) (bs : list batch) (rs : list batch_resp) : sums :=
  match bs, rs with
  | b :: bs', r :: rs' => phase_sums (step_sums a b r) bs' rs'
  | _, _ => a
  end.

Fixpoint phase_events (one : sums -> batch -> batch_resp -> list event)
    (a : sums) (bs : list batch) (rs : list batch_resp) : list event :=
  match bs, rs with
  | b :: bs', r :: rs' => one a b r ++ phase_events one (step_sums a b r) bs' rs'
  | _, _ => []
  end.

(** The value of [100.*correct/total] once the division is defined. *)
Definition ratio100 (a : sums) : F :=
  fdiv (fmul (of_Q 100) (of_Z (correct a))) (of_Z (total a)).

Definition train_batch_events (L : locals) (pbar : obj) (a : sums) (b : batch)
    (r : batch_resp) : list event :=
  let c := {| autocast := cuda_available L; no_grad := false |} in
  let a' := step_sums a b r in
  [ Called (Tensor_to (inputs b) (dev L)) (Ret (r_x r));
    Called (Labels_to (labels b) (dev L)) (Ret tt);
    Called (Optimizer_zero_grad (optimizer L)) (Ret tt);
    Called (Module_call (model L) (r_x r) c) (Ret (r_outputs r));
    Called (Criterion_call (criterion L) (r_outputs r) (labels b) c) (Ret (r_loss r)) ]
  ++ (if cuda_available L then
        [ Called (Scaler_scale (scaler L) (r_loss r)) (Ret (r_scaled r));
          Called (Tensor_backward (r_scaled r)) (Ret tt);
          Called (Scaler_step (scaler L) (optimizer L)) (Ret tt);
          Called (Scaler_update (scaler L)) (Ret tt) ]
      else
        [ Called (Tensor_backward (r_loss r)) (Ret tt);
          Called (Optimizer_step (optimizer L)) (Ret tt) ])
  ++ [ Called (Tensor_item (r_loss r)) (Ret (r_item r));
       Called (Optimizer_lr (optimizer L)) (Ret (r_lr r));
       Called (Tqdm_set_postfix pbar (fdiv (loss_sum a') (of_Z (total a')))
                 (ratio100 a') (r_lr r)) (Ret tt) ].

Definition val_batch_events (L : locals) (a : sums) (b : batch) (r : batch_resp)
  : list event :=
  let c := {| autocast := cuda_available L; no_grad := true |} in
  [ Called (Tensor_to (inputs b) (dev L)) (Ret (r_x r));
    Called (Labels_to (labels b) (dev L)) (Ret tt);
    Called (Module_call (model L) (r_x r) c) (Ret (r_outputs r));
    Called (Criterion_call (criterion L) (r_outputs r) (labels b) c) (Ret (r_loss r));
    Called (Tensor_item (r_loss r)) (Ret (r_item r)) ].

(** The answers to the calls of one epoch. *)
Record epoch_resp := {
  e_pbar : obj;
  e_train : list batch_resp;
  e_val : list batch_resp;
  e_lr : F
}.

Definition cfg_value (config : gmap string pyval) (k : string) : pyval :=
  default (VInt 0) (config !! k).

Definition train_sums (L : locals) (r : epoch_resp) : sums :=
  phase_sums sums0 (train_loader L) (e_train r).

Definition val_sums (L : locals) (r : epoch_resp) : sums :=
  phase_sums sums0 (val_loader L) (e_val r).

(** [loss_sum / len(loader)] *)
Definition mean_loss (a : sums) (l : loader) : F :=
  fdiv (loss_sum a) (of_Z (Z.of_nat (length l))).

Definition epoch_val_acc (L : locals) (r : epoch_resp) : F := ratio100 (val_sums L r).

Definition new_best (L : locals) (best : F) (r : epoch_resp) : F :=
  if fgt (epoch_val_acc L r) best then epoch_val_acc L r else best.

Definition checkpoint_events (L : locals) (best : F) (epoch : nat) (r : epoch_resp)
  : list event :=
  let val_acc := epoch_val_acc L r in
  if fgt val_acc best then
    [ Called (save_checkpoint (model L) (optimizer L) epoch
                (mean_loss (val_sums L r) (val_loader L)) val_acc
                (cfg_value (config L) "checkpoint_dir")) (Ret tt);
      Called (Logger_log (logger L) (MsgNewBest val_acc)) (Ret tt) ]
  else [].

Definition report_events (L : locals) (epoch : nat) (r : epoch_resp) : list event :=
  [ Called (Scheduler_step (scheduler L) (epoch_val_acc L r)) (Ret tt);
    Called (Optimizer_lr (optimizer L)) (Ret (e_lr r));
    Called (Logger_log (logger L) (MsgCurrentLR (e_lr r))) (Ret tt);
    Called (Logger_log (logger L)
              (MsgEpoch (epoch + 1) (cfg_value (config L) "num_epochs"))) (Ret tt);
    Called (Logger_log (logger L)
              (MsgTrain (mean_loss (train_sums L r) (train_loader L))
                        (ratio100 (train_sums L r)))) (Ret tt);
    Called (Logger_log (logger L)
              (MsgVal (mean_loss (val_sums L r) (val_loader L))
                      (epoch_val_acc L r))) (Ret tt) ].

Definition epoch_events (L : locals) (best : F) (epoch : nat) (r : epoch_resp)
  : list event :=
  [ Called (Module_train (model L)) (Ret tt);
    Called (tqdm (train_loader L) (epoch + 1) (cfg_value (config L) "num_epochs"))
           (Ret (e_pbar r)) ]
  ++ phase_events (train_batch_events L (e_pbar r)) sums0 (train_loader L) (e_train r)
  ++ [ Called (Module_eval (model L)) (Ret tt) ]
  ++ phase_events (val_batch_events L) sums0 (val_loader L) (e_val r)
  ++ report_events L epoch r
  ++ checkpoint_events L best epoch r.

Fixpoint loop_events (L : locals) (best : F) (epochs : list nat) (rs : list epoch_resp)
  : list event :=
  match epochs, rs with
  | e :: es, r :: rs' => epoch_events L best e r ++ loop_events L (new_best L best r) es rs'
  | _, _ => []
  end.

Fixpoint loop_best (L : locals) (best : F) (rs : list epoch_resp) : F :=
  match rs with
  | [] => best
  | r :: rs' => loop_best L (new_best L best r) rs'
  end.

(** An epoch's answers fit the loaders, and its validation saw a sample. *)
Definition epoch_resp_ok (L : locals) (r : epoch_resp) : Prop :=
  length (e_train r) = length (train_loader L)
  /\ length (e_val r) = length (val_loader L)
  /\ total (val_sums L r) <> 0%Z.

(** [2 if os.name == 'nt' else min(os.cpu_count(), 4)] *)
Definition workers (os : string) (cpus : Z) : Z :=
  if String.eqb os "nt" then 2%Z else Z.min cpus 4.

Definition kwargs (config : gmap string pyval) (cuda_available : bool)
    (os : string) (cpus : Z) : dl_kwargs :=
  {| batch_size := cfg_value config "batch_size";
     num_workers := workers os cpus;
     pin_memory := cuda_available |}.

Definition create_dataloaders_events (config : gmap string pyval) (cuda_available : bool)
    (train_dataset val_dataset : obj) (os : string) (cpus : Z) (tl vl : loader)
  : list event :=
  [ Called os_name (Ret os) ]
  ++ (if String.eqb os "nt" then [] else [ Called os_cpu_count (Ret (Some cpus)) ])
  ++ [ Called (get_dataloader train_dataset true (kwargs config cuda_available os cpus))
              (Ret tl);
       Called (get_dataloader val_dataset false (kwargs config cuda_available os cpus))
              (Ret vl) ].

(** The answers to the calls of lines 59-86 that are not kept in a local
    variable the loop reads. *)
Record init_resp := {
  i_classes : Z;
  i_train_len : Z;
  i_val_len : Z;
  i_num_classes : Z;
  i_model : obj;
  i_params : obj
}.

Definition initialize_events (L : locals) (train_dataset val_dataset : obj)
    (r : init_resp) : list event :=
  [ Called (get_num_classes train_dataset) (Ret (i_classes r));
    Called (Logger_log (logger L) (MsgNumClasses (i_classes r))) (Ret tt);
    Called (dataset_len train_dataset) (Ret (i_train_len r));
    Called (Logger_log (logger L) (MsgTrainingSamples (i_train_len r))) (Ret tt);
    Called (dataset_len val_dataset) (Ret (i_val_len r));
    Called (Logger_log (logger L) (MsgValidationSamples (i_val_len r))) (Ret tt);
    Called (get_num_classes train_dataset) (Ret (i_num_classes r));
    Called (EmotionRecognitionModel (i_num_classes r)) (Ret (i_model r));
    Called (Module_to (i_model r) (dev L)) (Ret (model L));
    Called (GradScaler (cuda_available L)) (Ret (scaler L));
    Called CrossEntropyLoss (Ret (criterion L));
    Called (Module_parameters (model L)) (Ret (i_params r));
    Called (Adam (i_params r) (cfg_value (config L) "learning_rate")
                 (cfg_value (config L) "weight_decay")) (Ret (optimizer L));
    Called (ReduceLROnPlateau (optimizer L) "max" (of_Q (1 # 10)) 5) (Ret (scheduler L));
    Called (Logger_log (logger L) MsgStarting) (Ret tt) ].

(** The answers to the calls of a completed training. *)
Record rest_resp := {
  u_os : string;
  u_cpus : Z;
  u_init : init_resp;
  u_epochs : list epoch_resp
}.

(** [range(config['num_epochs'])] once it is known to be defined. *)
Definition epoch_range (config : gmap string pyval) : list nat :=
  match cfg_value config "num_epochs" with
  | VInt n => seq 0 (Z.to_nat n)
  | _ => []
  end.

Definition train_rest_events (L : locals) (train_dataset val_dataset : obj)
    (u : rest_resp) : list event :=
  create_dataloaders_events (config L) (cuda_available L) train_dataset val_dataset
    (u_os u) (u_cpus u) (train_loader L) (val_loader L)
  ++ initialize_events L train_dataset val_dataset (u_init u)
  ++ loop_events L (of_Q 0) (epoch_range (config L)) (u_epochs u).

(** The answers to the calls before the loaders are made. *)
Record head_resp := {
  h_name : string;
  h_mem : Z;
  h_train_path : string;
  h_val_path : string
}.

Definition greeting_events (logger : obj) (cuda_available : bool) (name : string) (mem : Z)
  : list event :=
  if cuda_available then
    [ Called (cuda_get_device_name 0) (Ret name);
      Called (Logger_log logger (MsgUsingGPU name)) (Ret tt);
      Called (cuda_total_memory 0) (Ret mem);
      Called (Logger_log logger (MsgGPUMemory (of_Q (Qmake mem (1024 ^ 3)%positive))))
             (Ret tt) ]
  else [ Called (Logger_log logger MsgNoCuda) (Ret tt) ].

Definition preamble_events (config : gmap string pyval) (logger : obj)
    (cuda_available : bool) (name : string) (mem : Z) : list event :=
  [ Called (Logger (cfg_value config "log_dir")) (Ret logger);
    Called cuda_is_available (Ret cuda_available) ]
  ++ greeting_events logger cuda_available name mem.

Definition datasets_events (config : gmap string pyval) (p1 : string) (train_dataset : obj)
    (p2 : string) (val_dataset : obj) : list event :=
  [ Called (os_path_join (cfg_value config "data_dir") "train") (Ret p1);
    Called (EmotionDataset p1 "train") (Ret train_dataset);
    Called (os_path_join (cfg_value config "data_dir") "val") (Ret p2);
    Called (EmotionDataset p2 "val") (Ret val_dataset) ].

(** The events of the [try] block when it raises [e]. *)
Inductive try_failed (config : gmap string pyval) : list event -> exn -> Prop :=
| failed_key :
    config !! "data_dir" = None ->
    try_failed config [ Raised (KeyError "data_dir") ] (KeyError "data_dir")
| failed_train_path e :
    try_failed config
      [ Called (os_path_join (cfg_value config "data_dir") "train") (Raise e) ] e
| failed_train_dataset p1 e :
    try_failed config
      [ Called (os_path_join (cfg_value config "data_dir") "train") (Ret p1);
        Called (EmotionDataset p1 "train") (Raise e) ] e
| failed_val_path p1 d e :
    try_failed config
      [ Called (os_path_join (cfg_value config "data_dir") "train") (Ret p1);
        Called (EmotionDataset p1 "train") (Ret d);
        Called (os_path_join (cfg_value config "data_dir") "val") (Raise e) ] e
| failed_val_dataset p1 d p2 e :
    try_failed config
      [ Called (os_path_join (cfg_value config "data_dir") "train") (Ret p1);
        Called (EmotionDataset p1 "train") (Ret d);
        Called (os_path_join (cfg_value config "data_dir") "val") (Ret p2);
        Called (EmotionDataset p2 "val") (Raise e) ] e.

(** ** Runs that fail *)

(** The exception an event raised, if it raised one. *)
Definition failure (ev : event) : option exn :=
  match ev with
  | Called _ (Raise e) => Some e
  | Raised e => Some e
  | _ => None
  end.

(** The events of a computation agree with its outcome: nothing failed
    when it returned, and when it raised [e] the one failure is the last
    event and raised [e]. *)
Definition settled {A} (evs : list event) (o : outcome A) : Prop :=
  match o with
  | Ret _ => omap failure evs = []
  | Raise e => exists pre ev,
      evs = pre ++ [ev] /\ failure ev = Some e /\ omap failure pre = []
  end.

(** A computation that handles no failure, and whose events all satisfy [P]. *)
Definition tidy (P : event -> Prop) {A} (m : M A) : Prop :=
  forall tr, exists evs,
    (m tr).2 = tr ++ evs /\ Forall P evs /\ settled evs (m tr).1.

(** The exception a dataset constructor raised. *)
Definition dataset_failure (ev : event) : option exn :=
  match ev with
  | Called (EmotionDataset _ _) (Raise e) => Some e
  | _ => None
  end.

(** The dataset a constructor returned. *)
Definition dataset_built (ev : event) : option obj :=
  match ev with
  | Called (EmotionDataset _ _) (Ret d) => Some d
  | _ => None
  end.

(** Calls that only lines 44-173 make: loaders, model construction,
    training, validation, scheduling and checkpointing. *)
Definition after_datasets {T} (c : call T) : bool :=
  match c with
  | Logger _ | Logger_log _ _ | os_path_join _ _ | os_makedirs _ _
  | manual_seed _ | cuda_manual_seed_all _ | cuda_is_available
  | cuda_get_device_name _ | cuda_total_memory _ | EmotionDataset _ _ => false
  | _ => true
  end.

Definition uses_datasets (ev : event) : bool :=
  match ev with
  | Called c _ => after_datasets c
  | Raised _ => false
  end.

(** Calls that lines 59-173 make: logging, and what the training itself
    needs. *)
Definition in_fit {T} (c : call T) : bool :=
  match c with
  | Logger _ | os_path_join _ _ | os_name | os_cpu_count | os_makedirs _ _
  | manual_seed _ | cuda_manual_seed_all _ | cuda_is_available
  | cuda_get_device_name _ | cuda_total_memory _ | EmotionDataset _ _
  | get_dataloader _ _ _ => false
  | _ => true
  end.

(** Calls made while the datasets are being constructed. *)
Definition in_try {T} (c : call T) : bool :=
  match c with
  | os_path_join _ _ | EmotionDataset _ _ => true
  | _ => false
  end.

(** ** Model selection *)

(** The checkpoint an event wrote: its epoch and validation accuracy. *)
Definition saved (ev : event) : option (nat * F) :=
  match ev with
  | Called (save_checkpoint _ _ epoch _ val_acc _) _ => Some (epoch, val_acc)
  | _ => None
  end.

(** The validation accuracy an epoch reported. *)
Definition validated (ev : event) : option F :=
  match ev with
  | Called (Logger_log _ (MsgVal _ val_acc)) _ => Some val_acc
  | _ => None
  end.

(** The checkpoints that selection by validation accuracy writes for the
    accuracies [accs] of the epochs [epoch], [epoch + 1], ...: one for
    each accuracy greater than the best before it, which it replaces. *)
Fixpoint checkpoints (best : F) (epoch : nat) (accs : list F) : list (nat * F) :=
  match accs with
  | [] => []
  | v :: vs =>
      if fgt v best then (epoch, v) :: checkpoints v (S epoch) vs
      else checkpoints best (S epoch) vs
  end.

(** The best accuracy after the epochs with accuracies [accs]. *)
Fixpoint running_best (best : F) (accs : list F) : F :=
  match accs with
  | [] => best
  | v :: vs => running_best (if fgt v best then v else best) vs
  end.

(** ** The steps of an epoch *)




(** ** Learning-rate adaptation *)

Inductive lr_step :=
| CreateScheduler (scheduler : obj) (mode : string) (factor : F) (patience : Z)
| BeginEpoch                                  (* model.train() *)
| Validate                                    (* a forward pass under no_grad *)
| StepScheduler (scheduler : obj) (metrics : F)
| LogLine                                     (* a line of the epoch's report *)
| LogValidation (val_acc : F)                 (* its line with the validation accuracy *)
| SaveCheckpoint.

Definition lr_step_of (ev : event) : option lr_step :=
  match ev with
  | Called (ReduceLROnPlateau _ mode factor patience) (Ret s) =>
      Some (CreateScheduler s mode factor patience)
  | Called (Module_train _) _ => Some BeginEpoch
  | Called (Module_call _ _ c) _ => if no_grad c then Some Validate else None
  | Called (Scheduler_step s v) _ => Some (StepScheduler s v)
  | Called (Logger_log _ (MsgVal _ v)) _ => Some (LogValidation v)
  | Called (Logger_log _ (MsgCurrentLR _)) _ => Some LogLine
  | Called (Logger_log _ (MsgEpoch _ _)) _ => Some LogLine
  | Called (Logger_log _ (MsgTrain _ _)) _ => Some LogLine
  | Called (Logger_log _ (MsgNewBest _)) _ => Some LogLine
  | Called (save_checkpoint _ _ _ _ _ _) _ => Some SaveCheckpoint
  | _ => None
  end.

(** An epoch with [n_val] validation batches and validation accuracy
    [v], as learning-rate adaptation sees it. *)
Definition epoch_lr_steps (scheduler : obj) (n_val : nat) (v : F) (save : bool)
  : list lr_step :=
  [BeginEpoch] ++ repeat Validate n_val
  ++ [StepScheduler scheduler v; LogLine; LogLine; LogLine; LogValidation v]
  ++ (if save then [SaveCheckpoint; LogLine] else []).

(** ** Reported metrics *)

(** The logits and labels of a training batch whose loss was computed. *)
Definition train_result (ev : event) : option (list (list F) * list nat) :=
  match ev with
  | Called (Criterion_call _ outputs lbls c) _ =>
      if no_grad c then None else Some (outputs, lbls)
  | _ => None
  end.

(** The logits and labels of a validation batch whose loss was computed. *)
Definition val_result (ev : event) : option (list (list F) * list nat) :=
  match ev with
  | Called (Criterion_call _ outputs lbls c) _ =>
      if no_grad c then Some (outputs, lbls) else None
  | _ => None
  end.

(** The value [loss.item()] returned. *)
Definition loss_item (ev : event) : option F :=
  match ev with
  | Called (Tensor_item _) (Ret x) => Some x
  | _ => None
  end.

(** The loss and accuracy of the epoch's line about training. *)
Definition train_report (ev : event) : option (F * F) :=
  match ev with
  | Called (Logger_log _ (MsgTrain loss acc)) _ => Some (loss, acc)
  | _ => None
  end.

(** The loss and accuracy of the epoch's line about validation. *)
Definition val_report (ev : event) : option (F * F) :=
  match ev with
  | Called (Logger_log _ (MsgVal loss acc)) _ => Some (loss, acc)
  | _ => None
  end.

(** The logits answered for a batch, with the labels of the batch. *)
Definition batch_result (b : batch) (r : batch_resp) : list (list F) * list nat :=
  (r_outputs r, labels b).

(** Predictions (the argmax of each row of logits) equal to the label. *)
Definition hits (results : list (list (list F) * list nat)) : nat :=
  list_sum (map (fun b => eq_sum (max1 b.1) b.2) results).

(** Samples processed. *)
Definition seen (results : list (list (list F) * list nat)) : nat :=
  length (concat (map snd results)).

(** Losses added up from 0.0 in the order of the batches. *)
Definition sum_losses (items : list F) : F := fold_left fadd items (of_Q 0).

(** [100.*count/samples] *)
Definition percent (count samples : nat) : F :=
  fdiv (fmul (of_Q 100) (of_Z (Z.of_nat count))) (of_Z (Z.of_nat samples)).

(** ** When the metrics are defined *)

(** Collaborators that never raise in what lines 59-173 ask of them. *)
Definition obliging : Prop :=
  forall T (c : call T) tr, in_fit c = true -> exists r, oracle T c tr = Ret r.

(** The precondition as the specification words it: each loader yields
    at least one batch and at least one sample. *)
Definition yields_batch_and_sample (l : loader) : Prop :=
  l <> [] /\ length (concat (map labels l)) <> 0.

(** A computation that returns, with a result satisfying [Q]. *)
Definition returns {A} (Q : A -> Prop) (m : M A) : Prop :=
  forall tr, exists x tr', m tr = (Ret x, tr') /\ Q x.

(** The loader yields a batch, and its first batch has a sample. *)
Definition first_batch_nonempty (l : loader) : Prop :=
  match l with
  | b :: _ => labels b <> []
  | [] => False
  end.

(** The samples a loader yields. *)
Definition samples (l : loader) : nat := length (concat (map labels l)).

(** The events of a completed [train] that built both datasets. *)
Definition train_events (L : locals) (h : head_resp) (train_dataset val_dataset : obj)
    (u : rest_resp) : list event :=
  preamble_events (config L) (logger L) (cuda_available L) (h_name h) (h_mem h)
  ++ datasets_events (config L) (h_train_path h) train_dataset (h_val_path h) val_dataset
  ++ train_rest_events L train_dataset val_dataset u.

(** The events of a completed [train] that could not build them. *)
Definition aborted_events (config : gmap string pyval) (logger : obj)
    (cuda_available : bool) (h : head_resp) (failed : list event) (e : exn) : list event :=
  preamble_events config logger cuda_available (h_name h) (h_mem h)
  ++ failed
  ++ [ Called (Logger_log logger (MsgDatasetError (exc_msg e))) (Ret tt) ].

(** The events of the script body before it calls [train]: the
    directories, then the seeds. *)
Definition seed_events (cuda_available : bool) : list event :=
  [ Called (manual_seed 42) (Ret tt);
    Called cuda_is_available (Ret cuda_available) ]
  ++ (if cuda_available then [ Called (cuda_manual_seed_all 42) (Ret tt) ] else []).

Definition main_head_events (cuda_available : bool) : list event :=
  [ Called (os_makedirs (VStr "../logs") true) (Ret tt);
    Called (os_makedirs (VStr "../checkpoints") true) (Ret tt) ]
  ++ seed_events cuda_available.

(** ** Mixed precision *)

Inductive precision_step :=
| CudaAvailable (answer : bool)            (* torch.cuda.is_available() *)
| CreateScaler (enabled : bool)            (* GradScaler(enabled=...) *)
| Forward (autocast no_grad : bool)        (* model(inputs) *)
| Loss (autocast no_grad : bool)           (* criterion(outputs, labels) *)
| ScaleLoss                                (* scaler.scale(loss) *)
| Backward                                 (* backward() *)
| ScalerStep                               (* scaler.step(optimizer) *)
| ScalerUpdate                             (* scaler.update() *)
| PlainStep.                               (* optimizer.step() *)

Definition precision_of (ev : event) : option precision_step :=
  match ev with
  | Called cuda_is_available (Ret b) => Some (CudaAvailable b)
  | Called (GradScaler enabled) _ => Some (CreateScaler enabled)
  | Called (Module_call _ _ c) _ => Some (Forward (autocast c) (no_grad c))
  | Called (Criterion_call _ _ _ c) _ => Some (Loss (autocast c) (no_grad c))
  | Called (Scaler_scale _ _) _ => Some ScaleLoss
  | Called (Tensor_backward _) _ => Some Backward
  | Called (Scaler_step _ _) _ => Some ScalerStep
  | Called (Scaler_update _) _ => Some ScalerUpdate
  | Called (Optimizer_step _) _ => Some PlainStep
  | _ => None
  end.

(** A training batch, with mixed precision or without. *)
Definition train_batch_precision (mixed : bool) : list precision_step :=
  if mixed then
    [Forward true false; Loss true false; ScaleLoss; Backward; ScalerStep; ScalerUpdate]
  else [Forward false false; Loss false false; Backward; PlainStep].

(** A validation batch, with mixed precision or without. *)
Definition val_batch_precision (mixed : bool) : list precision_step :=
  [Forward mixed true; Loss mixed true].

Definition epoch_precision (mixed : bool) (n_train n_val : nat) : list precision_step :=
  concat (repeat (train_batch_precision mixed) n_train)
  ++ concat (repeat (val_batch_precision mixed) n_val).

(** ** The script's configuration and directories *)

(** The directory an event created, and its [exist_ok]. *)
Definition made_dir (ev : event) : option (pyval * bool) :=
  match ev with
  | Called (os_makedirs path exist_ok) _ => Some (path, exist_ok)
  | _ => None
  end.

(** The [Epoch k/n:] line of an epoch's report. *)
Definition epoch_line (ev : event) : option (nat * pyval) :=
  match ev with
  | Called (Logger_log _ (MsgEpoch k n)) _ => Some (k, n)
  | _ => None
  end.

(** ** The data loaders *)

Inductive loader_step :=
| CudaAnswer (answer : bool)                      (* torch.cuda.is_available() *)
| OsName (name : string)                          (* os.name *)
| CpuCount (n : Z)                                (* os.cpu_count() *)
| MakeLoader (shuffle : bool) (kw : dl_kwargs).   (* get_dataloader(shuffle=..., **kw) *)

Definition loader_step_of (ev : event) : option loader_step :=
  match ev with
  | Called cuda_is_available (Ret b) => Some (CudaAnswer b)
  | Called os_name (Ret s) => Some (OsName s)
  | Called os_cpu_count (Ret (Some n)) => Some (CpuCount n)
  | Called (get_dataloader _ shuffle kw) _ => Some (MakeLoader shuffle kw)
  | _ => None
  end.

(** What [train] does about its loaders when CUDA availability is
    [cuda_available], the operating system is [os] and it has [cpus]
    CPUs: the training loader, then the validation loader, with the same
    keyword arguments. *)
Definition loader_steps (config : gmap string pyval) (cuda_available : bool)
    (os : string) (cpus : Z) : list loader_step :=
  [ OsName os ]
  ++ (if String.eqb os "nt" then [] else [ CpuCount cpus ])
  ++ [ MakeLoader true (kwargs config cuda_available os cpus);
       MakeLoader false (kwargs config cuda_available os cpus) ].

(** ** The progress bar *)

(** The loss and accuracy a progress bar was asked to show. *)
Definition postfix (ev : event) : option (F * F) :=
  match ev with
  | Called (Tqdm_set_postfix _ loss acc _) _ => Some (loss, acc)
  | _ => None
  end.

(** ** What a checkpoint holds *)

(** The arguments of a call of [save_checkpoint]. *)
Definition checkpoint_call (ev : event) : option (obj * obj * nat * F * F * pyval) :=
  match ev with
  | Called (save_checkpoint m o epoch val_loss val_acc dir) _ =>
      Some (m, o, epoch, val_loss, val_acc, dir)
  | _ => None
  end.

(** ** Training and evaluation mode *)

Inductive mode_step :=
| TrainMode                 (* model.train() *)
| EvalMode                  (* model.eval() *)
| ZeroGrad                  (* optimizer.zero_grad() *)
| ForwardPass (grad : bool). (* model(inputs), gradients enabled or not *)

Definition mode_of (ev : event) : option mode_step :=
  match ev with
  | Called (Module_train _) _ => Some TrainMode
  | Called (Module_eval _) _ => Some EvalMode
  | Called (Optimizer_zero_grad _) _ => Some ZeroGrad
  | Called (Module_call _ _ c) _ => Some (ForwardPass (negb (no_grad c)))
  | _ => None
  end.

(** An epoch over [n_train] training and [n_val] validation batches. *)
Definition epoch_modes (n_train n_val : nat) : list mode_step :=
  [TrainMode] ++ concat (repeat [ZeroGrad; ForwardPass true] n_train)
  ++ [EvalMode] ++ repeat (ForwardPass false) n_val.


(** ** What the script body does before it trains *)

Inductive setup_step :=
| MakeDir (path : pyval) (exist_ok : bool)   (* os.makedirs(path, exist_ok=...) *)
| SeedTorch (seed : Z)                       (* torch.manual_seed(seed) *)
| SeedCuda (seed : Z)                        (* torch.cuda.manual_seed_all(seed) *)
| AskCuda (answer : bool)                    (* torch.cuda.is_available() *)
| OpenLog (log_dir : pyval).                 (* Logger(log_dir) *)

Definition setup_of (ev : event) : option setup_step :=
  match ev with
  | Called (os_makedirs path exist_ok) _ => Some (MakeDir path exist_ok)
  | Called (manual_seed seed) _ => Some (SeedTorch seed)
  | Called (cuda_manual_seed_all seed) _ => Some (SeedCuda seed)
  | Called cuda_is_available (Ret b) => Some (AskCuda b)
  | Called (Logger log_dir) _ => Some (OpenLog log_dir)
  | _ => None
  end.

(** The event creates a directory or seeds a random number generator. *)
Definition prepares (ev : event) : bool :=
  match ev with
  | Called (os_makedirs _ _) _ | Called (manual_seed _) _
  | Called (cuda_manual_seed_all _) _ => true
  | _ => false
  end.

(** A computation whose events all satisfy [P], whatever its outcome and
    whatever it handles. *)
Definition within (P : event -> Prop) {A} (m : M A) : Prop :=
  forall tr, exists evs, (m tr).2 = tr ++ evs /\ Forall P evs.

(** ** Where the tensors live *)

Inductive move :=
| MoveModel (d : device)     (* model.to(device) *)
| MoveInputs (d : device)    (* inputs.to(device) *)
| MoveLabels (d : device).   (* labels.to(device) *)

Definition move_of (ev : event) : option move :=
  match ev with
  | Called (Module_to _ d) _ => Some (MoveModel d)
  | Called (Tensor_to _ d) _ => Some (MoveInputs d)
  | Called (Labels_to _ d) _ => Some (MoveLabels d)
  | _ => None
  end.

(** The moves of an epoch over [n_train] training and [n_val] validation
    batches. *)
Definition epoch_moves (d : device) (n_train n_val : nat) : list move :=
  concat (repeat [MoveInputs d; MoveLabels d] n_train)
  ++ concat (repeat [MoveInputs d; MoveLabels d] n_val).

(** ** The objects of a training *)

Inductive construction :=
| NewLogger (logger : obj)                              (* Logger(...) *)
| MovedModel (model : obj)                              (* model.to(device) *)
| NewScaler (scaler : obj)                              (* GradScaler(...) *)
| NewCriterion (criterion : obj)                        (* CrossEntropyLoss() *)
| ParametersOf (model params : obj)                     (* model.parameters() *)
| NewOptimizer (params : obj) (lr wd : pyval) (optimizer : obj)  (* Adam(...) *)
| NewScheduler (optimizer scheduler : obj).             (* ReduceLROnPlateau(...) *)

Definition construction_of (ev : event) : option construction :=
  match ev with
  | Called (Logger _) (Ret lg) => Some (NewLogger lg)
  | Called (Module_to _ _) (Ret m) => Some (MovedModel m)
  | Called (GradScaler _) (Ret s) => Some (NewScaler s)
  | Called CrossEntropyLoss (Ret c) => Some (NewCriterion c)
  | Called (Module_parameters m) (Ret p) => Some (ParametersOf m p)
  | Called (Adam p lr wd) (Ret o) => Some (NewOptimizer p lr wd o)
  | Called (ReduceLROnPlateau o _ _ _) (Ret s) => Some (NewScheduler o s)
  | _ => None
  end.

(** The event, if it uses a logger, model, criterion, optimizer, scaler
    or scheduler, uses that of [L]. *)
Definition uses (L : locals) (ev : event) : Prop :=
  match ev with
  | Called (Logger_log lg _) _ => lg = logger L
  | Called (Module_train m) _ | Called (Module_eval m) _
  | Called (Module_call m _ _) _ => m = model L
  | Called (Criterion_call c _ _ _) _ => c = criterion L
  | Called (Optimizer_zero_grad o) _ | Called (Optimizer_step o) _
  | Called (Optimizer_lr o) _ => o = optimizer L
  | Called (Scaler_scale s _) _ | Called (Scaler_update s) _ => s = scaler L
  | Called (Scaler_step s o) _ => s = scaler L /\ o = optimizer L
  | Called (Scheduler_step s _) _ => s = scheduler L
  | Called (save_checkpoint m o _ _ _ _) _ => m = model L /\ o = optimizer L
  | Called (tqdm l _ _) _ => l = train_loader L
  | _ => True
  end.


(** The answer of [torch.cuda.is_available()]. *)
Definition cuda_answer (ev : event) : option bool :=
  match ev with
  | Called cuda_is_available (Ret b) => Some b
  | _ => None
  end.


(** ** The datasets and what is told about them *)

Inductive data_step :=
| JoinPath (dir : pyval) (sub path : string)     (* os.path.join(dir, sub) gave path *)
| BuildDataset (path mode : string) (ds : obj)   (* EmotionDataset(path, mode) gave ds *)
| CountClasses (ds : obj) (k : Z)                (* ds.get_num_classes() gave k *)
| CountSamples (ds : obj) (n : Z)                (* len(ds.dataset) gave n *)
| LogClasses (k : Z)                             (* 'Number of classes: k' *)
| LogTrainingSamples (n : Z)                     (* 'Training samples: n' *)
| LogValidationSamples (n : Z)                   (* 'Validation samples: n' *)
| BuildModel (num_classes : Z).                  (* EmotionRecognitionModel(num_classes) *)

Definition data_of (ev : event) : option data_step :=
  match ev with
  | Called (os_path_join dir sub) (Ret path) => Some (JoinPath dir sub path)
  | Called (EmotionDataset path mode) (Ret ds) => Some (BuildDataset path mode ds)
  | Called (get_num_classes ds) (Ret k) => Some (CountClasses ds k)
  | Called (dataset_len ds) (Ret n) => Some (CountSamples ds n)
  | Called (Logger_log _ (MsgNumClasses k)) _ => Some (LogClasses k)
  | Called (Logger_log _ (MsgTrainingSamples n)) _ => Some (LogTrainingSamples n)
  | Called (Logger_log _ (MsgValidationSamples n)) _ => Some (LogValidationSamples n)
  | Called (EmotionRecognitionModel k) _ => Some (BuildModel k)
  | _ => None
  end.

(** ** The learning rates shown *)

Inductive rate_step :=
| StepTaken                 (* optimizer.step() or scaler.step(optimizer) *)
| ScheduleStep              (* scheduler.step(val_acc) *)
| ReadRate (lr : F)         (* optimizer.param_groups[0]['lr'] gave lr *)
| ShowRate (lr : F)         (* the 'lr' of pbar.set_postfix *)
| LogRate (lr : F).         (* 'Current Learning rate is lr' *)

Definition rate_of (ev : event) : option rate_step :=
  match ev with
  | Called (Optimizer_step _) _ => Some StepTaken
  | Called (Scaler_step _ _) _ => Some StepTaken
  | Called (Scheduler_step _ _) _ => Some ScheduleStep
  | Called (Optimizer_lr _) (Ret lr) => Some (ReadRate lr)
  | Called (Tqdm_set_postfix _ _ _ lr) _ => Some (ShowRate lr)
  | Called (Logger_log _ (MsgCurrentLR lr)) _ => Some (LogRate lr)
  | _ => None
  end.


(** ** What a run tells about its device *)

Inductive device_step :=
| AskedCuda (answer : bool)             (* torch.cuda.is_available() *)
| DeviceName (i : Z) (name : string)    (* torch.cuda.get_device_name(i) gave name *)
| DeviceMemory (i : Z) (bytes : Z)      (* get_device_properties(i).total_memory *)
| ToldDevice (m : msg).                 (* a log line about the device *)

Definition device_of (ev : event) : option device_step :=
  match ev with
  | Called cuda_is_available (Ret b) => Some (AskedCuda b)
  | Called (cuda_get_device_name i) (Ret name) => Some (DeviceName i name)
  | Called (cuda_total_memory i) (Ret bytes) => Some (DeviceMemory i bytes)
  | Called (Logger_log _ (MsgUsingGPU name)) _ => Some (ToldDevice (MsgUsingGPU name))
  | Called (Logger_log _ (MsgGPUMemory gb)) _ => Some (ToldDevice (MsgGPUMemory gb))
  | Called (Logger_log _ MsgNoCuda) _ => Some (ToldDevice MsgNoCuda)
  | _ => None
  end.


(** The loader a dataset was asked for, and gave. *)
Definition loader_made (ev : event) : option (obj * bool * loader) :=
  match ev with
  | Called (get_dataloader ds shuffle _) (Ret l) => Some (ds, shuffle, l)
  | _ => None
  end.

(** The message of an error about the datasets that was logged. *)
Definition error_logged (ev : event) : option string :=
  match ev with
  | Called (Logger_log _ (MsgDatasetError s)) _ => Some s
  | _ => None
  end.


End Script.

Notation "x <- m ;; k" := (bind m (fun x => k))
  (at level 90, m at level 80, right associativity).
Notation "m ;;; k" := (bind m (fun _ => k))
  (at level 90, right associativity).

(** ** A concrete world

    Exact rationals for the floats, lists of numbers for the objects, and
    collaborators that behave: a two-class problem in which the "pixel"
    [2 * d + c] of a sample of class [c] is classified correctly from the
    epoch on in which [d] optimizer-visible epochs have passed. *)
Module Demo.

#[export] Instance Q_float : PyFloat Q := {|
  of_Q := Qred;
  fadd x y := Qred (x + y);
  fmul x y := Qred (x * y);
  fdiv x y := Qred (x / y);
  fgt x y := negb (Qle_bool x y)
|}.

Definition object := list nat.

Record scenario := {
  s_cuda : bool;
  s_os : string;
  s_cpus : option Z;
  s_train_error : option exn;
  s_val_error : option exn;
  s_train : @loader object;
  s_val : @loader object
}.

(** Completed epochs: the scheduler was stepped once in each. *)
Definition epochs_done (tr : list (@event Q object)) : nat :=
  length (omap (fun ev => match ev with
                          | Called (Scheduler_step _ _) _ => Some tt
                          | _ => None
                          end) tr).

Definition predict (epochs : nat) (pixel : nat) : list Q :=
  let c := Nat.modulo pixel 2 in
  let d := Nat.div pixel 2 in
  let guess := if Nat.leb d epochs then c else 1 - c in
  if Nat.eqb guess 0 then [1%Q; 0%Q] else [0%Q; 1%Q].

Definition dataset_size (l : @loader object) : Z :=
  Z.of_nat (length (concat (map labels l))).

Definition oracle (sc : scenario) (T : Type) (c : @call Q object T)
    (tr : list (@event Q object)) : outcome T :=
  match c in call T return outcome T with
  | Logger _ => Ret []
  | Logger_log _ _ => Ret tt
  | save_checkpoint _ _ _ _ _ _ => Ret tt
  | os_path_join (VStr a) b => Ret (a +:+ "/" +:+ b)
  | os_path_join _ _ => Raise (TypeError "expected str, bytes or os.PathLike object")
  | os_name => Ret (s_os sc)
  | os_cpu_count => Ret (s_cpus sc)
  | os_makedirs _ _ => Ret tt
  | manual_seed _ => Ret tt
  | cuda_manual_seed_all _ => Ret tt
  | cuda_is_available => Ret (s_cuda sc)
  | cuda_get_device_name _ => Ret "GPU"
  | cuda_total_memory _ => Ret (8 * 1024 ^ 3)%Z
  | EmotionDataset _ mode =>
      match (if String.eqb mode "train" then s_train_error sc else s_val_error sc) with
      | Some e => Raise e
      | None => Ret (if String.eqb mode "train" then [0] else [1])
      end
  | get_dataloader _ shuffle _ => Ret (if shuffle then s_train sc else s_val sc)
  | get_num_classes _ => Ret 2%Z
  | dataset_len ds =>
      Ret (match ds with [0] => dataset_size (s_train sc) | _ => dataset_size (s_val sc) end)
  | EmotionRecognitionModel _ => Ret []
  | Module_to m _ => Ret m
  | Module_parameters _ => Ret []
  | Module_train _ => Ret tt
  | Module_eval _ => Ret tt
  | Module_call _ x _ => Ret (map (predict (epochs_done tr)) x)
  | GradScaler _ => Ret []
  | CrossEntropyLoss => Ret []
  | Criterion_call _ outputs lbls _ =>
      Ret [length lbls - eq_sum (max1 outputs) lbls]
  | Adam _ _ _ => Ret []
  | ReduceLROnPlateau _ _ _ _ => Ret []
  | Scheduler_step _ _ => Ret tt
  | Optimizer_zero_grad _ => Ret tt
  | Optimizer_step _ => Ret tt
  | Optimizer_lr _ => Ret (1 # 10000)%Q
  | Scaler_scale _ loss => Ret loss
  | Scaler_step _ _ => Ret tt
  | Scaler_update _ => Ret tt
  | Tensor_to t _ => Ret t
  | Labels_to _ _ => Ret tt
  | Tensor_backward _ => Ret tt
  | Tensor_item t => Ret (inject_Z (Z.of_nat (list_sum t)))
  | tqdm _ _ _ => Ret []
  | Tqdm_set_postfix _ _ _ _ => Ret tt
  end.

Definition sample_batch (pixels : list nat) : @batch object :=
  {| inputs := pixels; labels := map (fun p => Nat.modulo p 2) pixels |}.

(** Four training samples in two batches, three validation samples in
    one: validation accuracy is one third, two thirds, then one. *)
Definition cpu_linux : scenario :=
  {| s_cuda := false; s_os := "posix"; s_cpus := Some 8%Z;
     s_train_error := None; s_val_error := None;
     s_train := [sample_batch [0; 3]; sample_batch [1; 4]];
     s_val := [sample_batch [0; 3; 4]] |}.

Definition gpu_windows : scenario :=
  {| s_cuda := true; s_os := "nt"; s_cpus := None;
     s_train_error := None; s_val_error := None;
     s_train := [sample_batch [0; 3]; sample_batch [1; 4]];
     s_val := [sample_batch [0; 3; 4]] |}.

Definition no_val_data : scenario :=
  {| s_cuda := false; s_os := "posix"; s_cpus := Some 8%Z;
     s_train_error := None;
     s_val_error := Some (PyExc "FileNotFoundError" "no such directory" true);
     s_train := [sample_batch [0; 3]]; s_val := [] |}.

(** Validation accuracy is one half in the first two epochs, then one. *)
Definition plateau : scenario :=
  {| s_cuda := false; s_os := "posix"; s_cpus := Some 2%Z;
     s_train_error := None; s_val_error := None;
     s_train := [sample_batch [0; 3]; sample_batch [1; 4]];
     s_val := [sample_batch [0; 5]] |}.

(** A loader whose first batch is empty. *)
Definition empty_first_batch : scenario :=
  {| s_cuda := false; s_os := "posix"; s_cpus := Some 8%Z;
     s_train_error := None; s_val_error := None;
     s_train := [sample_batch []; sample_batch [0]];
     s_val := [sample_batch [0]] |}.

Definition small_config (epochs : Z) : gmap string (@pyval Q) :=
  <["num_epochs" := VInt epochs]> main_config.

Definition demo_locals (sc : scenario) (cfg : gmap string (@pyval Q)) : @locals Q object :=
  {| config := cfg; logger := []; cuda_available := s_cuda sc;
     dev := if s_cuda sc then cuda else cpu;
     train_loader := s_train sc; val_loader := s_val sc;
     model := []; scaler := []; criterion := []; optimizer := []; scheduler := [] |}.

(** The locals of a three-epoch training on the CPU, and of one whose
    validation accuracy stays where it is in the second epoch. *)
Definition L3 : @locals Q object := demo_locals cpu_linux (small_config 3).
Definition P3 : @locals Q object := demo_locals plateau (small_config 3).

(** Validation samples that no epoch classifies correctly. *)
Definition never_right : scenario :=
  {| s_cuda := false; s_os := "posix"; s_cpus := Some 8%Z;
     s_train_error := None; s_val_error := None;
     s_train := [sample_batch [0; 3]; sample_batch [1; 4]];
     s_val := [sample_batch [20; 21]] |}.

(** A user who interrupts the construction of the training dataset. *)
Definition interrupted : scenario :=
  {| s_cuda := false; s_os := "posix"; s_cpus := Some 8%Z;
     s_train_error := Some (PyExc "KeyboardInterrupt" EmptyString false);
     s_val_error := None;
     s_train := [sample_batch [0; 3]]; s_val := [sample_batch [0]] |}.

(** A system that cannot tell its number of CPUs. *)
Definition no_cpu_count : scenario :=
  {| s_cuda := false; s_os := "posix"; s_cpus := None;
     s_train_error := None; s_val_error := None;
     s_train := [sample_batch [0; 3]]; s_val := [sample_batch [0]] |}.

(** Configurations with a key missing, or with a value of the wrong type. *)
Definition no_data_dir : gmap string (@pyval Q) := delete "data_dir" (small_config 1).
Definition no_checkpoint_dir : gmap string (@pyval Q) :=
  delete "checkpoint_dir" (small_config 2).
Definition numeric_data_dir : gmap string (@pyval Q) :=
  <["data_dir" := VInt 7]> (small_config 1).
Definition float_epochs : gmap string (@pyval Q) :=
  <["num_epochs" := VFloat 50%Q]> main_config.
Definition no_num_epochs : gmap string (@pyval Q) := delete "num_epochs" main_config.


End Demo.


Section Proofs.

Context {F : Type} `{PyFloat F} {obj : Type}.
Variable oracle : forall T, @call F obj T -> list (@event F obj) -> outcome T.

Implicit Types (tr : list (@event F obj)) (L : @locals F obj) (a : @sums F).

(** *** Completed computations, taken apart *)

Lemma bind_Ret {A B} (m : M A) (f : A -> M B) tr b tr2 :
  bind m f tr = (Ret b, tr2) ->
  exists x tr1, m tr = (Ret x, tr1) /\ f x tr1 = (Ret b, tr2).
Proof.
  unfold bind. destruct (m tr) as [[x|e] tr1]; [eauto | discriminate].
Qed.

Lemma ret_Ret {A} (x y : A) tr tr' : ret x tr = (Ret y, tr') -> x = y /\ tr' = tr.
Proof. unfold ret. intros [= -> ->]. auto. Qed.

Lemma ext_Ret {T} (c : call T) tr r tr' :
  ext oracle c tr = (Ret r, tr') -> tr' = tr ++ [Called c (Ret r)].
Proof. unfold ext. intros [= <- <-]. reflexivity. Qed.

Lemma getitem_Ret (cfg : gmap string pyval) k tr v tr' :
  getitem cfg k tr = (Ret v, tr') -> cfg !! k = Some v /\ tr' = tr.
Proof.
  unfold getitem. destruct (cfg !! k); [intros [-> ->]%ret_Ret; auto | discriminate].
Qed.

Lemma truediv_Ret (x : F) n tr y tr' :
  truediv x n tr = (Ret y, tr') -> n <> 0%Z /\ y = fdiv x (of_Z n) /\ tr' = tr.
Proof.
  unfold truediv. destruct (Z.eqb_spec n 0); [discriminate|].
  intros [<- ->]%ret_Ret. auto.
Qed.

Lemma accuracy_Ret a tr y tr' :
  accuracy a tr = (Ret y, tr') -> total a <> 0%Z /\ y = ratio100 a /\ tr' = tr.
Proof. apply truediv_Ret. Qed.

Ltac run_inv H :=
  lazymatch type of H with
  | bind _ _ _ = (Ret _, _) =>
      let x := fresh "x" in let tr := fresh "tr" in
      let H1 := fresh "R" in let H2 := fresh "R" in
      apply bind_Ret in H; destruct H as (x & tr & H1 & H2);
      run_inv H1; cbv beta in H2; run_inv H2
  | ret _ _ = (Ret _, _) =>
      apply ret_Ret in H; destruct H as [? ?]; subst
  | ext _ _ _ = (Ret _, _) => apply ext_Ret in H; subst
  | getitem _ _ _ = (Ret _, _) =>
      let E := fresh "K" in apply getitem_Ret in H; destruct H as [E ?]; subst
  | truediv _ _ _ = (Ret _, _) =>
      let E := fresh "D" in apply truediv_Ret in H; destruct H as (E & ? & ?); subst
  | accuracy _ _ = (Ret _, _) =>
      let E := fresh "D" in apply accuracy_Ret in H; destruct H as (E & ? & ?); subst
  | (if ?b then _ else _) _ = (Ret _, _) =>
      let E := fresh "B" in destruct b eqn:E; run_inv H
  | (let _ := _ in _) _ = _ => cbv zeta in H; run_inv H
  | _ => idtac
  end.

Ltac units := repeat match goal with u : unit |- _ => destruct u end.
Ltac trace_eq := units; simpl; rewrite <- ?app_assoc; simpl; reflexivity.

Lemma train_batch_Ret L pbar a b tr a' tr' :
  train_batch oracle L pbar a b tr = (Ret a', tr') ->
  exists r, tr' = tr ++ train_batch_events L pbar a b r
            /\ a' = step_sums a b r /\ total a' <> 0%Z.
Proof.
  unfold train_batch. intros R. run_inv R;
    [ eexists (Build_batch_resp _ _ _ _ _ _)
    | eexists (Build_batch_resp _ _ _ (inputs b) _ _) ];
    unfold train_batch_events, step_sums; rewrite B;
    (split; [trace_eq | split; [reflexivity | assumption]]).
Qed.

Lemma val_batch_Ret L a b tr a' tr' :
  val_batch oracle L a b tr = (Ret a', tr') ->
  exists r, tr' = tr ++ val_batch_events L a b r /\ a' = step_sums a b r.
Proof.
  unfold val_batch. intros R. run_inv R.
  eexists (Build_batch_resp _ _ _ (inputs b) _ (of_Q 0)).
  unfold val_batch_events, step_sums. split; [trace_eq | reflexivity].
Qed.

Lemma for_each_Ret (body : sums -> batch -> M sums)
    (one : sums -> batch -> batch_resp -> list event) :
  (forall a b tr a' tr', body a b tr = (Ret a', tr') ->
     exists r, tr' = tr ++ one a b r /\ a' = step_sums a b r) ->
  forall bs a tr a' tr', for_each body bs a tr = (Ret a', tr') ->
    exists rs, length rs = length bs
               /\ tr' = tr ++ phase_events one a bs rs /\ a' = phase_sums a bs rs.
Proof.
  intros Hbody. induction bs as [|b bs IH]; simpl; intros a tr a' tr' R.
  - apply ret_Ret in R as [-> ->]. exists []. rewrite app_nil_r. auto.
  - apply bind_Ret in R as (a1 & tr1 & R1 & R2).
    apply Hbody in R1 as (r & -> & ->).
    apply IH in R2 as (rs & Hlen & -> & ->).
    exists (r :: rs). simpl. rewrite Hlen, <- app_assoc. auto.
Qed.

Lemma train_phase_Ret L pbar bs a tr a' tr' :
  for_each (train_batch oracle L pbar) bs a tr = (Ret a', tr') ->
  exists rs, length rs = length bs
             /\ tr' = tr ++ phase_events (train_batch_events L pbar) a bs rs
             /\ a' = phase_sums a bs rs.
Proof.
  apply for_each_Ret. intros a0 b tr0 a1 tr1 R.
  apply train_batch_Ret in R as (r & ? & ? & _). eauto.
Qed.

Lemma val_phase_Ret L bs a tr a' tr' :
  for_each (val_batch oracle L) bs a tr = (Ret a', tr') ->
  exists rs, length rs = length bs
             /\ tr' = tr ++ phase_events (val_batch_events L) a bs rs
             /\ a' = phase_sums a bs rs.
Proof. apply for_each_Ret. intros a0 b tr0 a1 tr1. apply val_batch_Ret. Qed.

(** The first training batch of a completed phase has a sample. *)
Lemma train_phase_first L pbar b bs tr a' tr' :
  for_each (train_batch oracle L pbar) (b :: bs) sums0 tr = (Ret a', tr') ->
  labels b <> [].
Proof.
  simpl. intros R. apply bind_Ret in R as (a1 & tr1 & R1 & _).
  apply train_batch_Ret in R1 as (r & _ & -> & Hne).
  intros E. apply Hne. unfold step_sums, accumulate. simpl. rewrite E. reflexivity.
Qed.

Ltac same_keys :=
  repeat match goal with
    | K1 : ?m !! ?k = Some ?x, K2 : ?m !! ?k = Some ?y |- _ =>
        assert (x = y) by congruence; subst y; clear K2
    end.

Ltac use_keys :=
  unfold cfg_value;
  repeat match goal with K : _ !! _ = Some _ |- _ => rewrite K; clear K end.

Lemma train_epoch_Ret L best epoch tr best' tr' :
  train_epoch oracle L best epoch tr = (Ret best', tr') ->
  exists r, length (e_train r) = length (train_loader L)
            /\ length (e_val r) = length (val_loader L)
            /\ tr' = tr ++ epoch_events L best epoch r
            /\ best' = new_best L best r
            /\ train_loader L <> [] /\ total (val_sums L r) <> 0%Z
            /\ first_batch_nonempty (train_loader L)
            /\ total (train_sums L r) <> 0%Z.
Proof.
  unfold train_epoch. intros R. run_inv R; same_keys;
    match goal with
    | R1 : for_each (train_batch _ _ _) _ _ _ = _ |- _ =>
        assert (Hfirst : first_batch_nonempty (train_loader L))
          by (destruct (train_loader L) as [|b0 bs0];
              [ apply ret_Ret in R1 as [<- _]; simpl in *; congruence
              | exact (train_phase_first _ _ _ _ _ _ _ R1) ])
    end;
    match goal with
    | R1 : for_each (train_batch _ _ _) _ _ _ = _,
      R2 : for_each (val_batch _ _) _ _ _ = _ |- _ =>
        apply train_phase_Ret in R1 as (rs1 & Hl1 & -> & ->);
        apply val_phase_Ret in R2 as (rs2 & Hl2 & -> & ->)
    end;
    match goal with
    | pbar : obj, lr : F |- _ =>
        exists {| e_pbar := pbar; e_train := rs1; e_val := rs2; e_lr := lr |}
    end;
    unfold epoch_events, report_events, checkpoint_events, new_best, epoch_val_acc,
      train_sums, val_sums, mean_loss; simpl;
    match goal with B : fgt _ _ = _ |- _ => rewrite B end;
    (repeat split; try assumption;
     [ use_keys; trace_eq
     | intros E; rewrite E in *; simpl in *; congruence ]).
Qed.

Lemma range_Ret (v : @pyval F) tr l tr' :
  range v tr = (Ret l, tr') -> exists n, v = VInt n /\ l = seq 0 (Z.to_nat n) /\ tr' = tr.
Proof.
  destruct v; simpl; try discriminate. intros [<- ->]%ret_Ret. eauto.
Qed.

Lemma loop_Ret L es best tr best' tr' :
  for_each (train_epoch oracle L) es best tr = (Ret best', tr') ->
  exists rs, length rs = length es
             /\ Forall (epoch_resp_ok L) rs
             /\ tr' = tr ++ loop_events L best es rs
             /\ best' = loop_best L best rs
             /\ (es <> [] -> train_loader L <> []).
Proof.
  revert best tr. induction es as [|e es IH]; simpl; intros best tr R.
  - apply ret_Ret in R as [-> ->]. exists []. rewrite app_nil_r.
    repeat split; auto; congruence.
  - apply bind_Ret in R as (b1 & tr1 & R1 & R2).
    apply train_epoch_Ret in R1 as (r & H1 & H2 & -> & -> & H3 & H4 & _).
    apply IH in R2 as (rs & Hlen & Hok & -> & -> & _).
    exists (r :: rs). simpl. rewrite Hlen, <- app_assoc.
    repeat split; auto. constructor; [split; auto | auto].
Qed.

Lemma epoch_loop_Ret L tr best' tr' :
  epoch_loop oracle L tr = (Ret best', tr') ->
  exists rs, length rs = length (epoch_range (config L))
             /\ Forall (epoch_resp_ok L) rs
             /\ tr' = tr ++ loop_events L (of_Q 0) (epoch_range (config L)) rs
             /\ best' = loop_best L (of_Q 0) rs
             /\ (exists n, config L !! "num_epochs" = Some (VInt n)).
Proof.
  unfold epoch_loop. intros R. run_inv R.
  match goal with Hr : range _ _ = _ |- _ => apply range_Ret in Hr as (n & -> & -> & ->) end.
  match goal with Hl : run_epochs _ _ _ _ = _ |- _ =>
    apply loop_Ret in Hl as (rs & Hlen & Hok & -> & -> & _) end.
  exists rs. unfold epoch_range, cfg_value. rewrite K. simpl. eauto 10.
Qed.

Lemma min_cpu_count_Ret c tr n tr' :
  @min_cpu_count F obj c tr = (Ret n, tr') ->
  exists k, c = Some k /\ n = Z.min k 4 /\ tr' = tr.
Proof.
  destruct c; simpl; try discriminate. intros [<- ->]%ret_Ret. eauto.
Qed.

Lemma create_dataloaders_Ret cfg cuda tds vds tr ls tr' :
  create_dataloaders oracle cfg cuda tds vds tr = (Ret ls, tr') ->
  exists os cpus,
    tr' = tr ++ create_dataloaders_events cfg cuda tds vds os cpus ls.1 ls.2.
Proof.
  unfold create_dataloaders. intros R. run_inv R.
  - exists x0, 0%Z. unfold create_dataloaders_events, kwargs, workers.
    rewrite B. use_keys. trace_eq.
  - match goal with Hm : min_cpu_count _ _ = _ |- _ =>
      apply min_cpu_count_Ret in Hm as (k & -> & -> & ->) end.
    exists x0, k. unfold create_dataloaders_events, kwargs, workers.
    rewrite B. use_keys. trace_eq.
Qed.

Lemma initialize_Ret cfg lg cuda tds vds tl vl tr L tr' :
  initialize oracle cfg lg cuda tds vds tl vl tr = (Ret L, tr') ->
  exists r, tr' = tr ++ initialize_events L tds vds r
            /\ config L = cfg /\ logger L = lg /\ cuda_available L = cuda
            /\ train_loader L = tl /\ val_loader L = vl.
Proof.
  unfold initialize. intros R. run_inv R.
  eexists (Build_init_resp _ _ _ _ _ _). unfold initialize_events. simpl.
  split; [use_keys; trace_eq | auto 10].
Qed.

Lemma fit_Ret cfg lg cuda tds vds tl vl tr tr' :
  fit oracle cfg lg cuda tds vds tl vl tr = (Ret tt, tr') ->
  exists L ri rs,
    tr' = tr ++ initialize_events L tds vds ri
             ++ loop_events L (of_Q 0) (epoch_range cfg) rs
    /\ config L = cfg /\ logger L = lg /\ cuda_available L = cuda
    /\ train_loader L = tl /\ val_loader L = vl
    /\ length rs = length (epoch_range cfg)
    /\ Forall (epoch_resp_ok L) rs
    /\ (exists n, cfg !! "num_epochs" = Some (VInt n)).
Proof.
  unfold fit. intros R. run_inv R.
  match goal with Hi : initialize _ _ _ _ _ _ _ _ _ = (Ret ?L, _) |- _ =>
    apply initialize_Ret in Hi as (ri & -> & <- & <- & <- & <- & <-); rename L into L0 end.
  match goal with Hl : epoch_loop _ _ _ = _ |- _ =>
    apply epoch_loop_Ret in Hl as (rs & Hlen & Hok & -> & _ & Hn) end.
  exists L0, ri, rs. rewrite <- app_assoc. auto 12.
Qed.

Lemma train_rest_Ret cfg lg cuda tds vds tr tr' :
  train_rest oracle cfg lg cuda tds vds tr = (Ret tt, tr') ->
  exists L u, tr' = tr ++ train_rest_events L tds vds u
              /\ config L = cfg /\ logger L = lg /\ cuda_available L = cuda
              /\ length (u_epochs u) = length (epoch_range cfg)
              /\ Forall (epoch_resp_ok L) (u_epochs u)
              /\ (exists n, cfg !! "num_epochs" = Some (VInt n)).
Proof.
  unfold train_rest. intros R. run_inv R.
  match goal with Hc : create_dataloaders _ _ _ _ _ _ = _ |- _ =>
    apply create_dataloaders_Ret in Hc as (os & cpus & ->) end.
  match goal with Hf : fit _ _ _ _ _ _ _ _ _ = _ |- _ =>
    apply fit_Ret in Hf as (L & ri & rs & -> & <- & <- & <- & Htl & Hvl & Hlen & Hok & Hn)
  end.
  exists L, {| u_os := os; u_cpus := cpus; u_init := ri; u_epochs := rs |}.
  unfold train_rest_events. cbn [u_os u_cpus u_init u_epochs].
  rewrite Htl, Hvl, <- !app_assoc. split; [reflexivity | auto 10].
Qed.


(** *** Computations that handle no failure *)

Section Tidy.

Variable P : @event F obj -> Prop.

Lemma tidy_ret {A} (x : A) : tidy P (ret x).
Proof. intros tr. exists []. simpl. rewrite app_nil_r. auto. Qed.

Lemma tidy_raise {A} e : P (Raised e) -> tidy P (@raise F obj A e).
Proof.
  intros HP tr. exists [Raised e]. simpl. repeat split; auto.
  exists [], (Raised e). auto.
Qed.

Lemma tidy_ext {T} (c : call T) :
  (forall tr, P (Called c (oracle T c tr))) -> tidy P (ext oracle c).
Proof.
  intros HP tr. exists [Called c (oracle T c tr)]. unfold ext. simpl.
  repeat split; auto.
  destruct (oracle T c tr) as [r|e] eqn:E; simpl; [reflexivity|].
  exists [], (Called c (Raise e)). auto.
Qed.

Lemma tidy_bind {A B} (m : M A) (f : A -> M B) :
  tidy P m -> (forall x, tidy P (f x)) -> tidy P (bind m f).
Proof.
  intros Hm Hf tr. destruct (Hm tr) as (evs & Ht & HP & Hs). unfold bind.
  destruct (m tr) as [[x|e] tr1]; simpl in *.
  - destruct (Hf x tr1) as (evs' & Ht' & HP' & Hs'). subst tr1.
    exists (evs ++ evs'). rewrite Ht', <- app_assoc. repeat split.
    + apply Forall_app; auto.
    + destruct ((f x (tr ++ evs)).1) as [y|e]; simpl in *.
      * rewrite omap_app, Hs, Hs'. reflexivity.
      * destruct Hs' as (pre & ev & -> & Hf1 & Hf2). exists (evs ++ pre), ev.
        rewrite app_assoc, omap_app, Hs, Hf2. auto.
  - exists evs. auto.
Qed.

Lemma tidy_if {A} (b : bool) (m1 m2 : M A) :
  tidy P m1 -> tidy P m2 -> tidy P (if b then m1 else m2).
Proof. destruct b; auto. Qed.

Lemma tidy_for_each {A B} (body : A -> B -> M A) (l : list B) :
  (forall x y, tidy P (body x y)) -> forall x, tidy P (for_each body l x).
Proof.
  intros Hb. induction l as [|y l IH]; simpl; intros x.
  - apply tidy_ret.
  - apply tidy_bind; auto.
Qed.

Lemma tidy_getitem (cfg : gmap string pyval) k :
  (cfg !! k = None -> P (Raised (KeyError k))) -> tidy P (getitem cfg k).
Proof.
  intros HP. unfold getitem. destruct (cfg !! k); [apply tidy_ret | apply tidy_raise; auto].
Qed.

Lemma tidy_truediv (x : F) n :
  (n = 0%Z -> P (Raised ZeroDivisionError)) -> tidy P (@truediv F _ obj x n).
Proof.
  intros HP. unfold truediv. destruct (Z.eqb_spec n 0); [apply tidy_raise; auto | apply tidy_ret].
Qed.

Lemma tidy_range (v : @pyval F) :
  (forall e, exc_class e = "TypeError" -> P (Raised e)) -> tidy P (@range F obj v).
Proof.
  intros HP. destruct v; simpl; first [apply tidy_ret | apply tidy_raise, HP; reflexivity].
Qed.

Lemma tidy_min_cpu_count c :
  (forall e, exc_class e = "TypeError" -> P (Raised e)) -> tidy P (@min_cpu_count F obj c).
Proof.
  intros HP. destruct c; simpl; first [apply tidy_ret | apply tidy_raise, HP; reflexivity].
Qed.

End Tidy.

Section TidyFit.

Variable P : @event F obj -> Prop.
Hypothesis P_call :
  forall T (c : call T) tr, in_fit c = true -> P (Called c (oracle T c tr)).
Hypothesis P_zero : P (Raised ZeroDivisionError).

Ltac tidy_tac :=
  repeat first
    [ apply tidy_ret
    | apply tidy_bind; [|intros]
    | apply tidy_ext; intros; apply P_call; reflexivity
    | apply tidy_getitem; solve [auto]
    | apply tidy_truediv; solve [auto]
    | apply tidy_range; solve [auto]
    | apply tidy_min_cpu_count; solve [auto]
    | apply tidy_for_each; intros
    | apply tidy_if
    | progress cbv zeta ].

Lemma tidy_train_batch L pbar a b : tidy P (train_batch oracle L pbar a b).
Proof. unfold train_batch, accuracy. tidy_tac. Qed.

Lemma tidy_val_batch L a b : tidy P (val_batch oracle L a b).
Proof. unfold val_batch. tidy_tac. Qed.

Lemma tidy_train_epoch L best epoch :
  (forall k, k = "num_epochs" \/ k = "checkpoint_dir" ->
             config L !! k = None -> P (Raised (KeyError k))) ->
  tidy P (train_epoch oracle L best epoch).
Proof.
  intros P_key. unfold train_epoch, accuracy. tidy_tac.
Qed.

Hypothesis P_raised : forall e, P (Raised e).

Lemma tidy_fit cfg lg cuda tds vds tl vl : tidy P (fit oracle cfg lg cuda tds vds tl vl).
Proof. unfold fit, initialize, epoch_loop, run_epochs. tidy_tac. Qed.

End TidyFit.

Section TidyScript.

Variable P : @event F obj -> Prop.
Hypothesis P_call :
  forall T (c : call T) tr, in_try c = false -> P (Called c (oracle T c tr)).
Hypothesis P_raised : forall e, P (Raised e).

Ltac tidy_tac :=
  repeat first
    [ apply tidy_ret
    | apply tidy_bind; [|intros]
    | apply tidy_ext; intros; apply P_call; reflexivity
    | apply tidy_getitem; solve [auto]
    | apply tidy_min_cpu_count; solve [auto]
    | apply tidy_if
    | progress cbv zeta ].

Lemma tidy_preamble cfg : tidy P (preamble oracle cfg).
Proof. unfold preamble. tidy_tac. Qed.

Lemma tidy_train_rest cfg lg cuda tds vds : tidy P (train_rest oracle cfg lg cuda tds vds).
Proof.
  unfold train_rest. apply tidy_bind; [unfold create_dataloaders; tidy_tac|].
  intros ls. apply tidy_fit; auto.
  intros T c tr Hc. apply P_call. destruct c; try discriminate; reflexivity.
Qed.

End TidyScript.

(** *** What the events of an epoch show *)

Lemma omap_phase_nil {V} (f : @event F obj -> option V) one a bs rs :
  (forall a b r, omap f (one a b r) = []) ->
  omap f (phase_events one a bs rs) = [].
Proof.
  intros Hone. revert a rs. induction bs as [|b bs IH]; intros a [|r rs]; simpl; auto.
  rewrite omap_app, Hone, IH. reflexivity.
Qed.

Ltac batches_silent :=
  intros; unfold train_batch_events, val_batch_events;
  destruct (cuda_available _); reflexivity.

Ltac view_epoch :=
  unfold epoch_events, report_events, checkpoint_events;
  rewrite ?omap_app;
  rewrite ?omap_phase_nil by batches_silent;
  simpl.

Lemma validated_epoch L best epoch r :
  omap validated (epoch_events L best epoch r) = [epoch_val_acc L r].
Proof. view_epoch. destruct (fgt _ _); reflexivity. Qed.

Lemma saved_epoch L best epoch r :
  omap saved (epoch_events L best epoch r)
  = if fgt (epoch_val_acc L r) best then [(epoch, epoch_val_acc L r)] else [].
Proof. view_epoch. destruct (fgt _ _); reflexivity. Qed.

Lemma validated_loop L es : forall best rs,
  length rs = length es ->
  omap validated (loop_events L best es rs) = map (epoch_val_acc L) rs.
Proof.
  induction es as [|e es IH]; intros best [|r rs] Hlen; simpl in Hlen;
    try discriminate; auto.
  cbn [loop_events map]. rewrite omap_app, validated_epoch, IH by lia. reflexivity.
Qed.

Lemma saved_loop L n : forall k best rs,
  length rs = n ->
  omap saved (loop_events L best (seq k n) rs)
  = checkpoints best k (map (epoch_val_acc L) rs).
Proof.
  induction n as [|n IH]; intros k best [|r rs] Hlen; simpl in Hlen;
    try discriminate; auto.
  cbn [loop_events map seq checkpoints].
  rewrite omap_app, saved_epoch, IH by lia. unfold new_best.
  destruct (fgt _ _); reflexivity.
Qed.

Lemma loop_best_running L rs : forall best,
  loop_best L best rs = running_best best (map (epoch_val_acc L) rs).
Proof. induction rs as [|r rs IH]; intros best; simpl; auto. Qed.

Lemma run_epochs_Ret L es tr best tr' :
  run_epochs oracle L es tr = (Ret best, tr') ->
  exists rs, length rs = length es
             /\ Forall (epoch_resp_ok L) rs
             /\ tr' = tr ++ loop_events L (of_Q 0) es rs
             /\ best = loop_best L (of_Q 0) rs.
Proof.
  unfold run_epochs. intros R.
  apply loop_Ret in R as (rs & ? & ? & ? & ? & _). eauto.
Qed.

Lemma elem_of_checkpoints (accs : list F) : forall best epoch k v,
  (k, v) ∈ checkpoints best epoch accs <->
  exists i, accs !! i = Some v /\ k = epoch + i
            /\ fgt v (running_best best (take i accs)) = true.
Proof.
  induction accs as [|v0 vs IH]; intros best epoch k v; simpl.
  - split; [intros Hin; inversion Hin | intros (i & Hi & _); discriminate].
  - destruct (fgt v0 best) eqn:E.
    + rewrite elem_of_cons, IH. split.
      * intros [[= -> ->] | (i & Hi & -> & Hgt)].
        -- exists 0. simpl. auto with lia.
        -- exists (S i). simpl. rewrite E. auto with lia.
      * intros ([|i] & Hi & -> & Hgt); simpl in *.
        -- left. injection Hi as ->. f_equal. lia.
        -- right. rewrite E in Hgt. exists i. auto with lia.
    + rewrite IH. split.
      * intros (i & Hi & -> & Hgt). exists (S i). simpl. rewrite E. auto with lia.
      * intros ([|i] & Hi & -> & Hgt); simpl in *.
        -- injection Hi as ->. congruence.
        -- rewrite E in Hgt. exists i. auto with lia.
Qed.

(** C1. Within the epoch loop, entered with the best validation accuracy
    at 0.0, a checkpoint is written at the end of exactly those epochs
    whose validation accuracy is greater than the best so far, which it
    then replaces: a checkpoint of epoch [k] with accuracy [v] is written
    if and only if [v] is the accuracy epoch [k] reported and is greater
    than the running best, from 0.0, of the accuracies of the epochs
    before it; in order, the checkpoints written are those that selection
    by validation accuracy prescribes, and the loop ends with the running
    best of all reported accuracies. *)
Theorem checkpoint_when_validation_improves L tr best tr' :
  epoch_loop oracle L tr = (Ret best, tr') ->
  exists evs, tr' = tr ++ evs /\
    let accs := omap validated evs in
    length accs = length (epoch_range (config L))
    /\ (forall k v, (k, v) ∈ omap saved evs <->
          accs !! k = Some v /\ fgt v (running_best (of_Q 0) (take k accs)) = true)
    /\ omap saved evs = checkpoints (of_Q 0) 0 accs
    /\ best = running_best (of_Q 0) accs.
Proof.
  intros R. apply epoch_loop_Ret in R as (rs & Hlen & _ & -> & -> & n & Hn).
  eexists. split; [reflexivity|]. cbv zeta.
  rewrite validated_loop by assumption.
  unfold epoch_range, cfg_value in *. rewrite Hn in *. simpl in *.
  rewrite length_seq in Hlen.
  rewrite saved_loop, length_map, length_seq, loop_best_running by assumption.
  split; [assumption|]. split; [|auto].
  intros k v. rewrite elem_of_checkpoints. split.
  - intros (i & Hi & -> & Hgt). auto.
  - intros [Hk Hgt]. exists k. auto.
Qed.

Lemma running_best_elem (accs : list F) : forall best,
  running_best best accs ∈ best :: accs.
Proof.
  induction accs as [|v vs IH]; intros best; simpl.
  - apply list_elem_of_here.
  - specialize (IH (if fgt v best then v else best)).
    apply elem_of_cons in IH as [-> | IH].
    + destruct (fgt v best); [apply list_elem_of_further|]; apply list_elem_of_here.
    + do 2 apply list_elem_of_further. exact IH.
Qed.

Lemma running_best_greatest `{!PyFloatOrder F} (accs : list F) : forall best x,
  x ∈ best :: accs -> fgt x (running_best best accs) = false.
Proof.
  induction accs as [|v vs IH]; intros best x Hx; simpl.
  - apply list_elem_of_singleton in Hx as ->. apply fgt_irrefl.
  - set (b1 := if fgt v best then v else best).
    assert (Hb : fgt best b1 = false).
    { unfold b1. destruct (fgt v best) eqn:E; [|apply fgt_irrefl].
      apply not_true_iff_false. intros E'.
      pose proof (fgt_trans _ _ _ E E') as Hvv. rewrite fgt_irrefl in Hvv. discriminate. }
    assert (Hv : fgt v b1 = false).
    { unfold b1. destruct (fgt v best) eqn:E; [apply fgt_irrefl | exact E]. }
    assert (Hle : forall y, fgt y b1 = false -> fgt y (running_best b1 vs) = false).
    { intros y Hy. apply not_true_iff_false. intros Hgt.
      destruct (fgt_cotrans y b1 _ Hgt) as [E | E]; [congruence|].
      rewrite (IH b1 b1) in E by apply list_elem_of_here. discriminate. }
    apply elem_of_cons in Hx as [-> | Hx]; [auto|].
    apply elem_of_cons in Hx as [-> | Hx]; [auto|].
    apply IH. apply list_elem_of_further. exact Hx.
Qed.

(** C8. At every point of the epoch loop, that is after its first [k]
    epochs for any [k], the recorded best validation accuracy is the
    maximum of 0.0 and the validation accuracies of the completed epochs
    (one of them, and none of them is greater). The epoch that follows
    does not decrease it: its new value is the epoch's validation
    accuracy when that is greater and the old value otherwise; and an
    epoch whose validation accuracy equals the recorded best leaves it
    as it is and writes no checkpoint. *)
Theorem best_val_acc_is_running_maximum `{!PyFloatOrder F} L k tr best tr1 best' tr2 :
  run_epochs oracle L (seq 0 k) tr = (Ret best, tr1) ->
  train_epoch oracle L best k tr1 = (Ret best', tr2) ->
  exists evs evs' v, tr1 = tr ++ evs /\ tr2 = tr1 ++ evs' /\
    let accs := omap validated evs in
    length accs = k
    /\ best ∈ of_Q 0 :: accs
    /\ (forall x, x ∈ of_Q 0 :: accs -> fgt x best = false)
    /\ omap validated evs' = [v]
    /\ best' = (if fgt v best then v else best)
    /\ fgt best best' = false
    /\ (v = best -> best' = best /\ omap saved evs' = []).
Proof.
  intros R1 R2.
  apply run_epochs_Ret in R1 as (rs & Hlen & _ & -> & ->).
  apply train_epoch_Ret in R2 as (r & _ & _ & -> & -> & _).
  rewrite length_seq in Hlen.
  exists (loop_events L (of_Q 0) (seq 0 k) rs), (epoch_events L (loop_best L (of_Q 0) rs) k r),
    (epoch_val_acc L r).
  split; [reflexivity|]. split; [reflexivity|]. cbv zeta.
  rewrite validated_loop, validated_epoch, saved_epoch, loop_best_running
    by (rewrite length_seq; assumption).
  rewrite length_map. unfold new_best.
  set (accs := map (epoch_val_acc L) rs). set (b := running_best (of_Q 0) accs).
  split; [assumption|]. split; [apply running_best_elem|].
  split; [intros x Hx; apply running_best_greatest, Hx|].
  split; [reflexivity|]. split; [reflexivity|]. split.
  - destruct (fgt (epoch_val_acc L r) b) eqn:E; [|apply fgt_irrefl].
    apply not_true_iff_false. intros E'.
    pose proof (fgt_trans _ _ _ E E') as Hvv. rewrite fgt_irrefl in Hvv. discriminate.
  - intros ->. rewrite fgt_irrefl. split; reflexivity.
Qed.

Lemma omap_phase_const {V} (f : @event F obj -> option V) one (pat : list V) bs :
  (forall a b r, omap f (one a b r) = pat) ->
  forall a rs, length rs = length bs ->
  omap f (phase_events one a bs rs) = concat (repeat pat (length bs)).
Proof.
  intros Hone. induction bs as [|b bs IH]; intros a [|r rs] Hlen; simpl in Hlen;
    try discriminate; auto.
  cbn [phase_events length repeat concat]. rewrite omap_app, Hone, IH by lia. reflexivity.
Qed.




Lemma concat_repeat_singleton {A} (x : A) n : concat (repeat [x] n) = repeat x n.
Proof. induction n as [|n IH]; simpl; congruence. Qed.

Lemma lr_steps_epoch L best epoch r :
  length (e_val r) = length (val_loader L) ->
  omap lr_step_of (epoch_events L best epoch r)
  = epoch_lr_steps (scheduler L) (length (val_loader L)) (epoch_val_acc L r)
      (fgt (epoch_val_acc L r) best).
Proof.
  intros H2. unfold epoch_events, report_events, checkpoint_events, epoch_lr_steps.
  rewrite !omap_app.
  rewrite (omap_phase_nil lr_step_of (train_batch_events L (e_pbar r))) by batches_silent.
  rewrite (omap_phase_const lr_step_of _ [Validate]) by (batches_silent || auto).
  rewrite concat_repeat_singleton. simpl. destruct (fgt _ _); reflexivity.
Qed.

Lemma lr_steps_loop L es : forall best rs,
  length rs = length es -> Forall (epoch_resp_ok L) rs ->
  exists vs : list (F * bool), length vs = length es
    /\ omap lr_step_of (loop_events L best es rs)
       = concat (map (fun v => epoch_lr_steps (scheduler L) (length (val_loader L))
                                 v.1 v.2) vs).
Proof.
  induction es as [|e es IH]; intros best [|r rs] Hlen Hok; simpl in Hlen; try discriminate.
  - exists []. auto.
  - apply Forall_cons in Hok as [(_ & H2 & _) Hok].
    destruct (IH (new_best L best r) rs) as (vs & Hl & Hs); [lia | assumption |].
    exists ((epoch_val_acc L r, fgt (epoch_val_acc L r) best) :: vs).
    cbn [loop_events map concat length]. rewrite omap_app, lr_steps_epoch, Hs, Hl by assumption.
    auto.
Qed.

(** C5. In a completed training the scheduler is created once, as a
    [ReduceLROnPlateau] in mode ["max"] with factor 0.1 and patience 5, and
    every epoch steps that scheduler exactly once: after the validation
    passes of the epoch, with the validation accuracy the epoch then
    reports, and before the lines of the epoch's report and the
    checkpoint. *)
Theorem scheduler_stepped_once_per_epoch cfg lg cuda tds vds tl vl tr tr' :
  fit oracle cfg lg cuda tds vds tl vl tr = (Ret tt, tr') ->
  exists evs s (vs : list (F * bool)), tr' = tr ++ evs
    /\ length vs = length (epoch_range cfg)
    /\ omap lr_step_of evs
       = CreateScheduler s "max" (of_Q (1 # 10)) 5
         :: concat (map (fun v => epoch_lr_steps s (length vl) v.1 v.2) vs).
Proof.
  intros R.
  apply fit_Ret in R as (L & ri & rs & -> & _ & _ & _ & _ & <- & Hlen & Hok & _).
  destruct (lr_steps_loop L (epoch_range cfg) (of_Q 0) rs Hlen Hok) as (vs & Hl & Hs).
  eexists _, (scheduler L), vs. split; [reflexivity|]. split; [assumption|].
  rewrite omap_app, Hs. reflexivity.
Qed.

Lemma omap_phase_zip {V} (f : @event F obj -> option V) one
    (g : batch -> batch_resp -> V) bs :
  (forall a b r, omap f (one a b r) = [g b r]) ->
  forall a rs, length rs = length bs ->
  omap f (phase_events one a bs rs) = zip_with g bs rs.
Proof.
  intros Hone. induction bs as [|b bs IH]; intros a [|r rs] Hlen; simpl in Hlen;
    try discriminate; auto.
  cbn [phase_events zip_with]. rewrite omap_app, Hone, IH by lia. reflexivity.
Qed.

Lemma phase_sums_spec (bs : list (@batch obj)) : forall a (rs : list (@batch_resp F obj)),
  length rs = length bs ->
  phase_sums a bs rs
  = {| loss_sum := fold_left fadd (map r_item rs) (loss_sum a);
       correct := correct a + Z.of_nat (hits (zip_with batch_result bs rs));
       total := total a + Z.of_nat (seen (zip_with batch_result bs rs)) |}.
Proof.
  induction bs as [|b bs IH]; intros a [|r rs] Hlen; simpl in Hlen; try discriminate.
  - destruct a. unfold hits, seen. simpl. f_equal; lia.
  - cbn [phase_sums]. rewrite IH by lia. unfold hits, seen, step_sums, accumulate.
    simpl. rewrite length_app. f_equal; lia.
Qed.

Lemma zip_results_labels (bs : list (@batch obj)) : forall rs : list (@batch_resp F obj),
  length rs = length bs -> map snd (zip_with batch_result bs rs) = map labels bs.
Proof.
  induction bs as [|b bs IH]; intros [|r rs] Hlen; simpl in *; try discriminate; auto.
  rewrite IH by lia. reflexivity.
Qed.



(** *** Computations that return *)

Lemma returns_ret {A} (Q : A -> Prop) (x : A) : Q x -> returns Q (@ret F obj A x).
Proof. intros HQ tr. exists x, tr. auto. Qed.

Lemma returns_ext {T} (c : call T) :
  obliging oracle -> in_fit c = true -> returns (fun _ => True) (ext oracle c).
Proof.
  intros Hob Hc tr. destruct (Hob T c tr Hc) as [r Hr].
  exists r, (tr ++ [Called c (Ret r)]). unfold ext. rewrite Hr. auto.
Qed.

Lemma returns_bind {A B} (Q1 : A -> Prop) (Q2 : B -> Prop)
    (m : @M F obj A) (f : A -> @M F obj B) :
  returns Q1 m -> (forall x, Q1 x -> returns Q2 (f x)) -> returns Q2 (bind m f).
Proof.
  intros Hm Hf tr. destruct (Hm tr) as (x & tr1 & Em & HQ).
  destruct (Hf x HQ tr1) as (y & tr2 & Ef & HQ2).
  exists y, tr2. unfold bind. rewrite Em. auto.
Qed.

Lemma returns_weaken {A} (Q1 Q2 : A -> Prop) (m : @M F obj A) :
  returns Q1 m -> (forall x, Q1 x -> Q2 x) -> returns Q2 m.
Proof.
  intros Hm HQ tr. destruct (Hm tr) as (x & tr1 & Em & H1). exists x, tr1. auto.
Qed.

Lemma returns_getitem (cfg : gmap string pyval) k :
  is_Some (cfg !! k) -> returns (fun _ => True) (@getitem F obj cfg k).
Proof. intros [v Hv]. unfold getitem. rewrite Hv. apply returns_ret. exact I. Qed.

Lemma returns_truediv (x : F) n :
  n <> 0%Z -> returns (fun _ => True) (@truediv F _ obj x n).
Proof.
  intros Hn. unfold truediv. destruct (Z.eqb_spec n 0); [contradiction|].
  apply returns_ret. exact I.
Qed.

Ltac returns_tac Hob :=
  repeat first
    [ apply returns_ret; solve [auto]
    | apply (returns_ext _ Hob); reflexivity
    | apply returns_getitem; assumption
    | apply returns_truediv; solve [auto]
    | eapply returns_bind; [|intros ? _]
    | progress cbv zeta ].

Lemma returns_train_batch L pbar a b :
  obliging oracle -> (0 < total a + Z.of_nat (length (labels b)))%Z ->
  returns (fun a' => total a' = (total a + Z.of_nat (length (labels b)))%Z)
    (train_batch oracle L pbar a b).
Proof.
  intros Hob Hpos. unfold train_batch, accuracy.
  eapply returns_bind; [apply (returns_ext _ Hob); reflexivity|intros x _].
  eapply returns_bind; [apply (returns_ext _ Hob); reflexivity|intros ? _].
  eapply returns_bind; [apply (returns_ext _ Hob); reflexivity|intros ? _].
  eapply returns_bind with (Q1 := fun _ => True).
  { destruct (cuda_available L); returns_tac Hob. }
  intros ol _.
  eapply returns_bind; [apply (returns_ext _ Hob); reflexivity|intros l _]. cbv zeta.
  assert (Hne : total (accumulate a l ol.1 (labels b)) <> 0%Z) by (simpl; lia).
  returns_tac Hob.
Qed.

Lemma returns_train_phase L pbar bs : forall a,
  obliging oracle -> (0 <= total a)%Z ->
  (0 < total a)%Z \/ bs = [] \/ first_batch_nonempty bs ->
  returns (fun a' => total a' = (total a + Z.of_nat (samples bs))%Z)
    (for_each (train_batch oracle L pbar) bs a).
Proof.
  induction bs as [|b bs IH]; intros a Hob Hge Hcond; simpl.
  - apply returns_ret. unfold samples. simpl. lia.
  - assert (Hpos : (0 < total a + Z.of_nat (length (labels b)))%Z).
    { destruct Hcond as [? | [? | Hb]]; [lia | discriminate |].
      simpl in Hb. destruct (labels b); [congruence | simpl; lia]. }
    eapply returns_bind; [apply returns_train_batch; assumption|].
    intros a' Ha'. cbv beta in Ha'. eapply returns_weaken.
    + apply IH; [assumption | lia | left; lia].
    + intros a2 Ha2. cbv beta in Ha2. rewrite Ha2, Ha'. unfold samples. simpl. rewrite length_app. lia.
Qed.

Lemma returns_val_phase L bs : forall a,
  obliging oracle ->
  returns (fun a' => total a' = (total a + Z.of_nat (samples bs))%Z)
    (for_each (val_batch oracle L) bs a).
Proof.
  induction bs as [|b bs IH]; intros a Hob; simpl.
  - apply returns_ret. unfold samples. simpl. lia.
  - eapply returns_bind
      with (Q1 := fun a' => total a' = (total a + Z.of_nat (length (labels b)))%Z).
    + unfold val_batch. returns_tac Hob.
    + intros a' Ha'. cbv beta in Ha'. eapply returns_weaken; [apply IH; assumption|].
      intros a2 Ha2. cbv beta in Ha2. rewrite Ha2, Ha'. unfold samples. simpl. rewrite length_app. lia.
Qed.

Lemma returns_train_epoch L best epoch :
  obliging oracle ->
  is_Some (config L !! "num_epochs") -> is_Some (config L !! "checkpoint_dir") ->
  first_batch_nonempty (train_loader L) -> samples (val_loader L) <> 0 ->
  returns (fun _ => True) (train_epoch oracle L best epoch).
Proof.
  intros Hob Hn Hc Htrain Hval. unfold train_epoch, accuracy.
  assert (Hlt : length (train_loader L) <> 0)
    by (destruct (train_loader L); [contradiction | discriminate]).
  assert (Hlv : length (val_loader L) <> 0)
    by (destruct (val_loader L); [contradiction | discriminate]).
  eapply returns_bind; [apply (returns_ext _ Hob); reflexivity|intros ? _].
  eapply returns_bind; [apply returns_getitem; assumption|intros ? _].
  eapply returns_bind; [apply (returns_ext _ Hob); reflexivity|intros pbar _].
  eapply returns_bind.
  { apply (returns_train_phase L pbar (train_loader L) sums0 Hob); simpl; auto with lia. }
  intros a1 Ha1. simpl in Ha1.
  eapply returns_bind; [apply (returns_ext _ Hob); reflexivity|intros ? _].
  eapply returns_bind; [apply (returns_val_phase L (val_loader L) sums0 Hob)|].
  intros a2 Ha2. simpl in Ha2.
  assert (total a1 <> 0%Z).
  { rewrite Ha1. unfold samples. destruct (train_loader L) as [|b bs]; [contradiction|].
    simpl in *. rewrite length_app. destruct (labels b); [congruence | simpl; lia]. }
  assert (total a2 <> 0%Z) by lia.
  assert (Z.of_nat (length (train_loader L)) <> 0%Z) by lia.
  assert (Z.of_nat (length (val_loader L)) <> 0%Z) by lia.
  returns_tac Hob.
  destruct (fgt _ _); returns_tac Hob.
Qed.

Lemma seen_samples (bs : list (@batch obj)) (rs : list (@batch_resp F obj)) :
  length rs = length bs -> seen (zip_with batch_result bs rs) = samples bs.
Proof. intros Hlen. unfold seen, samples. rewrite zip_results_labels; auto. Qed.

(** C9, as amended. With collaborators that never raise (and the two
    keys the epoch reads present in [config]), an epoch's divisions are
    all defined, and the epoch completes, exactly when the training
    loader yields a batch and its first batch has a sample (so that the
    cumulative sample count is nonzero after every batch) and the
    validation loader yields a sample (hence a batch); in every other
    case, an empty training or validation set among them, the epoch
    raises [ZeroDivisionError]. *)
Theorem metrics_defined_iff_samples L best epoch tr :
  obliging oracle ->
  is_Some (config L !! "num_epochs") -> is_Some (config L !! "checkpoint_dir") ->
  (first_batch_nonempty (train_loader L) /\ samples (val_loader L) <> 0 ->
     exists best' tr', train_epoch oracle L best epoch tr = (Ret best', tr'))
  /\ (~ (first_batch_nonempty (train_loader L) /\ samples (val_loader L) <> 0) ->
     exists tr', train_epoch oracle L best epoch tr = (Raise ZeroDivisionError, tr'))
  /\ (train_loader L = [] \/ val_loader L = [] ->
     exists tr', train_epoch oracle L best epoch tr = (Raise ZeroDivisionError, tr')).
Proof.
  intros Hob Hn Hc.
  assert (Hraise : ~ (first_batch_nonempty (train_loader L) /\ samples (val_loader L) <> 0) ->
     exists tr', train_epoch oracle L best epoch tr = (Raise ZeroDivisionError, tr')).
  { intros Hnot.
    destruct (train_epoch oracle L best epoch tr) as [[best'|e] tr'] eqn:R.
    - exfalso. apply Hnot.
      apply train_epoch_Ret in R as (r & _ & H2 & _ & _ & _ & Hval & Hfirst & _).
      split; [assumption|]. intros E. apply Hval.
      unfold val_sums. rewrite phase_sums_spec, seen_samples, E by assumption. reflexivity.
    - exists tr'. f_equal. f_equal.
      set (P := fun ev : @event F obj =>
                  forall e', failure ev = Some e' -> e' = ZeroDivisionError).
      destruct (tidy_train_epoch P) with (L := L) (best := best) (epoch := epoch) (tr := tr)
        as (evs & _ & HP & Hs).
      + intros T c tr0 Hfit e'. destruct (Hob T c tr0 Hfit) as [x ->]. discriminate.
      + intros e'. simpl. congruence.
      + intros k [-> | ->] Hk; [rewrite Hk in Hn | rewrite Hk in Hc];
          exfalso; eapply is_Some_None; eassumption.
      + rewrite R in Hs. simpl in Hs. destruct Hs as (pre & ev & -> & Hev & _).
        apply Forall_app in HP as [_ HP]. apply Forall_cons in HP as [HP _].
        apply HP, Hev. }
  split; [|split; [exact Hraise|]].
  - intros [Htrain Hval] .
    destruct (returns_train_epoch L best epoch Hob Hn Hc Htrain Hval tr)
      as (best' & tr' & R & _). eauto.
  - intros [E | E]; apply Hraise; intros [Htrain Hval].
    + rewrite E in Htrain. exact Htrain.
    + rewrite E in Hval. apply Hval. reflexivity.
Qed.

(** *** Runs of the straight-line parts, whatever their outcome *)

Lemma bind_run {A B} (m : @M F obj A) (f : A -> @M F obj B) tr o tr' :
  bind m f tr = (o, tr') ->
  (exists x tr1, m tr = (Ret x, tr1) /\ f x tr1 = (o, tr'))
  \/ (exists e, m tr = (Raise e, tr') /\ o = Raise e).
Proof.
  unfold bind. destruct (m tr) as [[x|e] tr1]; [eauto | intros [= <- <-]; eauto].
Qed.

Lemma ext_run {T} (c : call T) tr o tr' :
  ext oracle c tr = (o, tr') -> tr' = tr ++ [Called c o].
Proof. unfold ext. intros [= <- <-]. reflexivity. Qed.

Lemma ret_run {A} (x : A) tr o tr' : ret x tr = (o, tr') -> o = Ret x /\ tr' = tr.
Proof. unfold ret. intros [= <- <-]. auto. Qed.

Lemma raise_run {A} e tr (o : outcome A) tr' :
  raise e tr = (o, tr') -> o = Raise e /\ tr' = tr ++ [Raised e].
Proof. unfold raise. intros [= <- <-]. auto. Qed.

Lemma getitem_run (cfg : gmap string pyval) k tr o tr' :
  getitem cfg k tr = (o, tr') ->
  (cfg !! k = Some (cfg_value cfg k) /\ o = Ret (cfg_value cfg k) /\ tr' = tr)
  \/ (cfg !! k = None /\ o = Raise (KeyError k) /\ tr' = tr ++ [Raised (KeyError k)]).
Proof.
  unfold getitem, cfg_value. destruct (cfg !! k); simpl.
  - intros [-> ->]%ret_run. auto.
  - intros [-> ->]%raise_run. auto.
Qed.

Ltac settle_outcome Ho :=
  first [ discriminate Ho
        | injection Ho; clear Ho; intros; subst
        | subst ].

Ltac run_cases H :=
  lazymatch type of H with
  | bind _ _ _ = _ =>
      let x := fresh "x" in let tr := fresh "tr" in let e := fresh "e" in
      let H1 := fresh "R" in let H2 := fresh "R" in
      apply bind_run in H; destruct H as [(x & tr & H1 & H2) | (e & H1 & H2)];
      [ run_cases H1; cbv beta in H2; run_cases H2
      | settle_outcome H2; run_cases H1 ]
  | ext _ _ _ = _ => apply ext_run in H; subst
  | ret _ _ = _ =>
      let Ho := fresh "O" in
      apply ret_run in H; destruct H as [Ho ?]; settle_outcome Ho
  | raise _ _ = _ =>
      let Ho := fresh "O" in
      apply raise_run in H; destruct H as [Ho ?]; settle_outcome Ho
  | getitem _ _ _ = _ =>
      let Ho := fresh "O" in let K := fresh "K" in
      apply getitem_run in H; destruct H as [(K & Ho & ?) | (K & Ho & ?)];
      settle_outcome Ho
  | (if ?b then _ else _) _ = _ =>
      let E := fresh "B" in destruct b eqn:E; run_cases H
  | (let _ := _ in _) _ = _ => cbv zeta in H; run_cases H
  | _ => idtac
  end.

Ltac trace_eq' := rewrite <- ?app_assoc; simpl; reflexivity.

Lemma create_datasets_run cfg lg tr o tr' :
  create_datasets oracle cfg lg tr = (o, tr') ->
  (exists p1 tds p2 vds,
      o = Ret (Some (tds, vds)) /\ tr' = tr ++ datasets_events cfg p1 tds p2 vds)
  \/ (exists evs e r,
        try_failed cfg evs e /\ is_Exception e = true
        /\ tr' = tr ++ evs ++ [Called (Logger_log lg (MsgDatasetError (exc_msg e))) r]
        /\ o = match r with Ret _ => Ret None | Raise e' => Raise e' end)
  \/ (exists evs e,
        try_failed cfg evs e /\ is_Exception e = false /\ tr' = tr ++ evs /\ o = Raise e).
Proof.
  unfold create_datasets, try_except.
  match goal with |- context [match ?body tr with _ => _ end] =>
    destruct (body tr) as [[x|e] tr1] eqn:B end.
  - intros [= <- <-]. left. run_cases B. do 4 eexists. split; [reflexivity|].
    unfold datasets_events. trace_eq'.
  - intros R.
    assert (Hf : exists evs, try_failed cfg evs e /\ tr1 = tr ++ evs).
    { run_cases B; try congruence; eexists;
        (split; [|trace_eq']); constructor; assumption. }
    destruct Hf as (evs & Hf & ->).
    destruct (is_Exception e) eqn:Ex.
    + right; left. run_cases R.
      * exists evs, e, (Ret x). rewrite <- app_assoc. auto.
      * exists evs, e, (Raise e0). rewrite <- app_assoc. auto.
    + right; right. injection R as <- <-. eauto 10.
Qed.

Lemma preamble_Ret cfg tr lc tr' :
  preamble oracle cfg tr = (Ret lc, tr') ->
  exists name mem, tr' = tr ++ preamble_events cfg lc.1 lc.2 name mem.
Proof.
  unfold preamble. intros R. run_inv R.
  - eexists _, _. unfold preamble_events, greeting_events. simpl. use_keys. trace_eq.
  - exists EmptyString, 0%Z. unfold preamble_events, greeting_events. simpl. use_keys. trace_eq.
Qed.

(** A completed [train] either built both datasets and trained, or
    caught the failure of their construction, logged it and returned. *)
Lemma train_Ret cfg tr tr' :
  train oracle cfg tr = (Ret tt, tr') ->
  (exists L h tds vds u,
      tr' = tr ++ train_events L h tds vds u
      /\ config L = cfg
      /\ length (u_epochs u) = length (epoch_range cfg)
      /\ Forall (epoch_resp_ok L) (u_epochs u)
      /\ (exists n, cfg !! "num_epochs" = Some (VInt n)))
  \/ (exists lg cuda h failed e,
        tr' = tr ++ aborted_events cfg lg cuda h failed e
        /\ try_failed cfg failed e /\ is_Exception e = true).
Proof.
  unfold train. intros R. apply bind_Ret in R as (lc & tr1 & R1 & R).
  apply preamble_Ret in R1 as (name & mem & ->).
  apply bind_run in R as [(ds & tr2 & R2 & R) | (e & _ & [=])].
  apply create_datasets_run in R2
    as [(p1 & tds & p2 & vds & [= ->] & ->)
       | [(evs & e & r & Hf & Ex & -> & Hr) | (evs & e & _ & _ & _ & [=])]].
  - left. apply train_rest_Ret in R as (L & u & -> & <- & <- & <- & Hlen & Hok & Hn).
    exists L, {| h_name := name; h_mem := mem; h_train_path := p1; h_val_path := p2 |},
      tds, vds, u.
    unfold train_events. cbn [h_name h_mem h_train_path h_val_path].
    rewrite <- !app_assoc. auto.
  - right. destruct r as [[]|e']; [|discriminate]. simpl in Hr. injection Hr as ->.
    apply ret_Ret in R as [_ ->].
    exists lc.1, lc.2, {| h_name := name; h_mem := mem; h_train_path := EmptyString; h_val_path := EmptyString |},
      evs, e.
    unfold aborted_events. cbn [h_name h_mem]. rewrite <- !app_assoc. auto.
Qed.

Lemma main_Ret tr tr' :
  main oracle tr = (Ret tt, tr') ->
  exists cuda tr1, tr1 = tr ++ main_head_events cuda
                   /\ train oracle main_config tr1 = (Ret tt, tr').
Proof.
  unfold main. intros R. cbv zeta in R.
  apply bind_Ret in R as (d1 & t1 & R1 & R). apply getitem_Ret in R1 as [K1 ->].
  apply bind_Ret in R as ([] & t2 & R2 & R). apply ext_Ret in R2 as ->.
  apply bind_Ret in R as (d2 & t3 & R3 & R). apply getitem_Ret in R3 as [K2 ->].
  apply bind_Ret in R as ([] & t4 & R4 & R). apply ext_Ret in R4 as ->.
  apply bind_Ret in R as ([] & t5 & R5 & R). apply ext_Ret in R5 as ->.
  apply bind_Ret in R as (c & t6 & R6 & R). apply ext_Ret in R6 as ->.
  apply bind_Ret in R as ([] & t7 & R7 & R).
  vm_compute in K1. vm_compute in K2. injection K1 as <-. injection K2 as <-.
  exists c, t7. split; [|exact R].
  unfold main_head_events, seed_events. destruct c.
  - apply ext_Ret in R7 as ->. trace_eq'.
  - apply ret_Ret in R7 as [_ ->]. trace_eq'.
Qed.

Lemma omap_try_failed {V} (f : @event F obj -> option V) cfg evs e :
  (forall T (c : call T) r, in_try c = true -> f (Called c r) = None) ->
  (forall e', f (Raised e') = None) ->
  try_failed cfg evs e -> omap f evs = [].
Proof.
  intros Hc Hr Hf. destruct Hf; simpl; rewrite ?Hc, ?Hr by reflexivity; reflexivity.
Qed.




Lemma omap_phase_nil_loop {V} (f : @event F obj -> option V) L es :
  (forall best epoch r, omap f (epoch_events L best epoch r) = []) ->
  forall best rs, omap f (loop_events L best es rs) = [].
Proof.
  intros He. induction es as [|e es IH]; intros best [|r rs]; try reflexivity.
  cbn [loop_events]. rewrite omap_app, He, IH. reflexivity.
Qed.

Lemma epoch_lines_loop L es : forall best rs,
  length rs = length es ->
  omap epoch_line (loop_events L best es rs)
  = map (fun e => (e + 1, cfg_value (config L) "num_epochs")) es.
Proof.
  induction es as [|e es IH]; intros best [|r rs] Hlen; simpl in Hlen;
    try discriminate; auto.
  cbn [loop_events map]. rewrite omap_app, IH by lia. f_equal.
  view_epoch. destruct (fgt _ _); reflexivity.
Qed.

Lemma uses_datasets_try_failed cfg (evs : list (@event F obj)) e :
  try_failed cfg evs e -> Forall (fun ev => uses_datasets ev = false) evs.
Proof. intros Hf. destruct Hf; repeat constructor. Qed.


(** *** Failures *)

Lemma omap_Forall_None {V} (f : @event F obj -> option V) evs :
  Forall (fun ev => f ev = None) evs -> omap f evs = [].
Proof.
  induction 1 as [|ev evs Hev _ IH]; simpl; [reflexivity|].
  rewrite Hev. exact IH.
Qed.

Lemma settled_app {A} pre evs (o : outcome A) :
  omap (@failure F obj) pre = [] -> settled evs o -> settled (pre ++ evs) o.
Proof.
  intros Hpre. destruct o as [x|e]; simpl.
  - intros Hs. rewrite omap_app, Hpre, Hs. reflexivity.
  - intros (p & ev & -> & Hev & Hp). exists (pre ++ p), ev.
    rewrite app_assoc, omap_app, Hpre, Hp. auto.
Qed.

Lemma failure_try_failed cfg (evs : list (@event F obj)) e :
  try_failed cfg evs e ->
  omap failure evs = [e]
  /\ (forall e0, e0 ∈ omap dataset_failure evs -> e0 = e)
  /\ length (omap dataset_built evs) <= 1
  /\ Forall (fun ev => uses_datasets ev = false) evs.
Proof.
  intros Hf. destruct Hf; simpl; (split; [reflexivity|]);
    (split; [intros e0 He0; repeat (apply elem_of_cons in He0 as [He0|He0]; [congruence|]);
             apply elem_of_nil in He0; contradiction|]);
    (split; [lia | repeat constructor]).
Qed.

Lemma quiet_preamble_events cfg lg cuda name mem :
  omap failure (@preamble_events F _ obj cfg lg cuda name mem) = []
  /\ omap dataset_failure (@preamble_events F _ obj cfg lg cuda name mem) = []
  /\ omap dataset_built (@preamble_events F _ obj cfg lg cuda name mem) = []
  /\ Forall (fun ev => uses_datasets ev = false)
       (@preamble_events F _ obj cfg lg cuda name mem).
Proof.
  unfold preamble_events, greeting_events.
  destruct cuda; simpl; repeat split; repeat constructor.
Qed.

(** C2, as amended. Once the logger exists and [config] has a
    [data_dir]: (a) when the constructor of the training dataset raises
    an exception [e] of class [Exception], [train] hands
    [Error creating datasets: str(e)] to the logger and returns (unless
    the logger raises, which the caller then sees), and that is all it
    does: no second dataset, loader, model, training, validation or
    checkpoint; an exception that is no [Exception], such as
    [KeyboardInterrupt], is not caught and [train] raises it, having
    logged nothing; (b) likewise when the training dataset is built and
    the constructor of the validation dataset raises; (c) once both
    datasets are built, [train] goes on and handles nothing any more:
    either nothing fails and it returns, or the first failure is the last
    event of the run and its exception is what [train] raises. *)
Theorem dataset_failure_aborts_later_failures_propagate cfg tr lg cuda0 tr1 d :
  preamble oracle cfg tr = (Ret (lg, cuda0), tr1) ->
  cfg !! "data_dir" = Some d ->
  (forall p1 e,
     oracle _ (os_path_join d "train") tr1 = Ret p1 ->
     oracle _ (EmotionDataset p1 "train") (tr1 ++ [Called (os_path_join d "train") (Ret p1)])
     = Raise e ->
     let failed := [ Called (os_path_join d "train") (Ret p1);
                     Called (EmotionDataset p1 "train") (Raise e) ] in
     (is_Exception e = true ->
        exists r,
          train oracle cfg tr
          = (match r with Ret _ => Ret tt | Raise e' => Raise e' end,
             tr1 ++ failed ++ [Called (Logger_log lg (MsgDatasetError (exc_msg e))) r]))
     /\ (is_Exception e = false -> train oracle cfg tr = (Raise e, tr1 ++ failed)))
  /\ (forall p1 tds p2 e,
        oracle _ (os_path_join d "train") tr1 = Ret p1 ->
        oracle _ (EmotionDataset p1 "train")
          (tr1 ++ [Called (os_path_join d "train") (Ret p1)]) = Ret tds ->
        oracle _ (os_path_join d "val")
          (tr1 ++ [ Called (os_path_join d "train") (Ret p1);
                    Called (EmotionDataset p1 "train") (Ret tds) ]) = Ret p2 ->
        oracle _ (EmotionDataset p2 "val")
          (tr1 ++ [ Called (os_path_join d "train") (Ret p1);
                    Called (EmotionDataset p1 "train") (Ret tds);
                    Called (os_path_join d "val") (Ret p2) ]) = Raise e ->
        let failed := [ Called (os_path_join d "train") (Ret p1);
                        Called (EmotionDataset p1 "train") (Ret tds);
                        Called (os_path_join d "val") (Ret p2);
                        Called (EmotionDataset p2 "val") (Raise e) ] in
        (is_Exception e = true ->
           exists r,
             train oracle cfg tr
             = (match r with Ret _ => Ret tt | Raise e' => Raise e' end,
                tr1 ++ failed ++ [Called (Logger_log lg (MsgDatasetError (exc_msg e))) r]))
        /\ (is_Exception e = false -> train oracle cfg tr = (Raise e, tr1 ++ failed)))
  /\ (forall tds vds tr2,
        create_datasets oracle cfg lg tr1 = (Ret (Some (tds, vds)), tr2) ->
        train oracle cfg tr = train_rest oracle cfg lg cuda0 tds vds tr2
        /\ exists evs, evs <> []
             /\ (train oracle cfg tr).2 = tr2 ++ evs
             /\ settled evs (train oracle cfg tr).1).
Proof.
  intros R1 K.
  assert (Htrain : train oracle cfg tr
                   = match create_datasets oracle cfg lg tr1 with
                     | (Ret (Some (tds, vds)), tr2) =>
                         train_rest oracle cfg lg cuda0 tds vds tr2
                     | (Ret None, tr2) => (Ret tt, tr2)
                     | (Raise e, tr2) => (Raise e, tr2)
                     end).
  { unfold train, bind at 1. rewrite R1. cbn [fst snd]. unfold bind at 1.
    destruct (create_datasets oracle cfg lg tr1) as [[[[tds vds]|]|e] tr2]; reflexivity. }
  split; [|split].
  - intros p1 e Hj He. cbv zeta. split.
    + intros Ex.
      exists (oracle unit (Logger_log lg (MsgDatasetError (exc_msg e)))
                (tr1 ++ [ Called (os_path_join d "train") (Ret p1);
                          Called (EmotionDataset p1 "train") (Raise e) ])).
      rewrite Htrain.
      unfold create_datasets, try_except, bind, getitem, ext, ret. rewrite K.
      unfold ret. rewrite Hj, He, Ex. rewrite <- ?app_assoc. cbn [app].
      destruct (oracle unit _ _) as [[]|e']; reflexivity.
    + intros Ex. rewrite Htrain.
      unfold create_datasets, try_except, bind, getitem, ext, ret. rewrite K.
      unfold ret. rewrite Hj, He, Ex. rewrite <- ?app_assoc. reflexivity.
  - intros p1 tds p2 e Hj Hb Hj2 He. cbv zeta.
    assert (Hbody :
      (d0 <- getitem cfg "data_dir" ;;
       p <- ext oracle (os_path_join d0 "train") ;;
       train_dataset <- ext oracle (EmotionDataset p "train") ;;
       d1 <- getitem cfg "data_dir" ;;
       p' <- ext oracle (os_path_join d1 "val") ;;
       val_dataset <- ext oracle (EmotionDataset p' "val") ;;
       ret (Some (train_dataset, val_dataset))) tr1
      = (Raise e, tr1 ++ [ Called (os_path_join d "train") (Ret p1);
                           Called (EmotionDataset p1 "train") (Ret tds);
                           Called (os_path_join d "val") (Ret p2);
                           Called (EmotionDataset p2 "val") (Raise e) ])).
    { unfold bind, getitem, ext. rewrite K. unfold ret. rewrite Hj, Hb.
      rewrite <- ?app_assoc. cbn [app]. rewrite Hj2.
      rewrite <- ?app_assoc. cbn [app]. rewrite He.
      rewrite <- ?app_assoc. reflexivity. }
    split.
    + intros Ex.
      exists (oracle unit (Logger_log lg (MsgDatasetError (exc_msg e)))
                (tr1 ++ [ Called (os_path_join d "train") (Ret p1);
                          Called (EmotionDataset p1 "train") (Ret tds);
                          Called (os_path_join d "val") (Ret p2);
                          Called (EmotionDataset p2 "val") (Raise e) ])).
      rewrite Htrain. unfold create_datasets, try_except. rewrite Hbody, Ex.
      unfold bind, ext, ret. rewrite <- ?app_assoc. cbn [app].
      destruct (oracle unit _ _) as [[]|e']; reflexivity.
    + intros Ex. rewrite Htrain. unfold create_datasets, try_except.
      rewrite Hbody, Ex. reflexivity.
  - intros tds vds tr2 R2. rewrite Htrain, R2. split; [reflexivity|].
    destruct (tidy_train_rest (fun _ => True)) with (cfg := cfg) (lg := lg)
      (cuda := cuda0) (tds := tds) (vds := vds) (tr := tr2) as (evs & Ht & _ & Hs); auto.
    exists evs. split; [|split; assumption].
    destruct (train_rest oracle cfg lg cuda0 tds vds tr2) as [[[]|e] tr3] eqn:R; simpl in *.
    + apply train_rest_Ret in R as (L & u & -> & _).
      apply app_inv_head in Ht. subst evs. unfold train_rest_events, create_dataloaders_events.
      discriminate.
    + destruct Hs as (pre & ev & -> & _). destruct pre; discriminate.
Qed.

(** *** The loaders *)





(** *** Further properties of the epoch loop *)

Lemma checkpoints_chain (accs : list F) : forall best k,
  (forall c, head (checkpoints best k accs) = Some c -> fgt c.2 best = true)
  /\ (forall i c1 c2,
        checkpoints best k accs !! i = Some c1 ->
        checkpoints best k accs !! S i = Some c2 ->
        c1.1 < c2.1 /\ fgt c2.2 c1.2 = true)
  /\ (forall c, c ∈ checkpoints best k accs -> k <= c.1 < k + length accs)
  /\ running_best best accs = default best (snd <$> last (checkpoints best k accs))
  /\ (checkpoints best k accs = [] <-> Forall (fun v => fgt v best = false) accs).
Proof.
  induction accs as [|v vs IH]; intros best k; simpl.
  - split; [discriminate|]. split; [discriminate|].
    split; [intros c Hc; apply elem_of_nil in Hc; contradiction|].
    split; [reflexivity|]. split; [constructor | reflexivity].
  - destruct (fgt v best) eqn:E.
    + destruct (IH v (S k)) as (Hhead & Hnext & Hin & Hbest & _).
      split; [intros c [= <-]; exact E|].
      split; [|split; [|split]].
      * intros [|i] c1 c2 H1 H2; simpl in *.
        -- injection H1 as <-. simpl.
           assert (Hc2 : c2 ∈ checkpoints v (S k) vs)
             by (apply list_elem_of_lookup; exists 0; exact H2).
           apply Hin in Hc2. split; [lia|]. apply Hhead.
           destruct (checkpoints v (S k) vs); [discriminate | exact H2].
        -- eapply Hnext; eassumption.
      * intros c Hc. apply elem_of_cons in Hc as [-> | Hc]; simpl; [lia|].
        apply Hin in Hc. lia.
      * rewrite Hbest, last_cons. destruct (last (checkpoints v (S k) vs)); reflexivity.
      * split; [discriminate|]. intros HF. apply Forall_cons in HF as [HF _]. congruence.
    + destruct (IH best (S k)) as (Hhead & Hnext & Hin & Hbest & Hnil).
      split; [exact Hhead|]. split; [exact Hnext|].
      split; [intros c Hc; apply Hin in Hc; lia|].
      split; [exact Hbest|]. rewrite Hnil. split.
      * intros HF. constructor; assumption.
      * intros HF. apply Forall_cons in HF as [_ HF]. exact HF.
Qed.

(** X1. The checkpoints of a completed epoch loop improve strictly: the
    first one written has a validation accuracy greater than 0.0, every
    later one has a later epoch and a greater accuracy than the one
    written before it, and all have epochs below the configured number.
    The loop ends with the accuracy of the last checkpoint written as its
    best, or with 0.0 when it wrote none; and it writes none exactly when
    no epoch's validation accuracy is greater than 0.0. *)
Theorem checkpoints_strictly_improve L tr best tr' :
  epoch_loop oracle L tr = (Ret best, tr') ->
  exists evs, tr' = tr ++ evs /\
    let cps := omap saved evs in
    (forall c, head cps = Some c -> fgt c.2 (of_Q 0) = true)
    /\ (forall i c1 c2, cps !! i = Some c1 -> cps !! S i = Some c2 ->
          c1.1 < c2.1 /\ fgt c2.2 c1.2 = true)
    /\ (forall c, c ∈ cps -> c.1 < length (epoch_range (config L)))
    /\ best = default (of_Q 0) (snd <$> last cps)
    /\ (cps = [] <-> Forall (fun v => fgt v (of_Q 0) = false) (omap validated evs)).
Proof.
  intros R. apply epoch_loop_Ret in R as (rs & Hlen & _ & -> & -> & n & Hn).
  eexists. split; [reflexivity|]. cbv zeta.
  rewrite validated_loop by assumption.
  unfold epoch_range, cfg_value in *. rewrite Hn in *. simpl in *.
  rewrite length_seq in Hlen.
  rewrite saved_loop, loop_best_running by assumption.
  destruct (checkpoints_chain (map (epoch_val_acc L) rs) (of_Q 0) 0)
    as (Hhead & Hnext & Hin & Hbest & Hnil).
  rewrite length_map, Hlen in Hin. rewrite length_seq.
  split; [exact Hhead|]. split; [exact Hnext|].
  split; [intros c Hc; apply Hin in Hc; lia|]. split; [exact Hbest | exact Hnil].
Qed.


(** A completed epoch, with the keys it read. *)
Lemma train_epoch_Ret_dir L best epoch tr best' tr' :
  train_epoch oracle L best epoch tr = (Ret best', tr') ->
  exists r, length (e_train r) = length (train_loader L)
            /\ length (e_val r) = length (val_loader L)
            /\ tr' = tr ++ epoch_events L best epoch r
            /\ best' = new_best L best r
            /\ is_Some (config L !! "num_epochs")
            /\ (fgt (epoch_val_acc L r) best = true ->
                is_Some (config L !! "checkpoint_dir")).
Proof.
  unfold train_epoch. intros R. run_inv R; same_keys;
    match goal with
    | R1 : for_each (train_batch _ _ _) _ _ _ = _,
      R2 : for_each (val_batch _ _) _ _ _ = _ |- _ =>
        apply train_phase_Ret in R1 as (rs1 & Hl1 & -> & ->);
        apply val_phase_Ret in R2 as (rs2 & Hl2 & -> & ->)
    end;
    match goal with
    | pbar : obj, lr : F |- _ =>
        exists {| e_pbar := pbar; e_train := rs1; e_val := rs2; e_lr := lr |}
    end;
    unfold epoch_events, report_events, checkpoint_events, new_best, epoch_val_acc,
      train_sums, val_sums, mean_loss; simpl;
    match goal with B : fgt _ _ = _ |- _ => rewrite B end;
    (split; [assumption|]); (split; [assumption|]);
    (split; [use_keys; trace_eq|]); (split; [reflexivity|]);
    (split; [eexists; eassumption|]);
    first [ discriminate | intros _; eexists; eassumption ].
Qed.

Lemma train_results_epoch L best epoch r :
  length (e_train r) = length (train_loader L) ->
  omap train_result (epoch_events L best epoch r)
  = zip_with batch_result (train_loader L) (e_train r).
Proof.
  intros H1. unfold epoch_events, report_events, checkpoint_events. rewrite !omap_app.
  rewrite (omap_phase_zip train_result _ batch_result) by (batches_silent || auto).
  rewrite (omap_phase_nil train_result (val_batch_events L)) by batches_silent.
  simpl. destruct (fgt _ _); simpl; rewrite app_nil_r; reflexivity.
Qed.

Lemma val_results_epoch L best epoch r :
  length (e_val r) = length (val_loader L) ->
  omap val_result (epoch_events L best epoch r)
  = zip_with batch_result (val_loader L) (e_val r).
Proof.
  intros H2. unfold epoch_events, report_events, checkpoint_events. rewrite !omap_app.
  rewrite (omap_phase_nil val_result (train_batch_events L _)) by batches_silent.
  rewrite (omap_phase_zip val_result _ batch_result) by (batches_silent || auto).
  simpl. destruct (fgt _ _); simpl; rewrite app_nil_r; reflexivity.
Qed.

Lemma zip_items (bs : list (@batch obj)) : forall rs : list (@batch_resp F obj),
  length rs = length bs -> zip_with (fun _ r => r_item r) bs rs = map r_item rs.
Proof.
  induction bs as [|b bs IH]; intros [|r0 rs] Hl; simpl in *; try discriminate; auto.
  rewrite IH by lia. reflexivity.
Qed.

Lemma loss_items_epoch L best epoch r :
  length (e_train r) = length (train_loader L) ->
  length (e_val r) = length (val_loader L) ->
  omap loss_item (epoch_events L best epoch r)
  = map r_item (e_train r) ++ map r_item (e_val r).
Proof.
  intros H1 H2. unfold epoch_events, report_events, checkpoint_events. rewrite !omap_app.
  rewrite !(omap_phase_zip loss_item _ (fun _ r => r_item r)) by (batches_silent || auto).
  rewrite !zip_items by assumption.
  simpl. destruct (fgt _ _); simpl; rewrite app_nil_r; reflexivity.
Qed.

Lemma train_report_epoch L best epoch r :
  omap train_report (epoch_events L best epoch r)
  = [(mean_loss (train_sums L r) (train_loader L), ratio100 (train_sums L r))].
Proof. view_epoch. destruct (fgt _ _); reflexivity. Qed.

Lemma val_report_epoch L best epoch r :
  omap val_report (epoch_events L best epoch r)
  = [(mean_loss (val_sums L r) (val_loader L), epoch_val_acc L r)].
Proof. view_epoch. destruct (fgt _ _); reflexivity. Qed.

Lemma epoch_line_epoch L best epoch r :
  omap epoch_line (epoch_events L best epoch r)
  = [(epoch + 1, cfg_value (config L) "num_epochs")].
Proof. view_epoch. destruct (fgt _ _); reflexivity. Qed.

(** *** The progress bar *)

Lemma postfix_phase L pbar (bs : list (@batch obj)) : forall a (rs : list (@batch_resp F obj)),
  length rs = length bs ->
  omap postfix (phase_events (train_batch_events L pbar) a bs rs)
  = map (fun i => (fdiv (loss_sum (phase_sums a (take (S i) bs) (take (S i) rs)))
                        (of_Z (total (phase_sums a (take (S i) bs) (take (S i) rs)))),
                   ratio100 (phase_sums a (take (S i) bs) (take (S i) rs))))
        (seq 0 (length bs)).
Proof.
  induction bs as [|b bs IH]; intros a [|r rs] Hlen; simpl in Hlen; try discriminate; auto.
  cbn [phase_events length seq map]. rewrite omap_app, IH by lia.
  rewrite <- seq_shift, map_map. f_equal.
  unfold train_batch_events. destruct (cuda_available L); reflexivity.
Qed.


Lemma seen_take_positive (tb : list (list (list F) * list nat)) i :
  (exists x, head tb = Some x /\ x.2 <> []) -> seen (take (S i) tb) <> 0.
Proof.
  intros ([o l] & Hh & Hne). destruct tb as [|y tb]; [discriminate|].
  injection Hh as ->. unfold seen. simpl in *. rewrite length_app.
  destruct l; [congruence | simpl; lia].
Qed.

(** X2. After each training batch of a completed epoch the progress bar
    is asked to show the running metrics of the epoch so far: as loss,
    the sum of the losses read so far divided by the number of samples
    seen so far (not by the number of batches, as the epoch's report
    does), and as accuracy 100 times the correct predictions so far
    divided by the samples so far - a nonzero number after every batch.
    After the last batch, the accuracy shown is the training accuracy
    the epoch reports. *)
Theorem progress_bar_shows_running_metrics L best epoch tr best' tr' :
  train_epoch oracle L best epoch tr = (Ret best', tr') ->
  exists evs, tr' = tr ++ evs /\
    let tb := omap train_result evs in
    let items := omap loss_item evs in
    omap postfix evs
    = map (fun i => (fdiv (sum_losses (take (S i) items))
                          (of_Z (Z.of_nat (seen (take (S i) tb)))),
                     percent (hits (take (S i) tb)) (seen (take (S i) tb))))
          (seq 0 (length (train_loader L)))
    /\ (forall i, seen (take (S i) tb) <> 0)
    /\ snd <$> last (omap postfix evs) = snd <$> head (omap train_report evs).
Proof.
  intros R. apply train_epoch_Ret in R as (r & H1 & H2 & -> & _ & Hne & _ & Hfirst & _).
  eexists. split; [reflexivity|]. cbv zeta.
  rewrite train_results_epoch, loss_items_epoch, train_report_epoch by assumption.
  assert (Hpf : omap postfix (epoch_events L best epoch r)
                = map (fun i => (fdiv (sum_losses (take (S i) (map r_item (e_train r) ++ map r_item (e_val r))))
                          (of_Z (Z.of_nat (seen (take (S i) (zip_with batch_result (train_loader L) (e_train r)))))),
                     percent (hits (take (S i) (zip_with batch_result (train_loader L) (e_train r))))
                       (seen (take (S i) (zip_with batch_result (train_loader L) (e_train r))))))
                    (seq 0 (length (train_loader L)))).
  { unfold epoch_events, report_events, checkpoint_events. rewrite !omap_app.
    rewrite postfix_phase by assumption.
    rewrite (omap_phase_nil postfix (val_batch_events L)) by batches_silent.
    simpl. replace (omap postfix (if fgt (epoch_val_acc L r) best then _ else _)) with (@nil (F * F))
      by (destruct (fgt _ _); reflexivity).
    rewrite app_nil_r. apply map_ext_in. intros i Hi. apply in_seq in Hi.
    rewrite phase_sums_spec by (rewrite !length_take; lia).
    rewrite zip_with_take, take_app_le, <- firstn_map by (rewrite length_map; lia).
    reflexivity. }
  rewrite Hpf. split; [reflexivity|]. split.
  - intros i. apply seen_take_positive.
    destruct (train_loader L) as [|b bs]; [contradiction|].
    destruct (e_train r) as [|r0 rs]; [discriminate|].
    eexists. split; [reflexivity|]. exact Hfirst.
  - assert (Hn : length (train_loader L) <> 0)
      by (destruct (train_loader L); [congruence | discriminate]).
    destruct (length (train_loader L)) as [|n] eqn:En; [congruence|].
    rewrite seq_S, map_app. cbn [map]. rewrite last_snoc. simpl. f_equal.
    rewrite firstn_all2 by (rewrite length_zip_with; lia).
    unfold ratio100, train_sums. rewrite phase_sums_spec by congruence. reflexivity.
Qed.


(** *** What a checkpoint holds *)

Lemma cfg_value_Some (cfg : gmap string (@pyval F)) k :
  is_Some (cfg !! k) -> cfg !! k = Some (cfg_value cfg k).
Proof. intros [v Hv]. unfold cfg_value. rewrite Hv. reflexivity. Qed.

(** X3. A completed epoch reports one validation loss and accuracy. When
    that accuracy is not greater than the best so far, the epoch calls
    [save_checkpoint] not at all and leaves the best as it is. When it is
    greater, the epoch's last two events are one call of
    [save_checkpoint] and the log line about the new best model: the
    checkpoint holds the model and the optimizer of the training, the
    epoch's zero-based index (one less than the number on the epoch's
    [Epoch k/n] line), the validation loss and accuracy exactly as
    reported, and goes to [config['checkpoint_dir']]; the accuracy
    becomes the new best. *)
Theorem checkpoint_holds_what_the_epoch_reported L best epoch tr best' tr' :
  train_epoch oracle L best epoch tr = (Ret best', tr') ->
  exists evs loss acc n, tr' = tr ++ evs
    /\ omap val_report evs = [(loss, acc)]
    /\ omap epoch_line evs = [(epoch + 1, n)]
    /\ config L !! "num_epochs" = Some n
    /\ (fgt acc best = false -> omap checkpoint_call evs = [] /\ best' = best)
    /\ (fgt acc best = true ->
          exists dir pre,
            config L !! "checkpoint_dir" = Some dir
            /\ evs = pre ++ [ Called (save_checkpoint (model L) (optimizer L) epoch
                                        loss acc dir) (Ret tt);
                              Called (Logger_log (logger L) (MsgNewBest acc)) (Ret tt) ]
            /\ omap checkpoint_call pre = []
            /\ best' = acc).
Proof.
  intros R. apply train_epoch_Ret_dir in R as (r & H1 & H2 & -> & -> & Hn & Hdir).
  exists (epoch_events L best epoch r), (mean_loss (val_sums L r) (val_loader L)),
    (epoch_val_acc L r), (cfg_value (config L) "num_epochs").
  split; [reflexivity|]. split; [apply val_report_epoch|].
  split; [apply epoch_line_epoch|]. split; [apply cfg_value_Some, Hn|].
  assert (Hquiet : omap checkpoint_call
            ([ Called (Module_train (model L)) (Ret tt);
               Called (tqdm (train_loader L) (epoch + 1) (cfg_value (config L) "num_epochs"))
                 (Ret (e_pbar r)) ]
             ++ phase_events (train_batch_events L (e_pbar r)) sums0 (train_loader L) (e_train r)
             ++ [ Called (Module_eval (model L)) (Ret tt) ]
             ++ phase_events (val_batch_events L) sums0 (val_loader L) (e_val r)
             ++ report_events L epoch r) = []).
  { unfold report_events. rewrite !omap_app.
    rewrite !omap_phase_nil by batches_silent. reflexivity. }
  unfold new_best, epoch_events, checkpoint_events. split.
  - intros E. rewrite E, !app_nil_r. split; [exact Hquiet | reflexivity].
  - intros E. rewrite E. specialize (Hdir E).
    exists (cfg_value (config L) "checkpoint_dir"). eexists.
    split; [apply cfg_value_Some, Hdir|].
    split; [rewrite !app_assoc; reflexivity|].
    split; [|reflexivity]. rewrite <- !app_assoc. exact Hquiet.
Qed.

(** *** Training and evaluation mode *)

Lemma modes_epoch L best epoch r :
  length (e_train r) = length (train_loader L) ->
  length (e_val r) = length (val_loader L) ->
  omap mode_of (epoch_events L best epoch r)
  = epoch_modes (length (train_loader L)) (length (val_loader L)).
Proof.
  intros H1 H2. unfold epoch_events, report_events, checkpoint_events, epoch_modes.
  rewrite !omap_app.
  rewrite (omap_phase_const mode_of _ [ZeroGrad; ForwardPass true]) by (batches_silent || auto).
  rewrite (omap_phase_const mode_of _ [ForwardPass false]) by (batches_silent || auto).
  rewrite concat_repeat_singleton. simpl. destruct (fgt _ _); simpl; rewrite app_nil_r; reflexivity.
Qed.

Lemma modes_loop L es : forall best rs,
  length rs = length es -> Forall (epoch_resp_ok L) rs ->
  omap mode_of (loop_events L best es rs)
  = concat (repeat (epoch_modes (length (train_loader L)) (length (val_loader L)))
              (length es)).
Proof.
  induction es as [|e es IH]; intros best [|r rs] Hlen Hok; simpl in Hlen;
    try discriminate; auto.
  apply Forall_cons in Hok as [(H1 & H2 & _) Hok].
  cbn [loop_events length repeat concat].
  rewrite omap_app, modes_epoch, IH by (assumption || lia). reflexivity.
Qed.

(** X4. Every epoch of a completed epoch loop puts the model in training
    mode before its first training batch and in evaluation mode before
    its first validation batch, and nowhere else: it calls
    [model.train()], then for each training batch
    [optimizer.zero_grad()] followed by one forward pass with gradients
    enabled, then [model.eval()], then one forward pass under
    [torch.no_grad()] for each validation batch. So gradients are
    zeroed before every training forward pass and never during
    validation. *)
Theorem epochs_switch_between_training_and_evaluation L tr best tr' :
  epoch_loop oracle L tr = (Ret best, tr') ->
  exists evs, tr' = tr ++ evs
    /\ omap mode_of evs
       = concat (repeat (epoch_modes (length (train_loader L)) (length (val_loader L)))
                   (length (epoch_range (config L)))).
Proof.
  intros R. apply epoch_loop_Ret in R as (rs & Hlen & Hok & -> & _).
  eexists. split; [reflexivity|]. apply modes_loop; assumption.
Qed.

(** *** The accuracy is a percentage *)

Lemma eq_sum_le_rows (predicted lbls : list nat) :
  length predicted = length lbls -> eq_sum predicted lbls <= length lbls.
Proof.
  revert lbls. induction predicted as [|p ps IH]; intros [|l ls] Hlen;
    simpl in *; try discriminate; [lia|].
  specialize (IH ls ltac:(lia)). destruct (Nat.eqb p l); lia.
Qed.

Lemma hits_le_seen_rows (results : list (list (list F) * list nat)) :
  Forall (fun ol => length ol.1 = length ol.2) results -> hits results <= seen results.
Proof.
  unfold hits, seen. induction 1 as [|[o l] rs Hrow _ IH]; simpl in *; [lia|].
  rewrite length_app.
  pose proof (eq_sum_le_rows (max1 o) l) as Hle.
  unfold max1 in Hle at 1. rewrite length_map in Hle. specialize (Hle Hrow). lia.
Qed.

(** X5. When the model answers each batch of a completed epoch with one
    row of logits per label, the accuracies the epoch reports are
    percentages of its loaders' samples: the training accuracy is 100
    times a count of correct predictions divided by the number of
    samples the training loader yields, the validation accuracy
    likewise for the validation loader; each count is at most the
    number of samples it is divided by, and that number is nonzero. *)
Theorem reported_accuracy_is_a_percentage L best epoch tr evs best' :
  train_epoch oracle L best epoch tr = (Ret best', tr ++ evs) ->
  Forall (fun ol => length ol.1 = length ol.2)
    (omap train_result evs ++ omap val_result evs) ->
  exists c_train c_val,
    snd <$> omap train_report evs = [percent c_train (samples (train_loader L))]
    /\ snd <$> omap val_report evs = [percent c_val (samples (val_loader L))]
    /\ c_train <= samples (train_loader L) /\ c_val <= samples (val_loader L)
    /\ 0 < samples (train_loader L) /\ 0 < samples (val_loader L).
Proof.
  intros R Hrows.
  apply train_epoch_Ret in R as (r & H1 & H2 & Hev & _ & _ & Hval & _ & Htrain).
  apply app_inv_head in Hev. subst evs.
  rewrite train_results_epoch, val_results_epoch in Hrows by assumption.
  apply Forall_app in Hrows as [Hrt Hrv].
  exists (hits (zip_with batch_result (train_loader L) (e_train r))),
    (hits (zip_with batch_result (val_loader L) (e_val r))).
  rewrite train_report_epoch, val_report_epoch.
  unfold epoch_val_acc, ratio100, train_sums, val_sums in *.
  rewrite phase_sums_spec in Hval, Htrain by assumption.
  rewrite !phase_sums_spec by assumption.
  rewrite <- !seen_samples with (rs := e_train r) by assumption.
  rewrite <- (seen_samples (val_loader L) (e_val r)) by assumption.
  simpl in *. unfold percent.
  pose proof (hits_le_seen_rows _ Hrt). pose proof (hits_le_seen_rows _ Hrv).
  repeat split; auto; lia.
Qed.



(** *** The configuration a training reads *)

Lemma preamble_key cfg tr lc tr' :
  preamble oracle cfg tr = (Ret lc, tr') -> is_Some (cfg !! "log_dir").
Proof. unfold preamble. intros R. run_inv R; eauto. Qed.

Lemma create_datasets_key cfg lg tr ds tr' :
  create_datasets oracle cfg lg tr = (Ret (Some ds), tr') -> is_Some (cfg !! "data_dir").
Proof.
  unfold create_datasets, try_except.
  match goal with |- context [match ?body tr with _ => _ end] =>
    destruct (body tr) as [[x|e] tr1] eqn:B end.
  - intros _. run_inv B. eauto.
  - destruct (is_Exception e); [|discriminate]. intros R. run_inv R. discriminate.
Qed.

Lemma create_dataloaders_key cfg cuda tds vds tr ls tr' :
  create_dataloaders oracle cfg cuda tds vds tr = (Ret ls, tr') ->
  is_Some (cfg !! "batch_size").
Proof. unfold create_dataloaders. intros R. run_inv R; eauto. Qed.

Lemma initialize_keys cfg lg cuda tds vds tl vl tr L tr' :
  initialize oracle cfg lg cuda tds vds tl vl tr = (Ret L, tr') ->
  is_Some (cfg !! "learning_rate") /\ is_Some (cfg !! "weight_decay").
Proof. unfold initialize. intros R. run_inv R. eauto. Qed.

Lemma loop_Ret_dir L es : forall best tr best' tr',
  for_each (train_epoch oracle L) es best tr = (Ret best', tr') ->
  exists evs, tr' = tr ++ evs
    /\ (omap saved evs <> [] -> is_Some (config L !! "checkpoint_dir")).
Proof.
  induction es as [|e es IH]; simpl; intros best tr best' tr' R.
  - apply ret_Ret in R as [_ ->]. exists []. rewrite app_nil_r. split; [reflexivity|].
    intros Hs. contradiction.
  - apply bind_Ret in R as (b1 & tr1 & R1 & R2).
    apply train_epoch_Ret_dir in R1 as (r & _ & _ & -> & _ & _ & Hdir).
    apply IH in R2 as (evs & -> & Hrest).
    exists (epoch_events L best e r ++ evs). rewrite <- app_assoc. split; [reflexivity|].
    rewrite omap_app, saved_epoch. destruct (fgt (epoch_val_acc L r) best); [auto|].
    exact Hrest.
Qed.

(** X7. A run of [train] that completes found [log_dir] in its
    configuration; and when it built both datasets (and so went on to
    train) it also found [data_dir], [batch_size], [learning_rate] and
    [weight_decay] there, and an int as [num_epochs]. It needed
    [checkpoint_dir] only if it wrote a checkpoint: a training in which
    no epoch improves on the best validation accuracy completes without
    it. *)
Theorem completed_training_read_its_configuration cfg tr tr' :
  train oracle cfg tr = (Ret tt, tr') ->
  exists evs, tr' = tr ++ evs
    /\ is_Some (cfg !! "log_dir")
    /\ (length (omap dataset_built evs) = 2 ->
          is_Some (cfg !! "data_dir") /\ is_Some (cfg !! "batch_size")
          /\ is_Some (cfg !! "learning_rate") /\ is_Some (cfg !! "weight_decay")
          /\ (exists n, cfg !! "num_epochs" = Some (VInt n))
          /\ (omap saved evs <> [] -> is_Some (cfg !! "checkpoint_dir"))).
Proof.
  unfold train. intros R. apply bind_Ret in R as (lc & tr1 & R1 & R).
  pose proof (preamble_key _ _ _ _ R1) as Klog.
  apply preamble_Ret in R1 as (name & mem & ->).
  destruct (quiet_preamble_events cfg lc.1 lc.2 name mem) as (_ & _ & Qb & _).
  assert (Qs : omap saved (preamble_events cfg lc.1 lc.2 name mem) = [])
    by (unfold preamble_events, greeting_events; destruct lc.2; reflexivity).
  apply bind_Ret in R as (ds & tr2 & R2 & R).
  destruct ds as [[tds vds]|].
  - pose proof (create_datasets_key _ _ _ _ _ R2) as Kdata.
    apply create_datasets_run in R2
      as [(p1 & tds' & p2 & vds' & _ & ->)
         | [(evs & e & r & _ & _ & _ & Hr) | (evs & e & _ & _ & _ & [=])]];
      [|destruct r; discriminate Hr].
    unfold train_rest in R. apply bind_Ret in R as (ls & tr3 & R3 & R).
    pose proof (create_dataloaders_key _ _ _ _ _ _ _ R3) as Kbatch.
    apply create_dataloaders_Ret in R3 as (os & cpus & ->).
    unfold fit in R. apply bind_Ret in R as (L & tr4 & R4 & R).
    pose proof (initialize_keys _ _ _ _ _ _ _ _ _ _ R4) as [Klr Kwd].
    apply initialize_Ret in R4 as (ri & -> & HL & _).
    apply bind_Ret in R as (best & tr5 & R5 & R). apply ret_Ret in R as [_ ->].
    unfold epoch_loop in R5. apply bind_Ret in R5 as (n & tr6 & R6 & R5).
    apply getitem_Ret in R6 as [Kn ->].
    apply bind_Ret in R5 as (es & tr7 & R7 & R5).
    apply range_Ret in R7 as (z & -> & -> & ->).
    apply loop_Ret_dir in R5 as (evs & -> & Hdir). rewrite HL in *.
    eexists. split; [rewrite <- !app_assoc; reflexivity|]. split; [exact Klog|].
    intros _. repeat (split; [solve [eauto]|]).
    rewrite !omap_app, Qs. unfold create_dataloaders_events.
    replace (omap saved (initialize_events L tds vds ri)) with (@nil (nat * F)) by reflexivity.
    destruct (String.eqb os "nt"); simpl; exact Hdir.
  - apply ret_Ret in R as [_ ->].
    apply create_datasets_run in R2
      as [(p1 & tds' & p2 & vds' & [=] & _)
         | [(evs & e & r & Hf & _ & -> & _) | (evs & e & _ & _ & _ & [=])]].
    destruct (failure_try_failed _ _ _ Hf) as (_ & _ & Fb & _).
    eexists. split; [rewrite <- !app_assoc; reflexivity|]. split; [exact Klog|].
    rewrite !omap_app, Qb, !length_app. simpl. lia.
Qed.


(** *** Errors of the configuration and of the platform *)

(** X8. The [try] block around the construction of the datasets also
    covers the lookup of [config['data_dir']] and the calls of
    [os.path.join]: once the logger exists, a configuration without
    [data_dir], and one whose [data_dir] makes [os.path.join] raise an
    exception of class [Exception] (a value that is no path, say), does
    not make [train] raise. The error is handed to the logger with its
    [str(e)] - for the missing key, the key in single quotes -, no
    dataset is constructed, and [train] returns (or raises what the
    logger raised). *)
Theorem data_dir_errors_are_logged_not_raised cfg tr lg cuda tr1 :
  preamble oracle cfg tr = (Ret (lg, cuda), tr1) ->
  (cfg !! "data_dir" = None ->
     exists r,
       train oracle cfg tr
       = (match r with Ret _ => Ret tt | Raise e' => Raise e' end,
          tr1 ++ [ Raised (KeyError "data_dir");
                   Called (Logger_log lg (MsgDatasetError "'data_dir'")) r ]))
  /\ (forall d e,
        cfg !! "data_dir" = Some d ->
        oracle _ (os_path_join d "train") tr1 = Raise e -> is_Exception e = true ->
        exists r,
          train oracle cfg tr
          = (match r with Ret _ => Ret tt | Raise e' => Raise e' end,
             tr1 ++ [ Called (os_path_join d "train") (Raise e);
                      Called (Logger_log lg (MsgDatasetError (exc_msg e))) r ])).
Proof.
  intros R1. split.
  - intros K.
    exists (oracle unit (Logger_log lg (MsgDatasetError "'data_dir'"))
              (tr1 ++ [Raised (KeyError "data_dir")])).
    unfold train, bind at 1. rewrite R1. cbn [fst snd].
    unfold create_datasets, try_except, bind, getitem, raise, ext, ret. rewrite K.
    cbn [KeyError is_Exception]. rewrite <- app_assoc.
    destruct (oracle unit _ _) as [[]|e']; reflexivity.
  - intros d e K Hj Ex.
    exists (oracle unit (Logger_log lg (MsgDatasetError (exc_msg e)))
              (tr1 ++ [Called (os_path_join d "train") (Raise e)])).
    unfold train, bind at 1. rewrite R1. cbn [fst snd].
    unfold create_datasets, try_except, bind, getitem, raise, ext, ret. rewrite K, Hj, Ex.
    rewrite <- app_assoc.
    destruct (oracle unit _ _) as [[]|e']; reflexivity.
Qed.

(** X9. Where [os.cpu_count()] cannot tell the number of CPUs and
    answers [None], a training on a system other than Windows fails
    before it has a loader: with both datasets built and [batch_size]
    configured, [min(None, 4)] raises [TypeError], which [train] raises
    in turn, having asked for no loader. *)
Theorem unknown_cpu_count_is_a_type_error cfg tr lg cuda tr1 tds vds tr2 os :
  preamble oracle cfg tr = (Ret (lg, cuda), tr1) ->
  create_datasets oracle cfg lg tr1 = (Ret (Some (tds, vds)), tr2) ->
  is_Some (cfg !! "batch_size") ->
  oracle _ os_name tr2 = Ret os -> os <> "nt" ->
  oracle _ os_cpu_count (tr2 ++ [Called os_name (Ret os)]) = Ret None ->
  train oracle cfg tr
  = (Raise (TypeError "'<' not supported between instances of 'int' and 'NoneType'"),
     tr2 ++ [ Called os_name (Ret os);
              Called os_cpu_count (Ret None);
              Raised (TypeError "'<' not supported between instances of 'int' and 'NoneType'") ]).
Proof.
  intros R1 R2 [bs K] Hos Hnt Hcpu.
  unfold train, bind at 1. rewrite R1. cbn [fst snd].
  unfold bind at 1. rewrite R2.
  unfold train_rest, create_dataloaders, bind, getitem, ext, ret. rewrite K, Hos.
  apply String.eqb_neq in Hnt. rewrite Hnt, Hcpu. unfold min_cpu_count, raise.
  rewrite <- !app_assoc. reflexivity.
Qed.

(** X10. The epoch loop takes its number of epochs from
    [range(config['num_epochs'])], evaluated once the model, the
    optimizer and the scheduler exist: an int that is zero or negative
    makes the training complete at once, without an epoch; a value
    that is no int makes it raise [TypeError]; and a configuration
    without [num_epochs] makes it raise [KeyError] - each without
    another call to a collaborator. *)
Theorem epoch_count_comes_from_range cfg lg cuda tds vds tl vl tr L tr1 :
  initialize oracle cfg lg cuda tds vds tl vl tr = (Ret L, tr1) ->
  (forall n, cfg !! "num_epochs" = Some (VInt n) -> (n <= 0)%Z ->
     fit oracle cfg lg cuda tds vds tl vl tr = (Ret tt, tr1))
  /\ (forall v, cfg !! "num_epochs" = Some v -> (forall n, v <> VInt n) ->
        exists e, exc_class e = "TypeError"
          /\ fit oracle cfg lg cuda tds vds tl vl tr = (Raise e, tr1 ++ [Raised e]))
  /\ (cfg !! "num_epochs" = None ->
        fit oracle cfg lg cuda tds vds tl vl tr
        = (Raise (KeyError "num_epochs"), tr1 ++ [Raised (KeyError "num_epochs")])).
Proof.
  intros R. pose proof R as R'.
  apply initialize_Ret in R' as (_ & _ & HL & _).
  assert (Hfit : fit oracle cfg lg cuda tds vds tl vl tr
                 = match getitem cfg "num_epochs" tr1 with
                   | (Ret v, tr2) =>
                       match range v tr2 with
                       | (Ret es, tr3) =>
                           match run_epochs oracle L es tr3 with
                           | (Ret _, tr4) => (Ret tt, tr4)
                           | (Raise e, tr4) => (Raise e, tr4)
                           end
                       | (Raise e, tr3) => (Raise e, tr3)
                       end
                   | (Raise e, tr2) => (Raise e, tr2)
                   end).
  { unfold fit, bind at 1. rewrite R. unfold epoch_loop, bind. rewrite HL.
    destruct (getitem cfg "num_epochs" tr1) as [[v|e] tr2]; [|reflexivity].
    destruct (range v tr2) as [[es|e] tr3]; [|reflexivity].
    destruct (run_epochs oracle L es tr3) as [[b|e] tr4]; reflexivity. }
  rewrite Hfit. unfold getitem. split; [|split].
  - intros n K Hn. rewrite K. unfold ret, range, run_epochs.
    replace (Z.to_nat n) with 0 by lia. reflexivity.
  - intros v K Hv. rewrite K. unfold ret at 1.
    destruct v as [s0|n|x]; [| exfalso; eapply Hv; reflexivity |];
      eexists; (split; [|reflexivity]); reflexivity.
  - intros K. rewrite K. reflexivity.
Qed.


(** *** What no run does *)

Lemma tidy_within (P : @event F obj -> Prop) {A} (m : @M F obj A) :
  tidy P m -> within P m.
Proof. intros Hm tr. destruct (Hm tr) as (evs & Ht & HP & _). eauto. Qed.

Lemma within_ret (P : @event F obj -> Prop) {A} (x : A) : within P (@ret F obj A x).
Proof. intros tr. exists []. simpl. rewrite app_nil_r. auto. Qed.

Lemma within_bind (P : @event F obj -> Prop) {A B} (m : @M F obj A) (f : A -> @M F obj B) :
  within P m -> (forall x, within P (f x)) -> within P (bind m f).
Proof.
  intros Hm Hf tr. destruct (Hm tr) as (evs & Ht & HP). unfold bind.
  destruct (m tr) as [[x|e] tr1]; simpl in *; [|eauto].
  destruct (Hf x tr1) as (evs' & Ht' & HP'). subst tr1.
  exists (evs ++ evs'). rewrite Ht', <- app_assoc. split; [reflexivity|].
  apply Forall_app; auto.
Qed.

Lemma within_try_except (P : @event F obj -> Prop) {A} (m : @M F obj A)
    (h : exn -> @M F obj A) :
  within P m -> (forall e, within P (h e)) -> within P (try_except m h).
Proof.
  intros Hm Hh tr. destruct (Hm tr) as (evs & Ht & HP). unfold try_except.
  destruct (m tr) as [[x|e] tr1]; simpl in *; [eauto|].
  destruct (is_Exception e); simpl; [|eauto].
  destruct (Hh e tr1) as (evs' & Ht' & HP'). subst tr1.
  exists (evs ++ evs'). rewrite Ht', <- app_assoc. split; [reflexivity|].
  apply Forall_app; auto.
Qed.

Lemma tidy_bind_ret (P : @event F obj -> Prop) {A B} (Q : A -> Prop)
    (m : @M F obj A) (f : A -> @M F obj B) :
  tidy P m -> (forall tr x tr', m tr = (Ret x, tr') -> Q x) ->
  (forall x, Q x -> tidy P (f x)) -> tidy P (bind m f).
Proof.
  intros Hm HQ Hf tr. destruct (Hm tr) as (evs & Ht & HP & Hs). unfold bind.
  destruct (m tr) as [[x|e] tr1] eqn:E; simpl in *.
  - destruct (Hf x (HQ _ _ _ E) tr1) as (evs' & Ht' & HP' & Hs'). subst tr1.
    exists (evs ++ evs'). rewrite Ht', <- app_assoc. repeat split.
    + apply Forall_app; auto.
    + apply settled_app; assumption.
  - exists evs. auto.
Qed.

Lemma tidy_bind_missing (P : @event F obj -> Prop) {B} (cfg : gmap string pyval) k
    (f : pyval -> @M F obj B) :
  cfg !! k = None -> P (Raised (KeyError k)) -> tidy P (bind (getitem cfg k) f).
Proof.
  intros K HP tr. exists [Raised (KeyError k)].
  unfold bind, getitem. rewrite K. simpl. repeat split; auto.
  exists [], (Raised (KeyError k)). auto.
Qed.

(** Events that satisfy [P] by what they are, whatever was answered. *)
Ltac tidy_by solve_ev :=
  repeat first
    [ apply tidy_ret
    | apply tidy_bind_missing; [eassumption | solve_ev]
    | apply tidy_bind; [|intros]
    | apply tidy_ext; intros; solve_ev
    | apply tidy_getitem; intros; solve_ev
    | apply tidy_truediv; intros; solve_ev
    | apply tidy_range; intros; solve_ev
    | apply tidy_min_cpu_count; intros; solve_ev
    | apply tidy_for_each; intros
    | apply tidy_if
    | progress cbv zeta ].

Lemma within_train (P : @event F obj -> Prop) cfg :
  tidy P (preamble oracle cfg) ->
  (forall lg, within P (create_datasets oracle cfg lg)) ->
  (forall lg cuda tds vds, tidy P (train_rest oracle cfg lg cuda tds vds)) ->
  within P (train oracle cfg).
Proof.
  intros Hp Hd Hr. unfold train.
  apply within_bind; [apply tidy_within, Hp|]. intros lc.
  apply within_bind; [apply Hd|]. intros [[tds vds]|];
    [apply tidy_within, Hr | apply within_ret].
Qed.

(** X11. No run of [train], complete or not, creates a directory or
    seeds a random number generator: only the script body does. A
    caller of [train] has to see to the log and checkpoint directories
    and to the seeds itself. *)
Theorem train_leaves_directories_and_seeds_to_its_caller cfg tr :
  exists evs, (train oracle cfg tr).2 = tr ++ evs
    /\ Forall (fun ev => prepares ev = false) evs.
Proof.
  apply (within_train (fun ev => prepares ev = false)).
  - unfold preamble. tidy_by ltac:(idtac; reflexivity).
  - intros lg. unfold create_datasets.
    apply within_try_except; [|intros e]; apply tidy_within; tidy_by ltac:(idtac; reflexivity).
  - intros lg cuda tds vds.
    unfold train_rest, create_dataloaders, fit, initialize, epoch_loop, run_epochs,
      train_epoch, train_batch, val_batch, accuracy.
    tidy_by ltac:(idtac; reflexivity).
Qed.


Lemma saved_train_events L h tds vds u :
  omap saved (train_events L h tds vds u)
  = omap saved (loop_events L (of_Q 0) (epoch_range (config L)) (u_epochs u)).
Proof.
  unfold train_events, train_rest_events, preamble_events, greeting_events,
    datasets_events, create_dataloaders_events, initialize_events.
  rewrite !omap_app.
  destruct (cuda_available L), (String.eqb (u_os u) "nt"); reflexivity.
Qed.

Lemma validated_train_events L h tds vds u :
  omap validated (train_events L h tds vds u)
  = omap validated (loop_events L (of_Q 0) (epoch_range (config L)) (u_epochs u)).
Proof.
  unfold train_events, train_rest_events, preamble_events, greeting_events,
    datasets_events, create_dataloaders_events, initialize_events.
  rewrite !omap_app.
  destruct (cuda_available L), (String.eqb (u_os u) "nt"); reflexivity.
Qed.

Lemma tidy_train_rest_unsaved cfg lg cuda tds vds :
  cfg !! "checkpoint_dir" = None ->
  tidy (fun ev => saved ev = None) (train_rest oracle cfg lg cuda tds vds).
Proof.
  intros K. unfold train_rest.
  apply tidy_bind; [unfold create_dataloaders; tidy_by ltac:(idtac; reflexivity)|].
  intros ls. unfold fit.
  apply tidy_bind_ret with (Q := fun L => config L = cfg).
  - unfold initialize. tidy_by ltac:(idtac; reflexivity).
  - intros tr0 L tr1 R. apply initialize_Ret in R as (_ & _ & HL & _). exact HL.
  - intros L HL. rewrite <- HL in K.
    unfold epoch_loop, run_epochs, train_epoch, train_batch, val_batch, accuracy.
    tidy_by ltac:(idtac; reflexivity).
Qed.

(** X12. With a configuration that has no [checkpoint_dir], no run of
    [train] calls [save_checkpoint], however far it gets; and a run
    completes only if no epoch's validation accuracy is greater than
    0.0: the key is looked up only when a checkpoint is about to be
    written, so its absence goes unnoticed as long as no epoch
    improves. *)
Theorem no_checkpoint_without_checkpoint_dir cfg tr :
  cfg !! "checkpoint_dir" = None ->
  exists evs, (train oracle cfg tr).2 = tr ++ evs
    /\ omap saved evs = []
    /\ ((train oracle cfg tr).1 = Ret tt ->
        Forall (fun v => fgt v (of_Q 0) = false) (omap validated evs)).
Proof.
  intros K.
  destruct (within_train (fun ev => saved ev = None) cfg) with (tr := tr)
    as (evs & Ht & HP).
  - unfold preamble. tidy_by ltac:(idtac; reflexivity).
  - intros lg. unfold create_datasets.
    apply within_try_except; [|intros e]; apply tidy_within;
      tidy_by ltac:(idtac; reflexivity).
  - intros lg cuda tds vds. apply tidy_train_rest_unsaved, K.
  - apply omap_Forall_None in HP.
    exists evs. split; [exact Ht|]. split; [exact HP|].
    destruct (train oracle cfg tr) as [o tr'] eqn:R. simpl in *. intros ->.
    apply train_Ret in R
      as [(L & h & tds & vds & u & -> & HL & Hlen & _ & n & Hn)
         | (lg & cuda & h & failed & e & -> & Hf & _)];
      apply app_inv_head in Ht; subst evs.
    + rewrite saved_train_events in HP. rewrite validated_train_events.
      rewrite HL in *. rewrite validated_loop by assumption.
      unfold epoch_range, cfg_value in *. rewrite Hn in *. simpl in *.
      rewrite length_seq in Hlen. rewrite saved_loop in HP by assumption.
      apply (checkpoints_chain (map (epoch_val_acc L) (u_epochs u)) (of_Q 0) 0), HP.
    + unfold aborted_events, preamble_events, greeting_events.
      rewrite !omap_app, (omap_try_failed validated cfg failed e); auto.
      * destruct cuda; constructor.
      * intros T c r. destruct c; simpl; congruence.
Qed.


(** *** The script body *)

(** X13. A completed run of the script prepares in this order: it
    creates the log directory, then the checkpoint directory, seeds
    torch with 42, asks whether CUDA is available and, if so, seeds all
    CUDA generators with 42; only then does [train] create its logger,
    on the log directory, and ask again whether CUDA is available - the
    answer it goes by. Nothing else creates a directory or seeds. *)
Theorem script_seeds_before_it_trains tr tr' :
  main oracle tr = (Ret tt, tr') ->
  exists evs c1 c2, tr' = tr ++ evs
    /\ omap setup_of evs
       = [ MakeDir (VStr "../logs") true; MakeDir (VStr "../checkpoints") true;
           SeedTorch 42; AskCuda c1 ]
         ++ (if c1 then [SeedCuda 42] else [])
         ++ [ OpenLog (VStr "../logs"); AskCuda c2 ].
Proof.
  intros R. apply main_Ret in R as (c1 & tr1 & -> & R).
  apply train_Ret in R
    as [(L & h & tds & vds & u & -> & HL & _)
       | (lg & c2 & h & failed & e & -> & Hf & _)].
  - exists (main_head_events c1 ++ train_events L h tds vds u), c1, (cuda_available L).
    split; [rewrite <- app_assoc; reflexivity|].
    assert (Hlog : cfg_value (config L) "log_dir" = VStr "../logs")
      by (rewrite HL; reflexivity).
    unfold main_head_events, seed_events, train_events, train_rest_events,
      preamble_events, greeting_events, datasets_events, create_dataloaders_events,
      initialize_events.
    rewrite !omap_app, Hlog, (omap_phase_nil_loop setup_of)
      by (intros; view_epoch; destruct (fgt _ _); reflexivity).
    destruct c1, (cuda_available L), (String.eqb (u_os u) "nt"); reflexivity.
  - exists (main_head_events c1 ++ aborted_events main_config lg c2 h failed e), c1, c2.
    split; [rewrite <- app_assoc; reflexivity|].
    unfold main_head_events, seed_events, aborted_events, preamble_events, greeting_events.
    rewrite !omap_app, (omap_try_failed setup_of main_config failed e); auto.
    + destruct c1, c2; reflexivity.
    + intros T c r. destruct c; simpl; congruence.
Qed.

(** *** Devices and objects *)

Lemma initialize_dev cfg lg cuda0 tds vds tl vl tr L tr' :
  initialize oracle cfg lg cuda0 tds vds tl vl tr = (Ret L, tr') ->
  dev L = (if cuda0 then cuda else cpu).
Proof. unfold initialize. intros R. run_inv R. reflexivity. Qed.

(** A completed [train], with what its locals are. *)
Lemma train_Ret_locals cfg tr tr' :
  train oracle cfg tr = (Ret tt, tr') ->
  (exists L h tds vds u,
      tr' = tr ++ train_events L h tds vds u
      /\ config L = cfg
      /\ dev L = (if cuda_available L then cuda else cpu)
      /\ is_Some (cfg !! "data_dir")
      /\ is_Some (cfg !! "learning_rate") /\ is_Some (cfg !! "weight_decay")
      /\ length (u_epochs u) = length (epoch_range cfg)
      /\ Forall (epoch_resp_ok L) (u_epochs u))
  \/ (exists lg cuda0 h failed e,
        tr' = tr ++ aborted_events cfg lg cuda0 h failed e
        /\ try_failed cfg failed e /\ is_Exception e = true).
Proof.
  unfold train. intros R. apply bind_Ret in R as (lc & tr1 & R1 & R).
  apply preamble_Ret in R1 as (name & mem & ->).
  apply bind_run in R as [(ds & tr2 & R2 & R) | (e & _ & [=])].
  assert (Kd : forall d, ds = Some d -> is_Some (cfg !! "data_dir"))
    by (intros d ->; eapply create_datasets_key; eassumption).
  apply create_datasets_run in R2
    as [(p1 & tds & p2 & vds & [= ->] & ->)
       | [(evs & e & r & Hf & Ex & -> & Hr) | (evs & e & _ & _ & _ & [=])]].
  - left. specialize (Kd _ eq_refl).
    unfold train_rest in R. apply bind_Ret in R as (ls & tr3 & R3 & R).
    apply create_dataloaders_Ret in R3 as (os & cpus & ->).
    unfold fit in R. apply bind_Ret in R as (L & tr4 & R4 & R).
    pose proof (initialize_keys _ _ _ _ _ _ _ _ _ _ R4) as [Klr Kwd].
    pose proof (initialize_dev _ _ _ _ _ _ _ _ _ _ R4) as Hdev.
    apply initialize_Ret in R4 as (ri & -> & HL & Hlg & Hcuda & Htl & Hvl).
    apply bind_Ret in R as (best & tr5 & R5 & R). apply ret_Ret in R as [_ ->].
    apply epoch_loop_Ret in R5 as (rs & Hlen & Hok & -> & _).
    exists L, {| h_name := name; h_mem := mem; h_train_path := p1; h_val_path := p2 |},
      tds, vds, {| u_os := os; u_cpus := cpus; u_init := ri; u_epochs := rs |}.
    unfold train_events, train_rest_events.
    cbn [h_name h_mem h_train_path h_val_path u_os u_cpus u_init u_epochs].
    rewrite HL, Hlg, Hcuda, Htl, Hvl, <- !app_assoc. rewrite HL in Hlen.
    auto 10.
  - right. destruct r as [[]|e']; [|discriminate]. simpl in Hr. injection Hr as ->.
    apply ret_Ret in R as [_ ->].
    exists lc.1, lc.2,
      {| h_name := name; h_mem := mem; h_train_path := EmptyString;
         h_val_path := EmptyString |}, evs, e.
    unfold aborted_events. cbn [h_name h_mem]. rewrite <- !app_assoc. auto.
Qed.

Lemma moves_epoch L best epoch r :
  length (e_train r) = length (train_loader L) ->
  length (e_val r) = length (val_loader L) ->
  omap move_of (epoch_events L best epoch r)
  = epoch_moves (dev L) (length (train_loader L)) (length (val_loader L)).
Proof.
  intros H1 H2. unfold epoch_events, report_events, checkpoint_events, epoch_moves.
  rewrite !omap_app.
  rewrite (omap_phase_const move_of (train_batch_events L (e_pbar r))
             [MoveInputs (dev L); MoveLabels (dev L)]) by (batches_silent || auto).
  rewrite (omap_phase_const move_of (val_batch_events L)
             [MoveInputs (dev L); MoveLabels (dev L)]) by ((intros; reflexivity) || auto).
  simpl. destruct (fgt _ _); simpl; rewrite app_nil_r; reflexivity.
Qed.

Lemma moves_loop L es : forall best rs,
  length rs = length es -> Forall (epoch_resp_ok L) rs ->
  omap move_of (loop_events L best es rs)
  = concat (repeat (epoch_moves (dev L) (length (train_loader L)) (length (val_loader L)))
              (length es)).
Proof.
  induction es as [|e es IH]; intros best [|r rs] Hlen Hok; simpl in Hlen;
    try discriminate; auto.
  apply Forall_cons in Hok as [(H1 & H2 & _) Hok].
  cbn [loop_events length repeat concat].
  rewrite omap_app, moves_epoch, IH by (assumption || lia). reflexivity.
Qed.



Lemma Forall_phase (P : @event F obj -> Prop) one (bs : list (@batch obj)) :
  (forall a b r, Forall P (one a b r)) ->
  forall a (rs : list (@batch_resp F obj)), Forall P (phase_events one a bs rs).
Proof.
  intros Hone. induction bs as [|b bs IH]; intros a [|r rs]; cbn [phase_events].
  1-3: constructor.
  apply Forall_app. auto.
Qed.

Lemma uses_epoch L best epoch r : Forall (uses L) (epoch_events L best epoch r).
Proof.
  unfold epoch_events, report_events, checkpoint_events.
  repeat apply Forall_app_2; try apply Forall_phase; intros;
    unfold train_batch_events, val_batch_events;
    try destruct (cuda_available L); try destruct (fgt _ _);
    repeat constructor.
Qed.

Lemma uses_loop L es : forall best rs, Forall (uses L) (loop_events L best es rs).
Proof.
  induction es as [|e es IH]; intros best [|r rs]; cbn [loop_events].
  1-3: constructor.
  apply Forall_app. split; [apply uses_epoch | apply IH].
Qed.

(** X15. A completed run of [train] that built both datasets works
    throughout on the objects it created at its start. It creates one
    logger, one model on the device, one scaler, one criterion, and one
    optimizer - Adam over the parameters of the model as moved to the
    device, with the configured learning rate and weight decay - and
    one scheduler on that optimizer. Every later call uses these: it
    is this model that is put in training or evaluation mode, called
    and saved; this optimizer that is zeroed, stepped (directly or
    through this scaler), read for its learning rate and saved; this
    scheduler that is stepped; this logger that logs; and the progress
    bar runs over the training loader. *)
Theorem training_uses_the_objects_it_created cfg tr tr' :
  train oracle cfg tr = (Ret tt, tr') ->
  exists evs, tr' = tr ++ evs
    /\ (length (omap dataset_built evs) = 2 ->
        exists L params lr wd,
          omap construction_of evs
          = [ NewLogger (logger L); MovedModel (model L); NewScaler (scaler L);
              NewCriterion (criterion L); ParametersOf (model L) params;
              NewOptimizer params lr wd (optimizer L);
              NewScheduler (optimizer L) (scheduler L) ]
          /\ cfg !! "learning_rate" = Some lr /\ cfg !! "weight_decay" = Some wd
          /\ Forall (uses L) evs).
Proof.
  intros R. apply train_Ret_locals in R
    as [(L & h & tds & vds & u & -> & HL & _ & _ & Klr & Kwd & _ & _)
       | (lg & c & h & failed & e & -> & Hf & _)].
  - exists (train_events L h tds vds u). split; [reflexivity|]. intros _.
    exists L, (i_params (u_init u)), (cfg_value cfg "learning_rate"),
      (cfg_value cfg "weight_decay").
    split; [|split; [apply cfg_value_Some, Klr|split; [apply cfg_value_Some, Kwd|]]].
    + unfold train_events, train_rest_events, preamble_events, greeting_events,
        datasets_events, create_dataloaders_events, initialize_events.
      rewrite !omap_app, HL, (omap_phase_nil_loop construction_of)
        by (intros; view_epoch; destruct (fgt _ _); reflexivity).
      destruct (cuda_available L), (String.eqb (u_os u) "nt"); reflexivity.
    + unfold train_events, train_rest_events, preamble_events, greeting_events,
        datasets_events, create_dataloaders_events, initialize_events.
      repeat apply Forall_app_2; try apply uses_loop;
        try destruct (cuda_available L); try destruct (String.eqb _ _);
        repeat constructor.
  - exists (aborted_events cfg lg c h failed e). split; [reflexivity|].
    destruct (failure_try_failed _ _ _ Hf) as (_ & _ & Fb & _).
    destruct (quiet_preamble_events cfg lg c (h_name h) (h_mem h)) as (_ & _ & Qb & _).
    unfold aborted_events. rewrite !omap_app, Qb, !length_app. simpl. lia.
Qed.


(** *** The datasets and what is told about them *)

(** X16. A completed run of [train] that built both datasets built the
    training dataset, in mode ['train'], from the path that
    [os.path.join] gave for [config['data_dir']] and ['train'], and
    then the validation dataset, in mode ['val'], from the path for
    ['val']. What it then logs about them is what they answered: the
    number of classes of the training dataset, its number of samples,
    and the number of samples of the validation dataset. The model is
    built for the number of classes the training dataset answers when
    asked a second time. *)
Theorem datasets_and_their_statistics cfg tr tr' :
  train oracle cfg tr = (Ret tt, tr') ->
  exists evs, tr' = tr ++ evs
    /\ (length (omap dataset_built evs) = 2 ->
        exists d p1 tds p2 vds k n m k',
          cfg !! "data_dir" = Some d
          /\ omap data_of evs
             = [ JoinPath d "train" p1; BuildDataset p1 "train" tds;
                 JoinPath d "val" p2; BuildDataset p2 "val" vds;
                 CountClasses tds k; LogClasses k;
                 CountSamples tds n; LogTrainingSamples n;
                 CountSamples vds m; LogValidationSamples m;
                 CountClasses tds k'; BuildModel k' ]).
Proof.
  intros R. apply train_Ret_locals in R
    as [(L & h & tds & vds & u & -> & HL & _ & Kd & _ & _ & _ & _)
       | (lg & c & h & failed & e & -> & Hf & _)].
  - exists (train_events L h tds vds u). split; [reflexivity|]. intros _.
    exists (cfg_value cfg "data_dir"), (h_train_path h), tds, (h_val_path h), vds,
      (i_classes (u_init u)), (i_train_len (u_init u)), (i_val_len (u_init u)),
      (i_num_classes (u_init u)).
    split; [apply cfg_value_Some, Kd|].
    unfold train_events, train_rest_events, preamble_events, greeting_events,
      datasets_events, create_dataloaders_events, initialize_events.
    rewrite !omap_app, HL, (omap_phase_nil_loop data_of)
      by (intros; view_epoch; destruct (fgt _ _); reflexivity).
    destruct (cuda_available L), (String.eqb (u_os u) "nt"); reflexivity.
  - exists (aborted_events cfg lg c h failed e). split; [reflexivity|].
    destruct (failure_try_failed _ _ _ Hf) as (_ & _ & Fb & _).
    destruct (quiet_preamble_events cfg lg c (h_name h) (h_mem h)) as (_ & _ & Qb & _).
    unfold aborted_events. rewrite !omap_app, Qb, !length_app. simpl. lia.
Qed.

(** *** The learning rates shown *)

Lemma omap_phase_concat {V} (f : @event F obj -> option V) one
    (g : batch -> batch_resp -> list V) bs :
  (forall a b r, omap f (one a b r) = g b r) ->
  forall a rs, length rs = length bs ->
  omap f (phase_events one a bs rs) = concat (zip_with g bs rs).
Proof.
  intros Hone. induction bs as [|b bs IH]; intros a [|r rs] Hlen; simpl in Hlen;
    try discriminate; auto.
  cbn [phase_events zip_with concat]. rewrite omap_app, Hone, IH by lia. reflexivity.
Qed.

Lemma zip_with_right {A B C} (g : B -> C) (l : list A) : forall k : list B,
  length k = length l -> zip_with (fun _ y => g y) l k = map g k.
Proof.
  induction l as [|x l IH]; intros [|y k] Hl; simpl in *; try discriminate; auto.
  rewrite IH by lia. reflexivity.
Qed.

(** X17. The learning rates a completed epoch shows are fresh. After
    each training batch, the rate on the progress bar is the one read
    from the optimizer after that batch's optimizer step (taken
    directly or through the scaler); and the rate the epoch logs is the
    one read from the optimizer after the scheduler's step, so that it
    reflects a reduction the scheduler just made. The rate is read at
    no other point. *)
Theorem learning_rates_shown_are_fresh L best epoch tr best' tr' :
  train_epoch oracle L best epoch tr = (Ret best', tr') ->
  exists evs (shown : list F) (logged : F), tr' = tr ++ evs
    /\ length shown = length (train_loader L)
    /\ omap rate_of evs
       = concat (map (fun lr => [StepTaken; ReadRate lr; ShowRate lr]) shown)
         ++ [ScheduleStep; ReadRate logged; LogRate logged].
Proof.
  intros R. apply train_epoch_Ret in R as (r & H1 & H2 & -> & _).
  exists (epoch_events L best epoch r), (map r_lr (e_train r)), (e_lr r).
  split; [reflexivity|]. split; [rewrite length_map; exact H1|].
  unfold epoch_events, report_events, checkpoint_events. rewrite !omap_app.
  rewrite (omap_phase_concat rate_of (train_batch_events L (e_pbar r))
             (fun _ r0 => [StepTaken; ReadRate (r_lr r0); ShowRate (r_lr r0)]))
    by (batches_silent || auto).
  rewrite (omap_phase_nil rate_of (val_batch_events L)) by batches_silent.
  rewrite (zip_with_right (fun r0 => [StepTaken; ReadRate (r_lr r0); ShowRate (r_lr r0)]))
    by assumption.
  rewrite map_map. simpl. destruct (fgt _ _); simpl; rewrite ?app_nil_r; reflexivity.
Qed.


(** *** What a run tells about its device *)

(** X18. A completed run of [train] asks once whether CUDA is
    available. If it is, the run asks for the name of device 0 and logs
    it, then asks for the total memory of device 0 and logs it divided
    by 1024**3; if it is not, the run logs that it trains on the CPU and
    asks nothing about any device. *)
Theorem device_is_described_only_when_available cfg tr tr' :
  train oracle cfg tr = (Ret tt, tr') ->
  exists evs, tr' = tr ++ evs
    /\ (omap device_of evs = [AskedCuda false; ToldDevice MsgNoCuda]
        \/ exists name bytes,
             omap device_of evs
             = [ AskedCuda true;
                 DeviceName 0 name; ToldDevice (MsgUsingGPU name);
                 DeviceMemory 0 bytes;
                 ToldDevice (MsgGPUMemory (of_Q (Qmake bytes (1024 ^ 3)%positive))) ]).
Proof.
  intros R. apply train_Ret in R
    as [(L & h & tds & vds & u & -> & _)
       | (lg & c & h & failed & e & -> & Hf & _)].
  - exists (train_events L h tds vds u). split; [reflexivity|].
    unfold train_events, train_rest_events, preamble_events, greeting_events,
      datasets_events, create_dataloaders_events, initialize_events.
    rewrite !omap_app, (omap_phase_nil_loop device_of)
      by (intros; view_epoch; destruct (fgt _ _); reflexivity).
    destruct (cuda_available L); [right; exists (h_name h), (h_mem h) | left];
      destruct (String.eqb (u_os u) "nt"); reflexivity.
  - exists (aborted_events cfg lg c h failed e). split; [reflexivity|].
    unfold aborted_events, preamble_events, greeting_events.
    rewrite !omap_app, (omap_try_failed device_of cfg failed e); auto;
      try (intros T c0 r; destruct c0; simpl; congruence).
    destruct c; [right; exists (h_name h), (h_mem h) | left]; reflexivity.
Qed.


(** *** Runs in which nothing fails, and runs that caught a failure *)

Lemma failure_loop L es : forall best rs, omap failure (loop_events L best es rs) = [].
Proof.
  apply omap_phase_nil_loop. intros. view_epoch. destruct (fgt _ _); reflexivity.
Qed.

Lemma failure_train_events L h tds vds u : omap failure (train_events L h tds vds u) = [].
Proof.
  unfold train_events, train_rest_events, preamble_events, greeting_events,
    datasets_events, create_dataloaders_events, initialize_events.
  rewrite !omap_app, failure_loop.
  destruct (cuda_available L), (String.eqb (u_os u) "nt"); reflexivity.
Qed.

Lemma failure_aborted_events cfg lg c h failed e :
  try_failed cfg failed e ->
  omap failure (@aborted_events F _ obj cfg lg c h failed e) = [e].
Proof.
  intros Hf. destruct (failure_try_failed _ _ _ Hf) as (Ff & _).
  unfold aborted_events, preamble_events, greeting_events.
  rewrite !omap_app, Ff. destruct c; reflexivity.
Qed.

Lemma built_train_events L h tds vds u :
  omap dataset_built (train_events L h tds vds u) = [tds; vds]
  /\ omap loader_made (train_events L h tds vds u)
     = [(tds, true, train_loader L); (vds, false, val_loader L)].
Proof.
  unfold train_events, train_rest_events, preamble_events, greeting_events,
    datasets_events, create_dataloaders_events, initialize_events.
  rewrite !omap_app, !omap_phase_nil_loop
    by (intros; view_epoch; destruct (fgt _ _); reflexivity).
  split; destruct (cuda_available L), (String.eqb (u_os u) "nt"); reflexivity.
Qed.

(** A completed [train], by whether anything failed. *)
Lemma train_Ret_by_failure cfg tr tr' :
  train oracle cfg tr = (Ret tt, tr') ->
  exists evs, tr' = tr ++ evs /\
  ((omap failure evs = []
    /\ exists L h tds vds u,
         evs = train_events L h tds vds u
         /\ config L = cfg
         /\ dev L = (if cuda_available L then cuda else cpu)
         /\ length (u_epochs u) = length (epoch_range cfg)
         /\ Forall (epoch_resp_ok L) (u_epochs u))
   \/ (omap failure evs <> []
       /\ exists lg c h failed e,
            evs = aborted_events cfg lg c h failed e /\ try_failed cfg failed e)).
Proof.
  intros R. apply train_Ret_locals in R
    as [(L & h & tds & vds & u & -> & HL & Hdev & _ & _ & _ & Hlen & Hok)
       | (lg & c & h & failed & e & -> & Hf & _)];
    eexists; (split; [reflexivity|]).
  - left. split; [apply failure_train_events | eauto 10].
  - right. split; [rewrite failure_aborted_events by assumption; discriminate | eauto 10].
Qed.


Lemma omap_skip2 {V} (f : @event F obj -> option V) ev1 ev2 l :
  f ev1 = None -> f ev2 = None -> omap f (ev1 :: ev2 :: l) = omap f l.
Proof. intros E1 E2. simpl. rewrite E1, E2. reflexivity. Qed.

(** C7. The script's configuration has exactly the keys [data_dir],
    [log_dir], [checkpoint_dir], [batch_size], [learning_rate],
    [weight_decay] and [num_epochs]. A completed run of the script first
    creates the log directory and the checkpoint directory, both with
    [exist_ok=True], and creates no other directory. If nothing failed
    in it, the run built both datasets and ran the epochs 1 to 50, the
    configured number, each once and in order, validating in each. (A
    completed run in which something failed caught the failure of a
    dataset's construction: it ran no epoch and called nothing that the
    training needs.) *)
Theorem main_creates_directories_and_runs_configured_epochs tr evs :
  main oracle tr = (Ret tt, tr ++ evs) ->
  dom (@main_config F _) = {[ "data_dir"; "log_dir"; "checkpoint_dir"; "batch_size";
                               "learning_rate"; "weight_decay"; "num_epochs" ]}
  /\ @main_config F _ !! "num_epochs" = Some (VInt 50)
  /\ take 2 evs = [ Called (os_makedirs (VStr "../logs") true) (Ret tt);
                    Called (os_makedirs (VStr "../checkpoints") true) (Ret tt) ]
  /\ omap made_dir (drop 2 evs) = []
  /\ (omap failure evs = [] ->
        length (omap dataset_built evs) = 2
        /\ omap epoch_line evs = map (fun e => (e + 1, VInt 50)) (seq 0 50)
        /\ length (omap validated evs) = 50)
  /\ (omap failure evs <> [] ->
        omap epoch_line evs = []
        /\ Forall (fun ev => uses_datasets ev = false) evs).
Proof.
  intros R. split; [|split; [reflexivity|]].
  { unfold main_config. rewrite !dom_insert_L, dom_empty_L. set_solver. }
  apply main_Ret in R as (c0 & tr1 & -> & R).
  apply train_Ret_by_failure in R as (evs' & Hev & R).
  rewrite <- app_assoc in Hev. apply app_inv_head in Hev. subst evs.
  assert (Hhead : omap failure (main_head_events c0 ++ evs') = omap (@failure F obj) evs').
  { rewrite omap_app. unfold main_head_events, seed_events. destruct c0; reflexivity. }
  rewrite Hhead.
  split; [reflexivity|].
  destruct R as [(Hq & L & h & tds & vds & u & -> & HL & _ & Hlen & Hok)
                | (Hq & lg & c & h & failed & e & -> & Hf)];
    unfold main_head_events; cbn [app drop]; rewrite drop_0;
    rewrite ?omap_skip2 by reflexivity.
  - assert (Hr : epoch_range (config L) = seq 0 50) by (rewrite HL; reflexivity).
    assert (Hn : cfg_value (config L) "num_epochs" = VInt 50) by (rewrite HL; reflexivity).
    rewrite <- HL in Hlen. rewrite Hr in Hlen.
    destruct (built_train_events L h tds vds u) as [Hb _].
    split; [|split; [intros _; split; [|split] | intros Hq'; contradiction]].
    + unfold seed_events, train_events, train_rest_events, preamble_events,
        greeting_events, datasets_events, create_dataloaders_events, initialize_events.
      rewrite !omap_app, (omap_phase_nil_loop made_dir)
        by (intros; view_epoch; destruct (fgt _ _); reflexivity).
      destruct c0, (cuda_available L), (String.eqb (u_os u) "nt"); reflexivity.
    + unfold seed_events. rewrite !omap_app, Hb. destruct c0; reflexivity.
    + unfold seed_events, train_events, train_rest_events, preamble_events,
        greeting_events, datasets_events, create_dataloaders_events, initialize_events.
      rewrite Hr, !omap_app, epoch_lines_loop, Hn by assumption.
      destruct c0, (cuda_available L), (String.eqb (u_os u) "nt"); reflexivity.
    + unfold seed_events, train_events, train_rest_events, preamble_events,
        greeting_events, datasets_events, create_dataloaders_events, initialize_events.
      rewrite Hr, !omap_app, validated_loop, !length_app, length_map, Hlen by assumption.
      destruct c0, (cuda_available L), (String.eqb (u_os u) "nt"); reflexivity.
  - split; [|split; [intros Hq'; contradiction | intros _; split]];
      unfold seed_events, aborted_events, preamble_events, greeting_events.
    + rewrite !omap_app, (omap_try_failed made_dir main_config failed e); auto.
      * destruct c0, c; reflexivity.
      * intros T c1 r. destruct c1; simpl; congruence.
    + rewrite !omap_app, (omap_try_failed epoch_line main_config failed e); auto.
      * destruct c0, c; reflexivity.
      * intros T c1 r. destruct c1; simpl; congruence.
    + pose proof (uses_datasets_try_failed _ _ _ Hf).
      do 2 (constructor; [reflexivity|]). rewrite !Forall_app.
      destruct c0, c; repeat split; auto; repeat constructor.
Qed.


(** X14. In a completed run of [train] in which nothing failed, with
    [c] the answer of [torch.cuda.is_available()], the device ["cuda"]
    when [c] holds and ["cpu"] otherwise, and the training and the
    validation loader those the two datasets gave: the model is moved
    to the device once, before any batch; in each of the
    [range(config['num_epochs'])] epochs, every batch of the training
    loader and then every batch of the validation loader has its inputs
    and then its labels moved to that same device; and nothing else is
    moved. (A completed run in which something failed caught the failure
    of a dataset's construction: it moved nothing.) *)
Theorem tensors_follow_the_model_to_the_device cfg tr evs :
  train oracle cfg tr = (Ret tt, tr ++ evs) ->
  (omap failure evs = [] ->
     exists (c : bool) tds vds tl vl,
       omap cuda_answer evs = [c]
       /\ omap loader_made evs = [(tds, true, tl); (vds, false, vl)]
       /\ omap move_of evs
          = MoveModel (if c then cuda else cpu)
            :: concat (repeat (epoch_moves (if c then cuda else cpu) (length tl) (length vl))
                         (length (epoch_range cfg))))
  /\ (omap failure evs <> [] -> omap move_of evs = []).
Proof.
  intros R. apply train_Ret_by_failure in R as (evs' & Hev & R).
  apply app_inv_head in Hev. subst evs'.
  destruct R as [(Hq & L & h & tds & vds & u & -> & HL & Hdev & Hlen & Hok)
                | (Hq & lg & c & h & failed & e & -> & Hf)];
    (split; [intros Hq'|intros Hq']; try contradiction).
  - destruct (built_train_events L h tds vds u) as [_ Hl].
    exists (cuda_available L), tds, vds, (train_loader L), (val_loader L).
    split; [|split; [exact Hl|]]; rewrite <- HL in *; rewrite <- ?Hdev;
      unfold train_events, train_rest_events, preamble_events, greeting_events,
        datasets_events, create_dataloaders_events, initialize_events;
      rewrite !omap_app, ?moves_loop by assumption;
      rewrite ?(omap_phase_nil_loop cuda_answer)
        by (intros; view_epoch; destruct (fgt _ _); reflexivity);
      destruct (cuda_available L), (String.eqb (u_os u) "nt"); reflexivity.
  - unfold aborted_events, preamble_events, greeting_events.
    rewrite !omap_app, (omap_try_failed move_of cfg failed e); auto.
    + destruct c; reflexivity.
    + intros T c0 r. destruct c0; simpl; congruence.
Qed.


End Proofs.

(** ** Concrete runs *)

Module Runs.
Import Demo.

Abbreviation events := (list (@event Q object)).

(** Three epochs on the CPU, the first two of them, the epoch after
    those, and the first epoch alone. *)
Abbreviation loop3 := (epoch_loop (oracle cpu_linux) L3 []).
Abbreviation epoch1 := (train_epoch (oracle cpu_linux) L3 0%Q 0 []).

(** Three epochs with a plateau, the first of them, and the second. *)
Abbreviation plateau3 := (epoch_loop (oracle plateau) P3 []).
Abbreviation first1 := (run_epochs (oracle plateau) P3 (seq 0 1) []).
Abbreviation second := (train_epoch (oracle plateau) P3 50%Q 1 first1.2).

(** Two epochs with CUDA on Windows: all of [train], and lines 59-173. *)
Abbreviation train2 := (train (oracle gpu_windows) (small_config 2) []).
Abbreviation fit2 :=
  (fit (oracle gpu_windows) (small_config 2) [] true [0] [1]
       (s_train gpu_windows) (s_val gpu_windows) []).

(** The script, on the CPU. *)
Abbreviation script := (main (oracle cpu_linux) []).

(** The rationals are ordered, and the demo collaborators oblige. *)

Lemma Q_fgt_lt (x y : Q) : fgt x y = true <-> (y < x)%Q.
Proof.
  simpl. rewrite negb_true_iff, <- not_true_iff_false, Qle_bool_iff.
  split; [apply Qnot_le_lt | apply Qlt_not_le].
Qed.

#[export] Instance Q_order : PyFloatOrder Q.
Proof.
  split.
  - intros x. apply not_true_iff_false. rewrite Q_fgt_lt. apply Qlt_irrefl.
  - intros x y z. rewrite !Q_fgt_lt. intros Hyx Hzy. exact (Qlt_trans _ _ _ Hzy Hyx).
  - intros x y z. rewrite !Q_fgt_lt. intros Hzx.
    destruct (Qlt_le_dec y x) as [Hyx | Hxy]; [left; exact Hyx | right].
    exact (Qlt_le_trans _ _ _ Hzx Hxy).
Qed.

Lemma oracle_obliging (sc : scenario) : obliging (oracle sc).
Proof.
  intros T c tr Hc. destruct c; try discriminate Hc; eexists; reflexivity.
Qed.

(** A training whose validation data are missing: the failure is logged
    and [train] returns; nothing else happens. *)
Example missing_validation_data :
  (train (oracle no_val_data) (small_config 3) []).1 = Ret tt
  /\ omap dataset_failure (train (oracle no_val_data) (small_config 3) []).2
     = [PyExc "FileNotFoundError" "no such directory" true]
  /\ last (train (oracle no_val_data) (small_config 3) []).2
     = Some (Called (Logger_log [] (MsgDatasetError "no such directory")) (Ret tt))
  /\ forallb (fun ev => negb (uses_datasets ev))
       (train (oracle no_val_data) (small_config 3) []).2 = true.
Proof. vm_compute. auto. Qed.

(** The loaders of a training on Windows with CUDA, and on Linux without. *)
Example loaders_on_windows_with_cuda :
  omap loader_step_of train2.2
  = CudaAnswer true
    :: loader_steps (small_config 2) true "nt" 0
  /\ loader_steps (small_config 2) true "nt" 0
     = [ OsName "nt";
         MakeLoader true
           {| batch_size := VInt 64; num_workers := 2; pin_memory := true |};
         MakeLoader false
           {| batch_size := VInt 64; num_workers := 2; pin_memory := true |} ].
Proof. vm_compute. auto. Qed.

Example loaders_on_linux_without_cuda :
  omap loader_step_of (train (oracle cpu_linux) (small_config 1) []).2
  = [ CudaAnswer false; OsName "posix"; CpuCount 8;
      MakeLoader true
        {| batch_size := VInt 64; num_workers := 4; pin_memory := false |};
      MakeLoader false
        {| batch_size := VInt 64; num_workers := 4; pin_memory := false |} ].
Proof. vm_compute. reflexivity. Qed.

(** With a plateau, the second epoch writes no checkpoint. *)
Example plateau_checkpoints :
  omap validated plateau3.2 = [50%Q; 50%Q; 100%Q]
  /\ omap saved plateau3.2 = [(0, 50%Q); (2, 100%Q)].
Proof. vm_compute. auto. Qed.

(** The checkpoints and the report of three epochs on the CPU. *)
Example three_epochs_checkpoints :
  omap validated loop3.2 = [(100 # 3)%Q; (200 # 3)%Q; 100%Q]
  /\ omap saved loop3.2 = [(0, (100 # 3)%Q); (1, (200 # 3)%Q); (2, 100%Q)]
  /\ omap train_report loop3.2 = [(1%Q, 50%Q); ((1 # 2)%Q, 75%Q); (0%Q, 100%Q)].
Proof. vm_compute. auto. Qed.


Lemma checkpoint_when_validation_improves_witness :
  plateau3 = (Ret 100%Q, plateau3.2)
  /\ exists evs : events, plateau3.2 = [] ++ evs /\
       let accs := omap validated evs in
       length accs = length (epoch_range (config P3))
       /\ (forall k v, (k, v) ∈ omap saved evs <->
             accs !! k = Some v /\ fgt v (running_best (of_Q 0) (take k accs)) = true)
       /\ omap saved evs = checkpoints (of_Q 0) 0 accs
       /\ 100%Q = running_best (of_Q 0) accs.
Proof.
  assert (R : plateau3 = (Ret 100%Q, plateau3.2)) by (vm_compute; reflexivity).
  split; [exact R|].
  exact (checkpoint_when_validation_improves (oracle plateau) P3 [] 100%Q plateau3.2 R).
Defined.



Lemma scheduler_stepped_once_per_epoch_witness :
  fit2 = (Ret tt, fit2.2)
  /\ exists (evs : events) s (vs : list (Q * bool)), fit2.2 = [] ++ evs
       /\ length vs = length (epoch_range (small_config 2))
       /\ omap lr_step_of evs
          = CreateScheduler s "max" (of_Q (1 # 10)) 5
            :: concat (map (fun v => epoch_lr_steps s (length (s_val gpu_windows)) v.1 v.2)
                           vs).
Proof.
  assert (R : fit2 = (Ret tt, fit2.2)) by (vm_compute; reflexivity).
  split; [exact R|].
  exact (scheduler_stepped_once_per_epoch (oracle gpu_windows) (small_config 2) [] true
           [0] [1] (s_train gpu_windows) (s_val gpu_windows) [] fit2.2 R).
Defined.



Lemma best_val_acc_is_running_maximum_witness :
  first1 = (Ret 50%Q, first1.2) /\ second = (Ret 50%Q, second.2)
  /\ exists (evs evs' : events) v, first1.2 = [] ++ evs /\ second.2 = first1.2 ++ evs' /\
       let accs := omap validated evs in
       length accs = 1
       /\ 50%Q ∈ of_Q 0 :: accs
       /\ (forall x, x ∈ of_Q 0 :: accs -> fgt x 50%Q = false)
       /\ omap validated evs' = [v]
       /\ 50%Q = (if fgt v 50%Q then v else 50%Q)
       /\ fgt 50%Q 50%Q = false
       /\ (v = 50%Q -> 50%Q = 50%Q /\ omap saved evs' = []).
Proof.
  assert (R1 : first1 = (Ret 50%Q, first1.2)) by (vm_compute; reflexivity).
  assert (R2 : second = (Ret 50%Q, second.2)) by (vm_compute; reflexivity).
  split; [exact R1|]. split; [exact R2|].
  exact (best_val_acc_is_running_maximum (oracle plateau) P3 1 [] 50%Q first1.2
           50%Q second.2 R1 R2).
Defined.

Lemma metrics_defined_iff_samples_witness :
  obliging (oracle cpu_linux)
  /\ is_Some (config L3 !! "num_epochs") /\ is_Some (config L3 !! "checkpoint_dir")
  /\ (first_batch_nonempty (train_loader L3) /\ samples (val_loader L3) <> 0 ->
        exists best' tr', epoch1 = (Ret best', tr'))
  /\ (~ (first_batch_nonempty (train_loader L3) /\ samples (val_loader L3) <> 0) ->
        exists tr', epoch1 = (Raise ZeroDivisionError, tr'))
  /\ (train_loader L3 = [] \/ val_loader L3 = [] ->
        exists tr', epoch1 = (Raise ZeroDivisionError, tr')).
Proof.
  assert (K1 : is_Some (config L3 !! "num_epochs")) by (vm_compute; eauto).
  assert (K2 : is_Some (config L3 !! "checkpoint_dir")) by (vm_compute; eauto).
  split; [apply oracle_obliging|]. split; [exact K1|]. split; [exact K2|].
  exact (metrics_defined_iff_samples (oracle cpu_linux) L3 0%Q 0 []
           (oracle_obliging cpu_linux) K1 K2).
Defined.

(** C9, as the specification words it, fails: here each loader yields a
    batch and a sample, the collaborators never raise, and the epoch
    divides by zero, because the first training batch is empty. *)
Lemma first_batch_empty_divides_by_zero :
  obliging (oracle empty_first_batch)
  /\ yields_batch_and_sample (train_loader (demo_locals empty_first_batch (small_config 1)))
  /\ yields_batch_and_sample (val_loader (demo_locals empty_first_batch (small_config 1)))
  /\ (train_epoch (oracle empty_first_batch)
        (demo_locals empty_first_batch (small_config 1)) 0%Q 0 []).1
     = Raise ZeroDivisionError.
Proof.
  split; [apply oracle_obliging|].
  split; [split; [discriminate | vm_compute; discriminate]|].
  split; [split; [discriminate | vm_compute; discriminate]|].
  vm_compute. reflexivity.
Qed.

(** *** Further runs *)

(** Two epochs that never classify a validation sample correctly. *)
Abbreviation never2 :=
  (epoch_loop (oracle never_right) (demo_locals never_right (small_config 2)) []).

(** The logger and the CUDA question, without [data_dir] and with a
    [data_dir] that is a number. *)
Abbreviation greeted := (preamble (oracle cpu_linux) no_data_dir []).
Abbreviation greeted7 := (preamble (oracle cpu_linux) numeric_data_dir []).

(** The logger, the CUDA question and the datasets, on a system that
    cannot tell its number of CPUs. *)
Abbreviation greeted_blind := (preamble (oracle no_cpu_count) (small_config 1) []).
Abbreviation datasets_blind :=
  (create_datasets (oracle no_cpu_count) (small_config 1) [] greeted_blind.2).

(** Lines 59-86 on the CPU, for a given configuration. *)
Abbreviation init cfg :=
  (initialize (oracle cpu_linux) cfg [] false [0] [1]
     (s_train cpu_linux) (s_val cpu_linux) []).
Abbreviation fit_cpu cfg :=
  (fit (oracle cpu_linux) cfg [] false [0] [1] (s_train cpu_linux) (s_val cpu_linux) []).

(** A training that never improves completes without [checkpoint_dir],
    having saved nothing; one that improves in its first epoch raises
    [KeyError] at the end of that epoch, after the epoch's report. *)
Example without_checkpoint_dir :
  (train (oracle never_right) no_checkpoint_dir []).1 = Ret tt
  /\ omap validated (train (oracle never_right) no_checkpoint_dir []).2 = [0%Q; 0%Q]
  /\ omap saved (train (oracle never_right) no_checkpoint_dir []).2 = []
  /\ (train (oracle cpu_linux) no_checkpoint_dir []).1 = Raise (KeyError "checkpoint_dir")
  /\ omap validated (train (oracle cpu_linux) no_checkpoint_dir []).2 = [(100 # 3)%Q]
  /\ last (train (oracle cpu_linux) no_checkpoint_dir []).2
     = Some (Raised (KeyError "checkpoint_dir")).
Proof. vm_compute. auto 10. Qed.

(** Without an improvement, nothing is saved and the best stays 0.0. *)
Example never_improving :
  never2.1 = Ret 0%Q /\ omap validated never2.2 = [0%Q; 0%Q] /\ omap saved never2.2 = [].
Proof. vm_compute. auto. Qed.

(** The progress bar divides the loss by the samples, the report by the
    batches. *)
Example progress_bar_and_report :
  omap postfix epoch1.2 = [((1 # 2)%Q, 50%Q); ((1 # 2)%Q, 50%Q)]
  /\ omap train_report epoch1.2 = [(1%Q, 50%Q)].
Proof. vm_compute. auto. Qed.

Lemma checkpoints_strictly_improve_witness :
  plateau3 = (Ret 100%Q, plateau3.2)
  /\ exists evs : events, plateau3.2 = [] ++ evs /\
       let cps := omap saved evs in
       (forall c, head cps = Some c -> fgt c.2 (of_Q 0) = true)
       /\ (forall i c1 c2, cps !! i = Some c1 -> cps !! S i = Some c2 ->
             c1.1 < c2.1 /\ fgt c2.2 c1.2 = true)
       /\ (forall c, c ∈ cps -> c.1 < length (epoch_range (config P3)))
       /\ 100%Q = default (of_Q 0) (snd <$> last cps)
       /\ (cps = [] <-> Forall (fun v => fgt v (of_Q 0) = false) (omap validated evs)).
Proof.
  assert (R : plateau3 = (Ret 100%Q, plateau3.2)) by (vm_compute; reflexivity).
  split; [exact R|].
  exact (checkpoints_strictly_improve (oracle plateau) P3 [] 100%Q plateau3.2 R).
Defined.

Lemma progress_bar_shows_running_metrics_witness :
  epoch1 = (Ret (100 # 3)%Q, epoch1.2)
  /\ exists evs : events, epoch1.2 = [] ++ evs /\
       let tb := omap train_result evs in
       let items := omap loss_item evs in
       omap postfix evs
       = map (fun i => (fdiv (sum_losses (take (S i) items))
                             (of_Z (Z.of_nat (seen (take (S i) tb)))),
                        percent (hits (take (S i) tb)) (seen (take (S i) tb))))
             (seq 0 (length (train_loader L3)))
       /\ (forall i, seen (take (S i) tb) <> 0)
       /\ snd <$> last (omap postfix evs) = snd <$> head (omap train_report evs).
Proof.
  assert (R : epoch1 = (Ret (100 # 3)%Q, epoch1.2)) by (vm_compute; reflexivity).
  split; [exact R|].
  exact (progress_bar_shows_running_metrics (oracle cpu_linux) L3 0%Q 0 [] (100 # 3)%Q
           epoch1.2 R).
Defined.

Lemma checkpoint_holds_what_the_epoch_reported_witness :
  epoch1 = (Ret (100 # 3)%Q, epoch1.2)
  /\ exists (evs : events) loss acc n, epoch1.2 = [] ++ evs
       /\ omap val_report evs = [(loss, acc)]
       /\ omap epoch_line evs = [(0 + 1, n)]
       /\ config L3 !! "num_epochs" = Some n
       /\ (fgt acc 0%Q = false -> omap checkpoint_call evs = [] /\ (100 # 3)%Q = 0%Q)
       /\ (fgt acc 0%Q = true ->
             exists dir pre,
               config L3 !! "checkpoint_dir" = Some dir
               /\ evs = pre ++ [ Called (save_checkpoint (model L3) (optimizer L3) 0
                                           loss acc dir) (Ret tt);
                                 Called (Logger_log (logger L3) (MsgNewBest acc)) (Ret tt) ]
               /\ omap checkpoint_call pre = []
               /\ (100 # 3)%Q = acc).
Proof.
  assert (R : epoch1 = (Ret (100 # 3)%Q, epoch1.2)) by (vm_compute; reflexivity).
  split; [exact R|].
  exact (checkpoint_holds_what_the_epoch_reported (oracle cpu_linux) L3 0%Q 0 []
           (100 # 3)%Q epoch1.2 R).
Defined.

Lemma epochs_switch_between_training_and_evaluation_witness :
  loop3 = (Ret 100%Q, loop3.2)
  /\ exists evs : events, loop3.2 = [] ++ evs
       /\ omap mode_of evs
          = concat (repeat (epoch_modes (length (train_loader L3)) (length (val_loader L3)))
                      (length (epoch_range (config L3)))).
Proof.
  assert (R : loop3 = (Ret 100%Q, loop3.2)) by (vm_compute; reflexivity).
  split; [exact R|].
  exact (epochs_switch_between_training_and_evaluation (oracle cpu_linux) L3 [] 100%Q
           loop3.2 R).
Defined.


Lemma completed_training_read_its_configuration_witness :
  train2 = (Ret tt, train2.2)
  /\ exists evs : events, train2.2 = [] ++ evs
       /\ is_Some (small_config 2 !! "log_dir")
       /\ (length (omap dataset_built evs) = 2 ->
             is_Some (small_config 2 !! "data_dir")
             /\ is_Some (small_config 2 !! "batch_size")
             /\ is_Some (small_config 2 !! "learning_rate")
             /\ is_Some (small_config 2 !! "weight_decay")
             /\ (exists n, small_config 2 !! "num_epochs" = Some (VInt n))
             /\ (omap saved evs <> [] -> is_Some (small_config 2 !! "checkpoint_dir"))).
Proof.
  assert (R : train2 = (Ret tt, train2.2)) by (vm_compute; reflexivity).
  split; [exact R|].
  exact (completed_training_read_its_configuration (oracle gpu_windows) (small_config 2) []
           train2.2 R).
Defined.

Lemma data_dir_errors_are_logged_not_raised_witness :
  greeted = (Ret ([], false), greeted.2)
  /\ no_data_dir !! "data_dir" = None
  /\ (exists r,
        train (oracle cpu_linux) no_data_dir []
        = (match r with Ret _ => Ret tt | Raise e' => Raise e' end,
           greeted.2
           ++ [ Raised (KeyError "data_dir");
                Called (Logger_log [] (MsgDatasetError "'data_dir'")) r ]))
  /\ greeted7 = (Ret ([], false), greeted7.2)
  /\ numeric_data_dir !! "data_dir" = Some (VInt 7)
  /\ oracle cpu_linux _ (os_path_join (VInt 7) "train") greeted7.2
     = Raise (TypeError "expected str, bytes or os.PathLike object")
  /\ (exists r,
        train (oracle cpu_linux) numeric_data_dir []
        = (match r with Ret _ => Ret tt | Raise e' => Raise e' end,
           greeted7.2
           ++ [ Called (os_path_join (VInt 7) "train")
                  (Raise (TypeError "expected str, bytes or os.PathLike object"));
                Called (Logger_log []
                          (MsgDatasetError
                             (exc_msg (TypeError "expected str, bytes or os.PathLike object"))))
                  r ])).
Proof.
  assert (R : greeted = (Ret ([], false), greeted.2)) by (vm_compute; reflexivity).
  assert (K : no_data_dir !! "data_dir" = None) by (vm_compute; reflexivity).
  assert (R7 : greeted7 = (Ret ([], false), greeted7.2)) by (vm_compute; reflexivity).
  assert (K7 : numeric_data_dir !! "data_dir" = Some (VInt 7)) by (vm_compute; reflexivity).
  assert (J7 : oracle cpu_linux _ (os_path_join (VInt 7) "train") greeted7.2
               = Raise (TypeError "expected str, bytes or os.PathLike object"))
    by reflexivity.
  split; [exact R|]. split; [exact K|].
  split; [exact (proj1 (data_dir_errors_are_logged_not_raised (oracle cpu_linux)
                          no_data_dir [] [] false greeted.2 R) K)|].
  split; [exact R7|]. split; [exact K7|]. split; [exact J7|].
  exact (proj2 (data_dir_errors_are_logged_not_raised (oracle cpu_linux)
                  numeric_data_dir [] [] false greeted7.2 R7)
           (VInt 7) (TypeError "expected str, bytes or os.PathLike object") K7 J7 eq_refl).
Defined.

Lemma unknown_cpu_count_is_a_type_error_witness :
  greeted_blind = (Ret ([], false), greeted_blind.2)
  /\ datasets_blind = (Ret (Some ([0], [1])), datasets_blind.2)
  /\ is_Some (small_config 1 !! "batch_size")
  /\ oracle no_cpu_count _ os_name datasets_blind.2 = Ret "posix"
  /\ "posix" <> "nt"
  /\ oracle no_cpu_count _ os_cpu_count (datasets_blind.2 ++ [Called os_name (Ret "posix")])
     = Ret None
  /\ train (oracle no_cpu_count) (small_config 1) []
     = (Raise (TypeError "'<' not supported between instances of 'int' and 'NoneType'"),
        datasets_blind.2
        ++ [ Called os_name (Ret "posix");
             Called os_cpu_count (Ret None);
             Raised (TypeError
                       "'<' not supported between instances of 'int' and 'NoneType'") ]).
Proof.
  assert (R1 : greeted_blind = (Ret ([], false), greeted_blind.2))
    by (vm_compute; reflexivity).
  assert (R2 : datasets_blind = (Ret (Some ([0], [1])), datasets_blind.2))
    by (vm_compute; reflexivity).
  assert (K : is_Some (small_config 1 !! "batch_size")) by (vm_compute; eauto).
  assert (Hne : "posix" <> "nt") by discriminate.
  split; [exact R1|]. split; [exact R2|]. split; [exact K|].
  split; [reflexivity|]. split; [exact Hne|]. split; [reflexivity|].
  exact (unknown_cpu_count_is_a_type_error (oracle no_cpu_count) (small_config 1) []
           [] false greeted_blind.2 [0] [1] datasets_blind.2 "posix"
           R1 R2 K eq_refl Hne eq_refl).
Defined.

Lemma epoch_count_comes_from_range_witness :
  init (small_config 0)
  = (Ret (demo_locals cpu_linux (small_config 0)), (init (small_config 0)).2)
  /\ small_config 0 !! "num_epochs" = Some (VInt 0)
  /\ fit_cpu (small_config 0) = (Ret tt, (init (small_config 0)).2)
  /\ init float_epochs = (Ret (demo_locals cpu_linux float_epochs), (init float_epochs).2)
  /\ float_epochs !! "num_epochs" = Some (VFloat 50%Q)
  /\ (exists e, exc_class e = "TypeError"
        /\ fit_cpu float_epochs = (Raise e, (init float_epochs).2 ++ [Raised e]))
  /\ init no_num_epochs = (Ret (demo_locals cpu_linux no_num_epochs), (init no_num_epochs).2)
  /\ no_num_epochs !! "num_epochs" = None
  /\ fit_cpu no_num_epochs
     = (Raise (KeyError "num_epochs"),
        (init no_num_epochs).2 ++ [Raised (KeyError "num_epochs")]).
Proof.
  assert (R0 : init (small_config 0)
               = (Ret (demo_locals cpu_linux (small_config 0)), (init (small_config 0)).2))
    by (vm_compute; reflexivity).
  assert (K0 : small_config 0 !! "num_epochs" = Some (VInt 0)) by (vm_compute; reflexivity).
  assert (R1 : init float_epochs
               = (Ret (demo_locals cpu_linux float_epochs), (init float_epochs).2))
    by (vm_compute; reflexivity).
  assert (K1 : float_epochs !! "num_epochs" = Some (VFloat 50%Q))
    by (vm_compute; reflexivity).
  assert (R2 : init no_num_epochs
               = (Ret (demo_locals cpu_linux no_num_epochs), (init no_num_epochs).2))
    by (vm_compute; reflexivity).
  assert (K2 : no_num_epochs !! "num_epochs" = None) by (vm_compute; reflexivity).
  split; [exact R0|]. split; [exact K0|].
  split; [exact (proj1 (epoch_count_comes_from_range (oracle cpu_linux) (small_config 0)
                          [] false [0] [1] (s_train cpu_linux) (s_val cpu_linux) []
                          (demo_locals cpu_linux (small_config 0))
                          (init (small_config 0)).2 R0) 0%Z K0 (Z.le_refl 0))|].
  split; [exact R1|]. split; [exact K1|].
  split; [exact (proj1 (proj2 (epoch_count_comes_from_range (oracle cpu_linux) float_epochs
                                 [] false [0] [1] (s_train cpu_linux) (s_val cpu_linux) []
                                 (demo_locals cpu_linux float_epochs)
                                 (init float_epochs).2 R1))
                   (VFloat 50%Q) K1 (fun n E => eq_ind (VFloat 50%Q)
                      (fun v => match v with VFloat _ => True | _ => False end) I _ E))|].
  split; [exact R2|]. split; [exact K2|].
  exact (proj2 (proj2 (epoch_count_comes_from_range (oracle cpu_linux) no_num_epochs
                         [] false [0] [1] (s_train cpu_linux) (s_val cpu_linux) []
                         (demo_locals cpu_linux no_num_epochs)
                         (init no_num_epochs).2 R2)) K2).
Defined.

(** A negative number of epochs is no epoch. *)
Example negative_epoch_count :
  (fit_cpu (small_config (-3))).1 = Ret tt
  /\ omap epoch_line (fit_cpu (small_config (-3))).2 = [].
Proof. vm_compute. auto. Qed.

Lemma no_checkpoint_without_checkpoint_dir_witness :
  no_checkpoint_dir !! "checkpoint_dir" = None
  /\ exists evs : events,
       (train (oracle never_right) no_checkpoint_dir []).2 = [] ++ evs
       /\ omap saved evs = []
       /\ ((train (oracle never_right) no_checkpoint_dir []).1 = Ret tt ->
           Forall (fun v => fgt v (of_Q 0) = false) (omap validated evs)).
Proof.
  assert (K : no_checkpoint_dir !! "checkpoint_dir" = None) by (vm_compute; reflexivity).
  split; [exact K|].
  exact (no_checkpoint_without_checkpoint_dir (oracle never_right) no_checkpoint_dir [] K).
Defined.

Lemma script_seeds_before_it_trains_witness :
  script = (Ret tt, script.2)
  /\ exists (evs : events) c1 c2, script.2 = [] ++ evs
       /\ omap setup_of evs
          = [ MakeDir (VStr "../logs") true; MakeDir (VStr "../checkpoints") true;
              SeedTorch 42; AskCuda c1 ]
            ++ (if c1 then [SeedCuda 42] else [])
            ++ [ OpenLog (VStr "../logs"); AskCuda c2 ].
Proof.
  assert (R : script = (Ret tt, script.2)) by (vm_compute; reflexivity).
  split; [exact R|].
  exact (script_seeds_before_it_trains (oracle cpu_linux) [] script.2 R).
Defined.


Lemma training_uses_the_objects_it_created_witness :
  train2 = (Ret tt, train2.2)
  /\ exists evs : events, train2.2 = [] ++ evs
       /\ (length (omap dataset_built evs) = 2 ->
           exists L params lr wd,
             omap construction_of evs
             = [ NewLogger (logger L); MovedModel (model L); NewScaler (scaler L);
                 NewCriterion (criterion L); ParametersOf (model L) params;
                 NewOptimizer params lr wd (optimizer L);
                 NewScheduler (optimizer L) (scheduler L) ]
             /\ small_config 2 !! "learning_rate" = Some lr
             /\ small_config 2 !! "weight_decay" = Some wd
             /\ Forall (uses L) evs).
Proof.
  assert (R : train2 = (Ret tt, train2.2)) by (vm_compute; reflexivity).
  split; [exact R|].
  exact (training_uses_the_objects_it_created (oracle gpu_windows) (small_config 2) []
           train2.2 R).
Defined.

Lemma datasets_and_their_statistics_witness :
  train2 = (Ret tt, train2.2)
  /\ exists evs : events, train2.2 = [] ++ evs
       /\ (length (omap dataset_built evs) = 2 ->
           exists d p1 tds p2 vds k n m k',
             small_config 2 !! "data_dir" = Some d
             /\ omap data_of evs
                = [ JoinPath d "train" p1; BuildDataset p1 "train" tds;
                    JoinPath d "val" p2; BuildDataset p2 "val" vds;
                    CountClasses tds k; LogClasses k;
                    CountSamples tds n; LogTrainingSamples n;
                    CountSamples vds m; LogValidationSamples m;
                    CountClasses tds k'; BuildModel k' ]).
Proof.
  assert (R : train2 = (Ret tt, train2.2)) by (vm_compute; reflexivity).
  split; [exact R|].
  exact (datasets_and_their_statistics (oracle gpu_windows) (small_config 2) []
           train2.2 R).
Defined.

Lemma learning_rates_shown_are_fresh_witness :
  epoch1 = (Ret (100 # 3)%Q, epoch1.2)
  /\ exists (evs : events) (shown : list Q) (logged : Q), epoch1.2 = [] ++ evs
       /\ length shown = length (train_loader L3)
       /\ omap rate_of evs
          = concat (map (fun lr => [StepTaken; ReadRate lr; ShowRate lr]) shown)
            ++ [ScheduleStep; ReadRate logged; LogRate logged].
Proof.
  assert (R : epoch1 = (Ret (100 # 3)%Q, epoch1.2)) by (vm_compute; reflexivity).
  split; [exact R|].
  exact (learning_rates_shown_are_fresh (oracle cpu_linux) L3 0%Q 0 [] (100 # 3)%Q
           epoch1.2 R).
Defined.


Lemma device_is_described_only_when_available_witness :
  train2 = (Ret tt, train2.2)
  /\ exists evs : events, train2.2 = [] ++ evs
       /\ (omap device_of evs = [AskedCuda false; ToldDevice MsgNoCuda]
           \/ exists name bytes,
                omap device_of evs
                = [ AskedCuda true;
                    DeviceName 0 name; ToldDevice (MsgUsingGPU name);
                    DeviceMemory 0 bytes;
                    ToldDevice (MsgGPUMemory (of_Q (Qmake bytes (1024 ^ 3)%positive))) ]).
Proof.
  assert (R : train2 = (Ret tt, train2.2)) by (vm_compute; reflexivity).
  split; [exact R|].
  exact (device_is_described_only_when_available (oracle gpu_windows) (small_config 2) []
           train2.2 R).
Defined.

(** Eight GiB of device memory are told as 8. *)
Example memory_in_gib :
  omap device_of train2.2
  = [ AskedCuda true; DeviceName 0 "GPU"; ToldDevice (MsgUsingGPU "GPU");
      DeviceMemory 0 (8 * 1024 ^ 3); ToldDevice (MsgGPUMemory 8%Q) ].
Proof. vm_compute. reflexivity. Qed.


(** *** Runs that fail to build a dataset, and runs in which nothing fails *)

(** The logger and the CUDA question, where the validation data are
    missing, and on the CPU. *)
Abbreviation greeted_no_val := (preamble (oracle no_val_data) (small_config 3) []).
Abbreviation greeted_cpu := (preamble (oracle cpu_linux) (small_config 1) []).
Abbreviation datasets_cpu :=
  (create_datasets (oracle cpu_linux) (small_config 1) [] greeted_cpu.2).

Lemma dataset_failure_aborts_later_failures_propagate_witness :
  greeted_no_val = (Ret ([], false), greeted_no_val.2)
  /\ small_config 3 !! "data_dir" = Some (VStr "../data/split_images")
  /\ (exists r,
        train (oracle no_val_data) (small_config 3) []
        = (match r with Ret _ => Ret tt | Raise e' => Raise e' end,
           greeted_no_val.2
           ++ [ Called (os_path_join (VStr "../data/split_images") "train")
                  (Ret "../data/split_images/train");
                Called (EmotionDataset "../data/split_images/train" "train") (Ret [0]);
                Called (os_path_join (VStr "../data/split_images") "val")
                  (Ret "../data/split_images/val");
                Called (EmotionDataset "../data/split_images/val" "val")
                  (Raise (PyExc "FileNotFoundError" "no such directory" true)) ]
           ++ [ Called (Logger_log []
                          (MsgDatasetError
                             (exc_msg (PyExc "FileNotFoundError" "no such directory" true))))
                  r ]))
  /\ greeted_cpu = (Ret ([], false), greeted_cpu.2)
  /\ small_config 1 !! "data_dir" = Some (VStr "../data/split_images")
  /\ datasets_cpu = (Ret (Some ([0], [1])), datasets_cpu.2)
  /\ train (oracle cpu_linux) (small_config 1) []
     = train_rest (oracle cpu_linux) (small_config 1) [] false [0] [1] datasets_cpu.2
  /\ (exists evs : events, evs <> []
        /\ (train (oracle cpu_linux) (small_config 1) []).2 = datasets_cpu.2 ++ evs
        /\ settled evs (train (oracle cpu_linux) (small_config 1) []).1).
Proof.
  assert (R : greeted_no_val = (Ret ([], false), greeted_no_val.2))
    by (vm_compute; reflexivity).
  assert (K : small_config 3 !! "data_dir" = Some (VStr "../data/split_images"))
    by (vm_compute; reflexivity).
  assert (R' : greeted_cpu = (Ret ([], false), greeted_cpu.2))
    by (vm_compute; reflexivity).
  assert (K' : small_config 1 !! "data_dir" = Some (VStr "../data/split_images"))
    by (vm_compute; reflexivity).
  assert (D' : datasets_cpu = (Ret (Some ([0], [1])), datasets_cpu.2))
    by (vm_compute; reflexivity).
  split; [exact R|]. split; [exact K|].
  split; [exact (proj1 (proj1 (proj2 (dataset_failure_aborts_later_failures_propagate
                    (oracle no_val_data) (small_config 3) [] [] false greeted_no_val.2
                    (VStr "../data/split_images") R K))
                    "../data/split_images/train" [0] "../data/split_images/val"
                    (PyExc "FileNotFoundError" "no such directory" true)
                    eq_refl eq_refl eq_refl eq_refl) eq_refl)|].
  split; [exact R'|]. split; [exact K'|]. split; [exact D'|].
  exact (proj2 (proj2 (dataset_failure_aborts_later_failures_propagate
                  (oracle cpu_linux) (small_config 1) [] [] false greeted_cpu.2
                  (VStr "../data/split_images") R' K')) [0] [1] datasets_cpu.2 D').
Defined.

(** C2, as the specification words it, fails: here the construction of
    the training dataset raises [KeyboardInterrupt], which is an
    exception but no [Exception]; [train] does not catch it, logs no
    error and does not return: it raises the interrupt. *)
Lemma keyboard_interrupt_is_not_caught :
  omap dataset_failure (train (oracle interrupted) (small_config 1) []).2
  = [PyExc "KeyboardInterrupt" EmptyString false]
  /\ omap error_logged (train (oracle interrupted) (small_config 1) []).2 = []
  /\ (train (oracle interrupted) (small_config 1) []).1
     = Raise (PyExc "KeyboardInterrupt" EmptyString false).
Proof. vm_compute. auto. Qed.


(** With CUDA, two epochs over two training batches and one validation
    batch; without, one epoch. *)
Example precision_with_and_without_cuda :
  omap precision_of train2.2
  = CudaAvailable true :: CreateScaler true
    :: concat (repeat (epoch_precision true 2 1) 2)
  /\ omap precision_of (train (oracle cpu_linux) (small_config 1) []).2
     = CudaAvailable false :: CreateScaler false :: epoch_precision false 2 1.
Proof. vm_compute. auto. Qed.

Lemma main_creates_directories_and_runs_configured_epochs_witness :
  script = (Ret tt, [] ++ script.2)
  /\ omap failure script.2 = []
  /\ dom (@main_config Q _) = {[ "data_dir"; "log_dir"; "checkpoint_dir"; "batch_size";
                                  "learning_rate"; "weight_decay"; "num_epochs" ]}
  /\ @main_config Q _ !! "num_epochs" = Some (VInt 50)
  /\ take 2 script.2 = [ Called (os_makedirs (VStr "../logs") true) (Ret tt);
                         Called (os_makedirs (VStr "../checkpoints") true) (Ret tt) ]
  /\ omap made_dir (drop 2 script.2) = []
  /\ length (omap dataset_built script.2) = 2
  /\ omap epoch_line script.2 = map (fun e => (e + 1, VInt 50)) (seq 0 50)
  /\ length (omap validated script.2) = 50.
Proof.
  assert (R : script = (Ret tt, [] ++ script.2)) by (vm_compute; reflexivity).
  assert (Hq : omap failure script.2 = []) by (vm_compute; reflexivity).
  destruct (main_creates_directories_and_runs_configured_epochs (oracle cpu_linux) []
              script.2 R) as (A & B & C & D & X & _).
  exact (conj R (conj Hq (conj A (conj B (conj C (conj D (X Hq))))))).
Defined.

Lemma reported_accuracy_is_a_percentage_witness :
  epoch1 = (Ret (100 # 3)%Q, [] ++ epoch1.2)
  /\ Forall (fun ol : list (list Q) * list nat => length ol.1 = length ol.2)
       (omap train_result epoch1.2 ++ omap val_result epoch1.2)
  /\ exists c_train c_val,
       snd <$> omap train_report epoch1.2 = [percent c_train (samples (train_loader L3))]
       /\ snd <$> omap val_report epoch1.2 = [percent c_val (samples (val_loader L3))]
       /\ c_train <= samples (train_loader L3) /\ c_val <= samples (val_loader L3)
       /\ 0 < samples (train_loader L3) /\ 0 < samples (val_loader L3).
Proof.
  assert (R : epoch1 = (Ret (100 # 3)%Q, [] ++ epoch1.2)) by (vm_compute; reflexivity).
  assert (Hrows : Forall (fun ol : list (list Q) * list nat => length ol.1 = length ol.2)
                    (omap train_result epoch1.2 ++ omap val_result epoch1.2))
    by (vm_compute; repeat constructor).
  split; [exact R|]. split; [exact Hrows|].
  exact (reported_accuracy_is_a_percentage (oracle cpu_linux) L3 0%Q 0 [] epoch1.2
           (100 # 3)%Q R Hrows).
Defined.

Lemma tensors_follow_the_model_to_the_device_witness :
  train2 = (Ret tt, [] ++ train2.2)
  /\ omap failure train2.2 = []
  /\ exists (c : bool) tds vds tl vl,
       omap cuda_answer train2.2 = [c]
       /\ omap loader_made train2.2 = [(tds, true, tl); (vds, false, vl)]
       /\ omap move_of train2.2
          = MoveModel (if c then cuda else cpu)
            :: concat (repeat (epoch_moves (if c then cuda else cpu) (length tl) (length vl))
                         (length (epoch_range (small_config 2)))).
Proof.
  assert (R : train2 = (Ret tt, [] ++ train2.2)) by (vm_compute; reflexivity).
  assert (Hq : omap failure train2.2 = []) by (vm_compute; reflexivity).
  split; [exact R|]. split; [exact Hq|].
  exact (proj1 (tensors_follow_the_model_to_the_device (oracle gpu_windows)
                  (small_config 2) [] train2.2 R) Hq).
Defined.


End Runs.
